(** * MTInversion, tutorial/2_data_prep.ipynb: data preparation and synthetics

    A shallow embedding of the notebook's code cells.  The notebook is a
    straight-line Python program over a kernel namespace, a file system and
    the shell; each code cell is embedded as a computation in a state and
    exception monad, and the ObsPy calls it makes on traces are embedded as
    functions on a [Trace] record.

    Numbers.  Python floats and ObsPy time stamps are embedded as exact
    rationals ([Q]); integers as [Z].  Rounding to the binary64 grid and to
    the nanosecond grid of [UTCDateTime] is not part of the model.

    The first part holds the embedding, the second the facts about it. *)

From Stdlib Require Import ZArith QArith Qround Qabs Lqa Lia.
From Stdlib Require Import List Ascii String DecimalString Sorted Permutation.
From stdpp Require Import gmap strings.

Open Scope Z_scope.

(** ** Rounding *)

Module Rounding.

(** Python's [int(x)] on a float: truncation towards zero. *)
Definition Qtrunc (q : Q) : Z :=
  if Qle_bool 0 q then Qfloor q else Qceiling q.

(** [numpy.sign]. *)
Definition Qsign (q : Q) : Z := Z.sgn (Qnum q).

(** Python 3 [round(x)] and [numpy.round(x)]: nearest integer, ties to the
    even neighbour. *)
Definition py_round (q : Q) : Z :=
  let f := Qfloor q in
  match (q - inject_Z f ?= 1 # 2)%Q with
  | Lt => f
  | Gt => f + 1
  | Eq => if Z.even f then f else f + 1
  end.

(** [obspy.core.compatibility.round_away]:
<<
    floor = np.floor(number)
    ceil = np.ceil(number)
    if (floor != ceil) and (abs(number - floor) == abs(ceil - number)):
        return int(int(number) + int(np.sign(number)))
    else:
        return int(np.round(number))
>> *)
Definition round_away (number : Q) : Z :=
  let floor := Qfloor number in
  let ceil := Qceiling number in
  if negb (floor =? ceil)
     && Qeq_bool (Qabs (number - inject_Z floor)) (Qabs (inject_Z ceil - number))
  then Qtrunc number + Qsign number
  else py_round number.

End Rounding.
Import Rounding.

(** ** Python strings and number formatting *)

Module PyStr.

Local Open Scope string_scope.

(** [s[:-n]] for a positive literal [n]. *)
Definition slice_to_neg (n : nat) (s : string) : string :=
  substring 0 (String.length s - n)%nat s.

(** [s[-1]]; [None] stands for the [IndexError] on the empty string. *)
Fixpoint last_char (s : string) : option ascii :=
  match s with
  | EmptyString => None
  | String c EmptyString => Some c
  | String _ rest => last_char rest
  end.

Definition of_char (c : ascii) : string := String c EmptyString.

(** ['.'.join(parts)] and [','.join(parts)]. *)
Fixpoint join (sep : string) (parts : list string) : string :=
  match parts with
  | nil => ""
  | p :: nil => p
  | p :: rest => p +:+ sep +:+ join sep rest
  end.

Definition digits (n : N) : string := NilZero.string_of_uint (N.to_uint n).

(** [format(z, 'd')] on an [int]. *)
Definition format_d (z : Z) : string :=
  if (z <? 0)%Z then "-" +:+ digits (Z.abs_N z) else digits (Z.to_N z).

Fixpoint zeros (n : nat) : string :=
  match n with
  | O => ""
  | S k => String "0" (zeros k)
  end.

Definition zfill (width : nat) (s : string) : string :=
  zeros (width - String.length s)%nat +:+ s.

(** [format(x, '.<prec>f')]: the value rounded to [prec] decimals, ties to
    even, printed in fixed notation. *)
Definition format_f (prec : nat) (x : Q) : string :=
  let scale := (10 ^ Z.of_nat prec)%Z in
  let m := py_round (Qabs x * inject_Z scale) in
  let frac :=
    match prec with
    | O => ""
    | _ => "." +:+ zfill prec (digits (Z.to_N (m mod scale)%Z))
    end in
  let body := digits (Z.to_N (m / scale)%Z) +:+ frac in
  if Qle_bool 0 x then body else "-" +:+ body.

(** ['{0:<15}'.format(key)]: left-justified in a field of [width]. *)
Fixpoint spaces (n : nat) : string :=
  match n with
  | O => ""
  | S k => String " " (spaces k)
  end.

Definition ljust (width : nat) (s : string) : string :=
  s +:+ spaces (width - String.length s)%nat.

(** Number of line terminators in a text. *)
Fixpoint count_nl (s : string) : nat :=
  match s with
  | EmptyString => O
  | String c rest =>
      if Ascii.eqb c "010" then S (count_nl rest) else count_nl rest
  end.

End PyStr.
Import PyStr.

(** ** Data model *)

(** A row of [datetime.csv]; the fields are the columns the notebook reads. *)
Record EventRow := mkEventRow {
  origin : string;
  lon : Q;
  lat : Q;
  depth : Q
}.

(** A row of [station.csv]. *)
Record StationRow := mkStationRow {
  network : string;
  station : string;
  location : string;
  channel : string;
  component : string;
  distance : Q;
  azimuth : Q;
  longitude : Q;
  latitude : Q
}.

(** The entries of [tr.stats.sac] the notebook touches.  [t1] and [o] may be
    undefined in a SAC header. *)
Record SacHeader := mkSacHeader {
  dist : Q;
  t1 : option Q;
  b : Q;
  o : option Q
}.

(** An ObsPy [Trace]: the identity and timing entries of [tr.stats], the
    samples [tr.data] and the SAC header.  Times are seconds on the
    [UTCDateTime] axis. *)
Record Trace := mkTrace {
  stats_network : string;
  stats_station : string;
  stats_location : string;
  stats_channel : string;
  sampling_rate : Q;
  starttime : Q;
  data : list Q;
  sac : SacHeader
}.

Definition set_data (d : list Q) (t : Trace) : Trace :=
  mkTrace (stats_network t) (stats_station t) (stats_location t) (stats_channel t)
          (sampling_rate t) (starttime t) d (sac t).

Definition set_sampling_rate (r : Q) (t : Trace) : Trace :=
  mkTrace (stats_network t) (stats_station t) (stats_location t) (stats_channel t)
          r (starttime t) (data t) (sac t).

Definition set_starttime (s : Q) (t : Trace) : Trace :=
  mkTrace (stats_network t) (stats_station t) (stats_location t) (stats_channel t)
          (sampling_rate t) s (data t) (sac t).

Definition set_sac (h : SacHeader) (t : Trace) : Trace :=
  mkTrace (stats_network t) (stats_station t) (stats_location t) (stats_channel t)
          (sampling_rate t) (starttime t) (data t) h.

Definition set_t1 (v : Q) (h : SacHeader) : SacHeader :=
  mkSacHeader (dist h) (Some v) (b h) (o h).

Definition set_b (v : Q) (h : SacHeader) : SacHeader :=
  mkSacHeader (dist h) (t1 h) v (o h).

Definition set_o (v : Q) (h : SacHeader) : SacHeader :=
  mkSacHeader (dist h) (t1 h) (b h) (Some v).

(** [tr.id]: network, station, location and channel joined by dots. *)
Definition id (t : Trace) : string :=
  join "." [stats_network t; stats_station t; stats_location t; stats_channel t].

(** [tr.stats.npts], [tr.stats.delta] and [tr.stats.endtime], which ObsPy
    derives from the samples, the sampling rate and the start time. *)
Definition npts_of (t : Trace) : Z := Z.of_nat (length (data t)).

Definition delta_of (t : Trace) : Q := (1 / sampling_rate t)%Q.

Definition endtime (t : Trace) : Q :=
  if npts_of t =? 0 then starttime t
  else (starttime t + inject_Z (npts_of t - 1) * delta_of t)%Q.

(** A row of the station table of the inversion input. *)
Record ManifestRow := mkManifestRow {
  m_station : string;
  m_distance : Q;
  m_azimuth : Q;
  m_ts : Z;
  m_npts : Z;
  m_dt : Q;
  m_used : Z;
  m_longitude : Q;
  m_latitude : Q
}.

(** Files, by what the notebook reads from or writes to them. *)
Inductive File :=
| SacFile (t : Trace)
| EventCsv (rows : list EventRow)
| StationCsv (rows : list StationRow)
| TextFile (content : string).

(** The file system: existing directories and files, keyed by path.  Parent
    directories of a written file are not tracked. *)
Record World := mkWorld {
  dirs : gset string;
  files : gmap string File
}.

(** The names of the kernel namespace that are bound conditionally or by a
    loop.  [tr], the loop variable of the conditioning cell, refers to an
    element of [st] and is kept as that element's index; in a run from top
    to bottom it is bound only where [st] is. *)
Record Env := mkEnv {
  df : option (list EventRow);
  station_df : option (list StationRow);
  origin_time : option Q;
  st : option (list Trace);
  tr : option nat;
  depths : option (list Z);
  green_dir : option string;
  headers : option (list (string * string));
  df_out : option (list ManifestRow)
}.

Definition empty_env : Env :=
  mkEnv None None None None None None None None None.

(** The values the notebook assigns by hand: the event, the processing
    parameters of the filter cell and the modelling parameters of the
    Green's-function cell. *)
Record Config := mkConfig {
  evid : string;
  freqmin : Q;
  freqmax : Q;
  corners : Z;
  dt : Q;
  vred : option Q;   (* [None] is Python's [None] *)
  time_before : Q;
  time_after : Q;
  model : string;
  npts : Z;
  t0 : Z
}.

Definition notebook_config : Config :=
  mkConfig "40191336" (2 # 100) (5 # 100) 3 1%Q (Some 0%Q) 30%Q 200%Q "gil7" 256 0.

(** ** Exceptions, state and the cell monad *)

Inductive exn :=
| NameError (name : string)
| KeyError (key : string)
| IndexError (msg : string)
| ValueError (msg : string)
| TypeError (msg : string)
| ZeroDivisionError
| FileNotFoundError (path : string)
| FileExistsError (path : string)
| Exception (msg : string).

(** Results of the ObsPy calls, which change one trace or raise. *)
Inductive Except (A : Type) :=
| Done (a : A)
| Fail (e : exn).
Arguments Done {A} a.
Arguments Fail {A} e.

Definition ebind {A B} (x : Except A) (f : A -> Except B) : Except B :=
  match x with
  | Done a => f a
  | Fail e => Fail e
  end.

(** The state a cell runs in: the namespace, the file system, the commands
    handed to the shell so far and the lines printed so far. *)
Record State := mkState {
  env : Env;
  world : World;
  shell : list string;
  stdout : list string
}.

(** A raised exception keeps the state reached when it was raised: the
    effects of a cell up to that point persist. *)
Inductive Result (A : Type) :=
| Ok (a : A) (s : State)
| Raise (e : exn) (s : State).
Arguments Ok {A} a s.
Arguments Raise {A} e s.

Definition M (A : Type) : Type := State -> Result A.

Definition ret {A} (a : A) : M A := fun s => Ok a s.

Definition bind {A B} (m : M A) (f : A -> M B) : M B :=
  fun s => match m s with
           | Ok a s' => f a s'
           | Raise e s' => Raise e s'
           end.

Definition raise {A} (e : exn) : M A := fun s => Raise e s.

#[global] Instance M_ret : MRet M := @ret.
#[global] Instance M_bind : MBind M := fun A B f m => bind m f.
#[global] Instance Except_ret : MRet Except := @Done.
#[global] Instance Except_bind : MBind Except := fun A B f x => ebind x f.

Definition lift {A} (x : Except A) : M A :=
  match x with
  | Done a => ret a
  | Fail e => raise e
  end.

Definition get_env : M Env := fun s => Ok (env s) s.
Definition get_world : M World := fun s => Ok (world s) s.

Definition put_env (e : Env) : M unit :=
  fun s => Ok tt (mkState e (world s) (shell s) (stdout s)).

Definition put_world (w : World) : M unit :=
  fun s => Ok tt (mkState (env s) w (shell s) (stdout s)).

Definition print (line : string) : M unit :=
  fun s => Ok tt (mkState (env s) (world s) (shell s) (stdout s ++ [line])).

(** Reading a name of the namespace; an unbound name raises [NameError]. *)
Definition lookup_name {A} (name : string) (field : Env -> option A) : M A :=
  e ← get_env;
  match field e with
  | Some v => ret v
  | None => raise (NameError name)
  end.

(** [for x in xs: body]. *)
Fixpoint for_each {A} (xs : list A) (body : A -> M unit) : M unit :=
  match xs with
  | [] => ret tt
  | x :: rest => body x;; for_each rest body
  end.

(** ** Python sequences *)

(** [x < y] on float values. *)
Definition Qltb (x y : Q) : bool := negb (Qle_bool y x).

(** [l[::step]] for a positive step: the elements at the multiples of it. *)
Fixpoint stride_from {A} (step wait : nat) (l : list A) : list A :=
  match l with
  | [] => []
  | x :: rest =>
      match wait with
      | O => x :: stride_from step (step - 1) rest
      | S w => stride_from step w rest
      end
  end.

(** [l[::step]] for a non-zero step; a negative step walks backwards from
    the last element. *)
Definition py_stride {A} (step : Z) (l : list A) : list A :=
  if 0 <? step then stride_from (Z.to_nat step) 0 l
  else stride_from (Z.to_nat (- step)) 0 (rev l).

(** [l[:total]]; a negative bound counts from the end. *)
Definition py_take {A} (total : Z) (l : list A) : list A :=
  if total <? 0 then take (length l - Z.to_nat (- total)) l
  else take (Z.to_nat total) l.

(** ** ObsPy trace methods

    The methods of [obspy.core.trace.Trace] the notebook calls, with the
    arguments it passes.  The numerical kernels behind [filter], [taper]
    and [resample] are taken as given functions that return new samples or
    raise; everything the methods do to the trace around them is spelled
    out. *)

Section Notebook.

(** [obspy.signal.filter.bandpass(data, freqmin, freqmax, df, corners,
    zerophase=True)], as [bandpass freqmin freqmax corners df data]. *)
Variable bandpass : Q -> Q -> Z -> Q -> list Q -> Except (list Q).

(** The taper window applied by [taper(max_percentage)]. *)
Variable cosine_taper : Q -> list Q -> Except (list Q).

(** The Fourier resampling of [resample], from the old to the new rate. *)
Variable fourier_resample : Q -> Q -> list Q -> Except (list Q).

(** [tr.filter('bandpass', freqmin=..., freqmax=..., corners=...,
    zerophase=True)]. *)
Definition filter (c : Config) (t : Trace) : Except Trace :=
  d ← bandpass (freqmin c) (freqmax c) (corners c) (sampling_rate t) (data t);
  mret (set_data d t).

(** [tr.taper(max_percentage=0.05)]; a trace without samples is left alone. *)
Definition taper (t : Trace) : Except Trace :=
  match data t with
  | [] => mret t
  | _ => d ← cosine_taper (5 # 100) (data t); mret (set_data d t)
  end.

(** [tr.decimate(factor, strict_length=False, no_filter=True)]:
<<
    self.data = self.data[::factor]
    self.stats.sampling_rate = self.stats.sampling_rate / float(factor)
>> *)
Definition decimate (factor : Z) (t : Trace) : Except Trace :=
  if factor =? 0 then Fail (ValueError "slice step cannot be zero")
  else mret (set_sampling_rate (sampling_rate t / inject_Z factor)
               (set_data (py_stride factor (data t)) t)).

(** [tr.resample(rate, strict_length=False, no_filter=True)]; a trace
    without samples is left alone, sampling rate included. *)
Definition resample (rate : Q) (t : Trace) : Except Trace :=
  match data t with
  | [] => mret t
  | _ =>
      if Qeq_bool rate 0 then Fail ZeroDivisionError
      else d ← fourier_resample (sampling_rate t) rate (data t);
           mret (set_sampling_rate rate (set_data d t))
  end.

(** The sample offset [_ltrim] settles on with [pad=True] and
    [nearest_sample=True]:
<<
    delta = round_away((starttime - self.stats.starttime)
                       * self.stats.sampling_rate)
    if delta < 0 and pad:
        npts = abs(delta) + 10
        newstarttime = self.stats.starttime - npts / float(self.stats.sampling_rate)
        newdelta = round_away((starttime - newstarttime) * self.stats.sampling_rate)
        delta = newdelta - npts
>> *)
Definition ltrim_delta (start : Q) (t : Trace) : Z :=
  let delta := round_away ((start - starttime t) * sampling_rate t) in
  if delta <? 0 then
    let npts := Z.abs delta + 10 in
    let newstarttime := (starttime t - inject_Z npts / sampling_rate t)%Q in
    let newdelta := round_away ((start - newstarttime) * sampling_rate t) in
    newdelta - npts
  else delta.

(** [tr._ltrim(start, pad=True, nearest_sample=True, fill_value=0)]. *)
Definition ltrim (start : Q) (t : Trace) : Trace :=
  let delta := ltrim_delta start t in
  let t' := set_starttime (starttime t + inject_Z delta * delta_of t) t in
  if delta =? 0 then t'
  else if delta <? 0 then
    set_data (replicate (Z.to_nat (Z.abs delta)) 0%Q ++ data t') t'
  else if Qltb (endtime t') start then set_data [] t'
  else set_data (drop (Z.to_nat delta) (data t')) t'.

(** [tr._rtrim(stop, pad=True, nearest_sample=True, fill_value=0)]. *)
Definition rtrim (stop : Q) (t : Trace) : Trace :=
  let delta :=
    round_away ((stop - starttime t) * sampling_rate t) - npts_of t + 1 in
  if delta =? 0 then t
  else if 0 <? delta then
    set_data (data t ++ replicate (Z.to_nat delta) 0%Q) t
  else if Qltb stop (starttime t) then
    set_data [] (set_starttime (endtime t + inject_Z delta * delta_of t) t)
  else
    let total := npts_of t - Z.abs delta in
    let total := if Qeq_bool stop (starttime t) then 1 else total in
    set_data (py_take total (data t)) t.

(** [tr.trim(start, stop, pad=True, fill_value=0)]. *)
Definition trim (start stop : Q) (t : Trace) : Except Trace :=
  if Qltb stop start then Fail (ValueError "startime is larger than endtime")
  else mret (rtrim stop (ltrim start t)).

(** ** The conditioning cell, one trace at a time *)

(** The slowness [p]:
<<
    if vred:
        p = 1/vred
    else:
        p = 0
>> *)
Definition p (c : Config) : Q :=
  match vred c with
  | Some v => if Qeq_bool v 0 then 0%Q else (1 / v)%Q
  | None => 0%Q
  end.

(** [origin_time + p*(tr.stats.sac.dist)], the value stored in [t1]. *)
Definition reference_time (c : Config) (origin_time : Q) (t : Trace) : Q :=
  (origin_time + p c * dist (sac t))%Q.

(** The statements of the loop body, each as a change of the trace [tr]
    refers to. *)

(** [tr.decimate(factor=int(tr.stats.sampling_rate*dt), strict_length=False,
    no_filter=True)] *)
Definition step_decimate (c : Config) (t : Trace) : Except Trace :=
  decimate (Qtrunc (sampling_rate t * dt c)) t.

(** [tr.resample(1/dt, strict_length=False, no_filter=True)] *)
Definition step_resample (c : Config) (t : Trace) : Except Trace :=
  if Qeq_bool (dt c) 0 then Fail ZeroDivisionError
  else resample (1 / dt c) t.

(** [tr.stats.sac.t1 = origin_time + p*(tr.stats.sac.dist)] *)
Definition step_t1 (c : Config) (origin_time : Q) (t : Trace) : Except Trace :=
  mret (set_sac (set_t1 (reference_time c origin_time t) (sac t)) t).

(** [tr.trim(tr.stats.sac.t1-time_before, tr.stats.sac.t1+time_after,
    pad=True, fill_value=0)] *)
Definition step_trim (c : Config) (t : Trace) : Except Trace :=
  match t1 (sac t) with
  | Some ref => trim (ref - time_before c) (ref + time_after c) t
  | None => Fail (KeyError "t1")
  end.

(** [tr.data = 100*tr.data] *)
Definition step_scale (t : Trace) : Except Trace :=
  mret (set_data (map (Qmult 100) (data t)) t).

(** [tr.stats.sac.b = -1*(origin_time - tr.stats.starttime)] *)
Definition step_b (origin_time : Q) (t : Trace) : Except Trace :=
  mret (set_sac (set_b (inject_Z (-1) * (origin_time - starttime t)) (sac t)) t).

(** [tr.stats.sac.o = 0] *)
Definition step_o (t : Trace) : Except Trace :=
  mret (set_sac (set_o 0 (sac t)) t).

(** The body of [for tr in st:] up to the write, on one trace. *)
Definition cut_trace (c : Config) (origin_time : Q) (t : Trace) : Except Trace :=
  t ← step_decimate c t;
  t ← step_resample c t;
  t ← step_t1 c origin_time t;
  t ← step_trim c t;
  t ← step_scale t;
  t ← step_b origin_time t;
  step_o t.

(** What the conditioning cell does to one trace of the stream: the
    stream-wide filter and taper, then the loop body. *)
Definition condition_trace (c : Config) (origin_time : Q) (t : Trace) : Except Trace :=
  t ← filter c t;
  t ← taper t;
  cut_trace c origin_time t.

(** The steps ahead of the windowing: filter, taper, decimate, resample. *)
Definition prepared (c : Config) (t : Trace) : Except Trace :=
  t ← filter c t;
  t ← taper t;
  t ← step_decimate c t;
  step_resample c t.

(** The trace with its reference time stored in [t1]. *)
Definition marked (c : Config) (origin_time : Q) (t : Trace) : Trace :=
  set_sac (set_t1 (reference_time c origin_time t) (sac t)) t.

(** The steps behind the windowing: scaling, then the markers [b] and [o]. *)
Definition finished (origin_time : Q) (t : Trace) : Trace :=
  let t := set_data (map (Qmult 100) (data t)) t in
  let t := set_sac (set_b (inject_Z (-1) * (origin_time - starttime t)) (sac t)) t in
  set_sac (set_o 0 (sac t)) t.

(** The index, within the prepared record, of the sample the window starts
    at: the offset [_ltrim] settles on. *)
Definition window_offset (c : Config) (origin_time : Q) (t2 : Trace) : Z :=
  ltrim_delta (reference_time c origin_time t2 - time_before c)
              (marked c origin_time t2).

(** The paths of the first cell. *)
Definition event_dir (c : Config) : string := evid c.
Definition infile (c : Config) : string := event_dir c +:+ "/datetime.csv".
Definition station_file (c : Config) : string := event_dir c +:+ "/station.csv".
Definition sacdir (c : Config) : string := event_dir c +:+ "/sac".
Definition outdir (c : Config) : string := event_dir c.

(** ['%s/%s.%s.dat'%(outdir,tr.id[:-4],tr.id[-1])] *)
Definition dat_path (c : Config) (t : Trace) : Except string :=
  match last_char (id t) with
  | Some ch =>
      mret (outdir c +:+ "/" +:+ slice_to_neg 4 (id t) +:+ "." +:+ of_char ch +:+ ".dat")
  | None => Fail (IndexError "string index out of range")
  end.

(** ** Files, the namespace and the shell *)

(** [os.system]: what a command does to the file system, and its exit
    status. *)
Variable system : string -> World -> Z * World.

(** [UTCDateTime(text)], the time a date string denotes. *)
Variable UTCDateTime : string -> Except Q.

(** [str(x)] on a float and [DataFrame.to_string(index=False)]. *)
Variable str_float : Q -> string.
Variable to_string : list ManifestRow -> string.

Definition nl : string := String "010" EmptyString.

(** [Path(path).exists()]. *)
Definition path_exists (w : World) (path : string) : bool :=
  bool_decide (path ∈ dirs w) || bool_decide (is_Some (files w !! path)).

(** [pd.read_csv] on the event table and on the station table. *)
Definition read_event_csv (path : string) : M (list EventRow) :=
  w ← get_world;
  match files w !! path with
  | Some (EventCsv rows) => mret rows
  | Some _ => raise (Exception "not an event table")
  | None => raise (FileNotFoundError path)
  end.

Definition read_station_csv (path : string) : M (list StationRow) :=
  w ← get_world;
  match files w !! path with
  | Some (StationCsv rows) => mret rows
  | Some _ => raise (Exception "not a station table")
  | None => raise (FileNotFoundError path)
  end.

(** [read(path, format='SAC')] on a plain path. *)
Definition obspy_read (path : string) : M Trace :=
  w ← get_world;
  match files w !! path with
  | Some (SacFile t) => mret t
  | Some _ => raise (Exception "not a SAC file")
  | None => raise (FileNotFoundError path)
  end.

Definition write_file (path : string) (f : File) : M unit :=
  w ← get_world;
  put_world (mkWorld (dirs w) (<[path := f]> (files w))).

(** [tr.write(path, format='SAC')]. *)
Definition obspy_write (path : string) (t : Trace) : M unit :=
  write_file path (SacFile t).

(** [open(path, 'w')] truncates or creates; [f.write(text)] appends to what
    has been written since. *)
Definition open_w (path : string) : M unit :=
  write_file path (TextFile "").

Definition f_write (path text : string) : M unit :=
  w ← get_world;
  match files w !! path with
  | Some (TextFile written) => write_file path (TextFile (written +:+ text))
  | _ => raise (ValueError "I/O operation on closed file")
  end.

(** [Path(path).mkdir(parents=True, exist_ok=True)]. *)
Definition mkdir_p (path : string) : M unit :=
  w ← get_world;
  match files w !! path with
  | Some _ => raise (FileExistsError path)
  | None => put_world (mkWorld ({[path]} ∪ dirs w) (files w))
  end.

(** [os.system(cmd)]: the command runs, its exit status is the value of the
    call. *)
Definition os_system (cmd : string) : M Z :=
  fun s =>
    let (status, w) := system cmd (world s) in
    Ok status (mkState (env s) w (shell s ++ [cmd]) (stdout s)).

(** Binding a name of the namespace. *)
Definition set_df (v : list EventRow) : M unit :=
  e ← get_env;
  put_env (mkEnv (Some v) (station_df e) (origin_time e) (st e) (tr e)
                 (depths e) (green_dir e) (headers e) (df_out e)).

Definition set_station_df (v : list StationRow) : M unit :=
  e ← get_env;
  put_env (mkEnv (df e) (Some v) (origin_time e) (st e) (tr e)
                 (depths e) (green_dir e) (headers e) (df_out e)).

Definition set_origin_time (v : Q) : M unit :=
  e ← get_env;
  put_env (mkEnv (df e) (station_df e) (Some v) (st e) (tr e)
                 (depths e) (green_dir e) (headers e) (df_out e)).

Definition set_st (v : list Trace) : M unit :=
  e ← get_env;
  put_env (mkEnv (df e) (station_df e) (origin_time e) (Some v) (tr e)
                 (depths e) (green_dir e) (headers e) (df_out e)).

Definition set_tr (v : nat) : M unit :=
  e ← get_env;
  put_env (mkEnv (df e) (station_df e) (origin_time e) (st e) (Some v)
                 (depths e) (green_dir e) (headers e) (df_out e)).

Definition set_depths (v : list Z) : M unit :=
  e ← get_env;
  put_env (mkEnv (df e) (station_df e) (origin_time e) (st e) (tr e)
                 (Some v) (green_dir e) (headers e) (df_out e)).

Definition set_green_dir (v : string) : M unit :=
  e ← get_env;
  put_env (mkEnv (df e) (station_df e) (origin_time e) (st e) (tr e)
                 (depths e) (Some v) (headers e) (df_out e)).

Definition set_headers (v : list (string * string)) : M unit :=
  e ← get_env;
  put_env (mkEnv (df e) (station_df e) (origin_time e) (st e) (tr e)
                 (depths e) (green_dir e) (Some v) (df_out e)).

Definition set_df_out (v : list ManifestRow) : M unit :=
  e ← get_env;
  put_env (mkEnv (df e) (station_df e) (origin_time e) (st e) (tr e)
                 (depths e) (green_dir e) (headers e) (Some v)).

(** [column[0]] on a column of the event table. *)
Definition first_row (rows : list EventRow) : M EventRow :=
  match rows with
  | r :: _ => mret r
  | [] => raise (KeyError "0")
  end.

(** The trace a reference into the stream stands for. *)
Definition trace_at (i : nat) : M Trace :=
  ts ← lookup_name "st" st;
  match ts !! i with
  | Some t => mret t
  | None => raise (Exception "stale trace reference")
  end.

(** A method call that changes the [i]-th trace of the stream in place. *)
Definition mutate_at (i : nat) (f : Trace -> Except Trace) : M unit :=
  t ← trace_at i;
  t' ← lift (f t);
  ts ← lookup_name "st" st;
  set_st (<[i := t']> ts).

(** The same through the name [tr]. *)
Definition read_tr : M Trace :=
  i ← lookup_name "tr" tr;
  trace_at i.

Definition mutate_tr (f : Trace -> Except Trace) : M unit :=
  i ← lookup_name "tr" tr;
  mutate_at i f.

(** A [Stream] method: the [Trace] method on every trace in turn. *)
Definition stream_apply (f : Trace -> Except Trace) : M unit :=
  ts ← lookup_name "st" st;
  for_each (seq 0 (length ts)) (fun i => mutate_at i f).

(** ** Cell: reading the event and the processed waveforms *)

(** The characters of a bracket class of a file pattern, in the order
    [sorted(glob(...))] lists the matching files, each once.  Classes are
    plain letters ([ZRT], [ZNE]); ranges and negation are not modelled. *)
Fixpoint insert_char (ch : ascii) (l : list ascii) : list ascii :=
  match l with
  | [] => [ch]
  | d :: rest =>
      match (N_of_ascii ch ?= N_of_ascii d)%N with
      | Lt => ch :: l
      | Eq => l
      | Gt => d :: insert_char ch rest
      end
  end.

Definition char_class (s : string) : list ascii :=
  fold_right insert_char [] (list_ascii_of_string s).

Fixpoint glob_traces (w : World) (base : string) (class : list ascii)
  : Except (list Trace) :=
  match class with
  | [] => mret []
  | ch :: rest =>
      match files w !! (base +:+ of_char ch) with
      | Some (SacFile t) => ts ← glob_traces w base rest; mret (t :: ts)
      | Some _ => Fail (Exception "not a SAC file")
      | None => glob_traces w base rest
      end
  end.

(** [read('%s/%s.%s.%s.%s[%s]'%(sacdir,network,station,location,channel,
    component), format='SAC')]. *)
Definition read_components (c : Config) (row : StationRow) : M (list Trace) :=
  w ← get_world;
  let base := sacdir c +:+ "/" +:+
              join "." [network row; station row; location row; channel row] in
  ts ← lift (glob_traces w base (char_class (component row)));
  match ts with
  | [] => raise (Exception "No file matching file pattern")
  | _ => mret ts
  end.

(** ['Directory %s does not exist. %s does not have instrument corrected
    data.'%(sacdir,evid)] *)
Definition missing_message (c : Config) : string :=
  "Directory " +:+ sacdir c +:+ " does not exist. " +:+ evid c +:+
  " does not have instrument corrected data.".

Definition load_cell (c : Config) : M unit :=
  w ← get_world;
  if path_exists w (sacdir c) then
    d ← read_event_csv (infile c);
    set_df d;;
    s ← read_station_csv (station_file c);
    set_station_df s;;
    row0 ← first_row d;
    t ← lift (UTCDateTime (origin row0));
    set_origin_time t;;
    set_st [];;
    for_each s (fun row =>
      ts ← read_components c row;
      old ← lookup_name "st" st;
      set_st (old ++ ts))
  else
    print (missing_message c).

(** ** Cell: filtering, cutting and saving the observed waveforms *)

(** The body of [for tr in st:], with [tr] bound to the [i]-th trace. *)
Definition condition_body (c : Config) (i : nat) : M unit :=
  set_tr i;;
  mutate_tr (step_decimate c);;
  mutate_tr (step_resample c);;
  t ← lookup_name "origin_time" origin_time;
  mutate_tr (step_t1 c t);;
  mutate_tr (step_trim c);;
  mutate_tr step_scale;;
  t ← lookup_name "origin_time" origin_time;
  mutate_tr (step_b t);;
  mutate_tr step_o;;
  cur ← read_tr;
  sacout ← lift (dat_path c cur);
  obspy_write sacout cur.

Definition condition_cell (c : Config) : M unit :=
  stream_apply (filter c);;
  stream_apply taper;;
  ts ← lookup_name "st" st;
  for_each (seq 0 (length ts)) (condition_body c).

(** ** Cell: the synthetic Green's functions *)

(** [sorted] on integers. *)
Fixpoint insert_sorted (x : Z) (l : list Z) : list Z :=
  match l with
  | [] => [x]
  | y :: rest => if x <=? y then x :: l else y :: insert_sorted x rest
  end.

Definition sorted (l : list Z) : list Z := fold_right insert_sorted [] l.

(** [sorted([10,20,round(df['depth'][0])])] *)
Definition depth_list (catalog_depth : Q) : list Z :=
  sorted [10; 20; py_round catalog_depth].

Definition greens : list string :=
  ["ZDD"; "RDD"; "ZDS"; "RDS"; "TDS"; "ZSS"; "RSS"; "TSS"; "ZEX"; "REX"]%string.

Definition dfile_out (c : Config) : string := event_dir c +:+ "/dfile".

(** ['{dist:.0f} {dt:.2f} {npts:d} {t0:d} {vred:.1f}\n'] filled in for one
    station and a numeric reduction velocity [v]. *)
Definition line_of (c : Config) (v : Q) (row : StationRow) : string :=
  format_f 0 (distance row) +:+ " " +:+ format_f 2 (dt c) +:+ " " +:+
  format_d (npts c) +:+ " " +:+ format_d (t0 c) +:+ " " +:+
  format_f 1 v +:+ nl.

(** [dfile.format(dist=row.distance,dt=dt,npts=npts,t0=t0,vred=vred)]; the
    format [.1f] is refused for [None]. *)
Definition dfile_line (c : Config) (row : StationRow) : Except string :=
  match vred c with
  | Some v => mret (line_of c v row)
  | None => Fail (TypeError "unsupported format string passed to NoneType.__format__")
  end.

(** The distance file:
<<
    with open(dfile_out,'w') as f:
        for _,row in station_df.iterrows():
            f.write(dfile.format(...))
>> *)
Definition write_dfile (c : Config) : M unit :=
  open_w (dfile_out c);;
  rows ← lookup_name "station_df" station_df;
  for_each rows (fun row =>
    line ← lift (dfile_line c row);
    f_write (dfile_out c) line).

Definition hprep96 (c : Config) (depth : Z) : string :=
  "hprep96 -M " +:+ model c +:+ ".d -d " +:+ dfile_out c +:+ " -HS " +:+
  format_f 4 (inject_Z depth) +:+ " -HR 0 -EQEX".

(** The four calls of the modelling programs; their exit statuses are
    dropped. *)
Definition run_engine (c : Config) (depth : Z) : M unit :=
  os_system (hprep96 c depth);;
  os_system "hspec96";;
  os_system "hpulse96 -D -i > file96";;
  os_system "f96tosac -B file96";;
  mret tt.

(** ['%s/%s.%s.%s.%.4f'%(green_dir,row.network,row.station,row.location,depth)]
    followed by ['.%s'%grn]. *)
Definition green_path (gdir : string) (row : StationRow) (depth : Z) (grn : string) : string :=
  gdir +:+ "/" +:+ network row +:+ "." +:+ station row +:+ "." +:+ location row +:+
  "." +:+ format_f 4 (inject_Z depth) +:+ "." +:+ grn.

(** The filter-and-save loop:
<<
    for index,row in station_df.iterrows():
        for j,grn in enumerate(greens):
            sacin = '%s/%s.%s.dat'%(outdir,tr.id[:-4],tr.id[-1])
            sacout = '%s/%s.%s.%s.%.4f'%(green_dir,row.network,row.station,row.location,depth)
            tmp = read(sacin,format='SAC')
            tmp.filter('bandpass',freqmin=freqmin,freqmax=freqmax,corners=corners,zerophase=True)
            tmp.write('%s.%s'%(sacout,grn),format='SAC') # overwrite
>> *)
Definition filter_and_save (c : Config) (gdir : string) (depth : Z) : M unit :=
  rows ← lookup_name "station_df" station_df;
  for_each rows (fun row =>
    for_each greens (fun grn =>
      cur ← read_tr;
      sacin ← lift (dat_path c cur);
      tmp ← obspy_read sacin;
      tmp ← lift (filter c tmp);
      obspy_write (green_path gdir row depth grn) tmp)).

(** One pass of [for depth in depths:]. *)
Definition depth_job (c : Config) (gdir : string) (depth : Z) : M unit :=
  write_dfile c;;
  run_engine c depth;;
  filter_and_save c gdir depth.

Definition green_cell (c : Config) : M unit :=
  d ← lookup_name "df" df;
  row0 ← first_row d;
  let ds := depth_list (depth row0) in
  set_depths ds;;
  let gdir := event_dir c +:+ "/" +:+ model c in
  set_green_dir gdir;;
  mkdir_p gdir;;
  for_each ds (depth_job c gdir);;
  os_system "rm B*.sac";;
  mret tt.

(** ** Cells: the input file of the inversion *)

(** A row of [df_out]. *)
Definition manifest_row (c : Config) (row : StationRow) : ManifestRow :=
  mkManifestRow (join "." [network row; station row; location row])
                (distance row) (azimuth row)
                30 150 (dt c) 1
                (longitude row) (latitude row).

Definition manifest_cell (c : Config) : M unit :=
  d ← lookup_name "df" df;
  row0 ← first_row d;
  ds ← lookup_name "depths" depths;
  gdir ← lookup_name "green_dir" green_dir;
  set_headers
    [("datetime", origin row0);
     ("longitude", str_float (lon row0));
     ("latitude", str_float (lat row0));
     ("depth", join "," (map (fun d => format_f 4 (inject_Z d)) ds));
     ("path_to_data", event_dir c);
     ("path_to_green", gdir);
     ("green", "herrmann");
     ("components", "ZRT");
     ("degree", "5");
     ("weight", "distance");
     ("plot", "0");
     ("correlate", "0")]%string;;
  rows ← lookup_name "station_df" station_df;
  set_df_out (map (manifest_row c) rows);;
  print (to_string (map (manifest_row c) rows)).

Definition write_manifest_cell : M unit :=
  open_w "mtinv.in";;
  hs ← lookup_name "headers" headers;
  for_each hs (fun kv => f_write "mtinv.in" (ljust 15 (fst kv) +:+ snd kv +:+ nl));;
  rows ← lookup_name "df_out" df_out;
  f_write "mtinv.in" (to_string rows);;
  os_system "cat mtinv.in";;
  mret tt.

(** The notebook run from top to bottom; the first exception stops the run. *)
Definition run_all (c : Config) : M unit :=
  load_cell c;;
  condition_cell c;;
  green_cell c;;
  manifest_cell c;;
  write_manifest_cell.

End Notebook.

(** ** Notions used to state the properties *)

(** The sample of a record at a signed index, zero outside the record. *)
Definition sample_or_zero (d : list Q) (i : Z) : Q :=
  if (0 <=? i) && (i <? Z.of_nat (length d)) then nth (Z.to_nat i) d 0%Q else 0%Q.

(** What [_ltrim] leaves as samples when it settles on the offset [delta]. *)
Definition left_trimmed (delta : Z) (d : list Q) : list Q :=
  if delta <? 0 then replicate (Z.to_nat (Z.abs delta)) 0%Q ++ d
  else drop (Z.to_nat delta) d.

(** Samples cut to [m], or padded with zeros up to [m]. *)
Definition cut_or_pad (m : nat) (l : list Q) : list Q :=
  take m l ++ replicate (m - length l) 0%Q.

(** The state a computation stops in, whether it returns or raises. *)
Definition final {A} (r : Result A) : State :=
  match r with
  | Ok _ s => s
  | Raise _ s => s
  end.

Definition is_ok {A} (r : Result A) : bool :=
  match r with
  | Ok _ _ => true
  | Raise _ _ => false
  end.

(** The state with one file written. *)
Definition with_file (path : string) (f : File) (s : State) : State :=
  mkState (env s)
          (mkWorld (dirs (world s)) (<[path := f]> (files (world s))))
          (shell s) (stdout s).

(** The state with one more line printed. *)
Definition printed (line : string) (s : State) : State :=
  mkState (env s) (world s) (shell s) (stdout s ++ [line]).

(** The text of a whole station table, for a numeric reduction velocity
    [v]: the lines of the stations, in table order. *)
Fixpoint text_of (c : Config) (v : Q) (rows : list StationRow) : string :=
  match rows with
  | [] => ""
  | row :: rest => line_of c v row +:+ text_of c v rest
  end.

(** The commands one depth hands to the shell, in order. *)
Definition engine_commands (c : Config) (depth : Z) : list string :=
  [hprep96 c depth; "hspec96"; "hpulse96 -D -i > file96"; "f96tosac -B file96"]%string.

(** [m] hands exactly the commands [cmds] to the shell whenever it returns. *)
Definition appends {A} (m : M A) (cmds : list string) : Prop :=
  forall s a s', m s = Ok a s' -> shell s' = shell s ++ cmds.

(** The state with the stream, or the loop variable [tr], rebound. *)
Definition with_st (l : list Trace) (s : State) : State :=
  mkState (mkEnv (df (env s)) (station_df (env s)) (origin_time (env s))
                 (Some l) (tr (env s)) (depths (env s)) (green_dir (env s))
                 (headers (env s)) (df_out (env s)))
          (world s) (shell s) (stdout s).

Definition with_tr (i : nat) (s : State) : State :=
  mkState (mkEnv (df (env s)) (station_df (env s)) (origin_time (env s))
                 (st (env s)) (Some i) (depths (env s)) (green_dir (env s))
                 (headers (env s)) (df_out (env s)))
          (world s) (shell s) (stdout s).

(** The state with the stream, the loop variable and the files replaced. *)
Definition conditioned (l : list Trace) (i : option nat)
  (fs : gmap string File) (s : State) : State :=
  mkState (mkEnv (df (env s)) (station_df (env s)) (origin_time (env s))
                 (Some l) i (depths (env s)) (green_dir (env s))
                 (headers (env s)) (df_out (env s)))
          (mkWorld (dirs (world s)) fs) (shell s) (stdout s).

(** The value of [tr] after a loop over [rest] that began at index
    [length done]: the index of the last trace, or the old value when the
    loop did not run. *)
Definition last_index (done rest : list Trace) (old : option nat) : option nat :=
  match rest with
  | [] => old
  | _ => Some (length done + length rest - 1)%nat
  end.

(** The state with the files replaced. *)
Definition with_files (fs : gmap string File) (s : State) : State :=
  mkState (env s) (mkWorld (dirs (world s)) fs) (shell s) (stdout s).

(** The files after writing each trace of a list to its path, in order. *)
Fixpoint saved (writes : list (string * Trace)) (m : gmap string File)
  : gmap string File :=
  match writes with
  | [] => m
  | (path, t) :: rest => saved rest (<[path := SacFile t]> m)
  end.

(** The files the filter-and-save loop writes for a list of stations, all
    holding the one trace [out]. *)
Definition green_writes (gdir : string) (depth : Z) (out : Trace)
  (rows : list StationRow) : list (string * Trace) :=
  concat (map (fun row => map (fun grn => (green_path gdir row depth grn, out)) greens)
              rows).

(** A configuration with another number of points. *)
Definition with_npts (n : Z) (c : Config) : Config :=
  mkConfig (evid c) (freqmin c) (freqmax c) (corners c) (dt c) (vred c)
           (time_before c) (time_after c) (model c) n (t0 c).

(** A configuration with another sampling interval. *)
Definition with_dt (d : Q) (c : Config) : Config :=
  mkConfig (evid c) (freqmin c) (freqmax c) (corners c) d (vred c)
           (time_before c) (time_after c) (model c) (npts c) (t0 c).

(** [n] is a power of two. *)
Definition is_power_of_two (n : Z) : bool :=
  (0 <? n) && (Z.land n (n - 1) =? 0).

(** ** A small event to run the notebook on

    One station with two components on disk, and stand-ins for what lies
    outside the notebook: kernels that return the samples unchanged, and a
    modelling engine that leaves the ten raw synthetics of the station in
    the working directory. *)

Module Scenario.

Definition still_bandpass (freqmin freqmax : Q) (corners : Z) (df : Q)
  (x : list Q) : Except (list Q) := Done x.

Definition still_taper (max_percentage : Q) (x : list Q) : Except (list Q) :=
  Done x.

Definition still_resample (old_rate new_rate : Q) (x : list Q) : Except (list Q) :=
  Done x.

Definition clock (text : string) : Except Q := Done 1000%Q.

Definition show_float (x : Q) : string := format_f 2 x.

Definition show_table (rows : list ManifestRow) : string :=
  join nl (map m_station rows).

(** The raw synthetic of component number [j]. *)
Definition synthetic (j : Z) : Trace :=
  mkTrace "" "" "" "" 1 0 [inject_Z j; inject_Z (j + 1)] (mkSacHeader 81 None 0 None).

Definition raw_files : list (string * Trace) :=
  [("B00101ZDD.sac", synthetic 1); ("B00102RDD.sac", synthetic 2);
   ("B00103ZDS.sac", synthetic 3); ("B00104RDS.sac", synthetic 4);
   ("B00105TDS.sac", synthetic 5); ("B00106ZSS.sac", synthetic 6);
   ("B00107RSS.sac", synthetic 7); ("B00108TSS.sac", synthetic 8);
   ("B00109ZEX.sac", synthetic 9); ("B00110REX.sac", synthetic 10)]%string.

(** The modelling programs: [f96tosac] leaves the raw synthetics, [rm]
    removes them, every command exits with 0. *)
Definition modelling (cmd : string) (w : World) : Z * World :=
  if String.eqb cmd "f96tosac -B file96" then
    (0, mkWorld (dirs w)
          (fold_right (fun kv m => <[kv.1 := SacFile kv.2]> m) (files w) raw_files))
  else if String.eqb cmd "rm B*.sac" then
    (0, mkWorld (dirs w)
          (fold_right (fun kv m => delete kv.1 m) (files w) raw_files))
  else (0, w).

(** An engine that is not installed: every command exits with 1 and does
    nothing. *)
Definition missing_engine (cmd : string) (w : World) : Z * World := (1, w).

(** The same effects as [sys], with every exit status replaced. *)
Definition exiting (status : Z) (sys : string -> World -> Z * World)
  (cmd : string) (w : World) : Z * World :=
  (status, (sys cmd w).2).

Definition observed (cha : string) (v : Q) : Trace :=
  mkTrace "BK" "QRDG" "00" cha 2 990 [v; v; v; v; v; v]
          (mkSacHeader 81 None 0 None).

Definition qrdg : StationRow :=
  mkStationRow "BK" "QRDG" "00" "BH" "ZRT"
               (8099 # 100) (33529 # 100) (-12214 # 100) (3848 # 100).

Definition event : EventRow :=
  mkEventRow "2019-07-16T20:11:01" (-121757 # 1000) (37819 # 1000) (136 # 10).

Definition disk : World :=
  mkWorld {[ "40191336"; "40191336/sac" ]}%string
    (list_to_map
       [("40191336/datetime.csv", EventCsv [event]);
        ("40191336/station.csv", StationCsv [qrdg]);
        ("40191336/sac/BK.QRDG.00.BHZ", SacFile (observed "BHZ" 3));
        ("40191336/sac/BK.QRDG.00.BHR", SacFile (observed "BHR" 4))]%string).

(** A disk without the directory of processed data. *)
Definition bare_disk : World := mkWorld ∅ ∅.

Definition fresh (w : World) : State := mkState empty_env w [] [].

(** The namespace with the station table bound and nothing else, over a
    disk that holds a distance file from an earlier run. *)
Definition stale_disk : World :=
  mkWorld ∅ {[ "40191336/dfile"%string := TextFile "120 0.50 512 0 8.0" ]}.

Definition stations_only : State :=
  mkState (mkEnv None (Some [qrdg]) None None None None None None None)
          stale_disk [] [].

(** The state after the first cell. *)
Definition after_loading : State :=
  final (load_cell clock notebook_config (fresh disk)).

(** The trace the conditioning cell makes of [t], with the origin time the
    stand-in clock reads. *)
Definition conditioned_of (t : Trace) : Trace :=
  match condition_trace still_bandpass still_taper still_resample
                        notebook_config 1000 t with
  | Done t' => t'
  | Fail _ => t
  end.

(** The state after the first two cells, and after one depth job on it.  *)
Definition after_conditioning : State :=
  final ((load_cell clock notebook_config;;
          condition_cell still_bandpass still_taper still_resample notebook_config)
           (fresh disk)).

Definition after_job (sys : string -> World -> Z * World) : State :=
  final (depth_job still_bandpass sys notebook_config "40191336/gil7" 10
                   after_conditioning).

(** A record at 1 Hz that begins 0.9 s after the start of the window. *)
Definition late_record : Trace :=
  mkTrace "BK" "QRDG" "00" "BHZ" 1 (9709 # 10) [1; 1; 1; 1; 1; 1]%Q
          (mkSacHeader 81 None 0 None).

End Scenario.

(** ** Further notions and inputs *)

(** A configuration with another window around the reference time. *)
Definition with_window (before after : Q) (c : Config) : Config :=
  mkConfig (evid c) (freqmin c) (freqmax c) (corners c) (dt c) (vred c)
           before after (model c) (npts c) (t0 c).

(** Records to run single steps on. *)
Module Cases.

(** A very-long-period channel: one sample every ten seconds. *)
Definition very_long_period : Trace :=
  mkTrace "BK" "QRDG" "00" "VHZ" (1 # 10) 900 [5; 5; 5; 5]%Q
          (mkSacHeader 81 None 0 None).

(** A record at 2 Hz that ends more than a minute before the window of an
    event at time 1000. *)
Definition early_record : Trace :=
  mkTrace "BK" "QRDG" "00" "BHZ" 2 900 [7; 7; 7; 7; 7; 7]%Q
          (mkSacHeader 81 None 0 None).

(** A station of the table whose waveforms are not on the disk. *)
Definition ghost : StationRow :=
  mkStationRow "BK" "RUSS" "00" "BH" "ZRT"
               (8116 # 100) (35318 # 100) (-12187 # 100) (3854 # 100).

Definition ghost_disk : World :=
  mkWorld (dirs Scenario.disk)
          (<["40191336/station.csv"%string := StationCsv [Scenario.qrdg; ghost]]>
             (files Scenario.disk)).

(** A namespace whose stream holds a broadband record followed by the
    very-long-period one. *)
Definition mixed_stream : State :=
  mkState (mkEnv None None (Some 1000%Q)
                 (Some [Scenario.observed "BHZ" 3; very_long_period])
                 None None None None None)
          Scenario.disk [] [].

(** The notebook's parameters with the reduction velocity left unset. *)
Definition unset_velocity : Config :=
  mkConfig "40191336" (2 # 100) (5 # 100) 3 1%Q None 30%Q 200%Q "gil7" 256 0.

(** A disk with the directory of processed data and nothing in it. *)
Definition empty_directory : World :=
  mkWorld {[ "40191336"; "40191336/sac" ]}%string ∅.

End Cases.

(** [m] leaves the part [view] of the state as it is, whether it returns
    or raises. *)
Definition keeps {A X} (view : State -> X) (m : M A) : Prop :=
  forall s, view (final (m s)) = view s.

(** What the first two cells leave in the namespace: the tables, the
    origin time, the stream and the loop variable [tr]. *)
Definition observations (s : State) :=
  (df (env s), station_df (env s), origin_time (env s), st (env s), tr (env s)).

(** What the last two code cells bind. *)
Definition manifest_names (s : State) := (headers (env s), df_out (env s)).

(** The file pattern of a station without its bracket class:
    ['%s/%s.%s.%s.%s'%(sacdir,network,station,location,channel)]. *)
Definition pattern_base (c : Config) (row : StationRow) : string :=
  sacdir c +:+ "/" +:+
  join "." [network row; station row; location row; channel row].

(** The state with the names of the first cell bound. *)
Definition loaded (d : list EventRow) (rows : list StationRow) (t0 : Q)
  (l : list Trace) (s : State) : State :=
  mkState (mkEnv (Some d) (Some rows) (Some t0) (Some l) (tr (env s))
                 (depths (env s)) (green_dir (env s)) (headers (env s))
                 (df_out (env s)))
          (world s) (shell s) (stdout s).

(** The statements of the loop body that change the trace, in order. *)
Definition cut_steps (fourier_resample : Q -> Q -> list Q -> Except (list Q))
  (c : Config) (origin_time : Q) : list (Trace -> Except Trace) :=
  [step_decimate c; step_resample fourier_resample c; step_t1 c origin_time;
   step_trim c; step_scale; step_b origin_time; step_o].

(** The trace as a run of in-place steps leaves it: each step that goes
    through has changed it, the first one that raises ends the run. *)
Fixpoint progress (steps : list (Trace -> Except Trace)) (t : Trace) : Trace :=
  match steps with
  | [] => t
  | f :: rest =>
      match f t with
      | Done t' => progress rest t'
      | Fail _ => t
      end
  end.

(** The header lines of the inversion input: each key left-justified in
    15 columns, its value, a line terminator. *)
Fixpoint header_text (hs : list (string * string)) : string :=
  match hs with
  | [] => ""
  | kv :: rest => (ljust 15 kv.1 +:+ kv.2 +:+ nl) +:+ header_text rest
  end.

(** The state with one more directory. *)
Definition with_dir (path : string) (s : State) : State :=
  mkState (env s) (mkWorld ({[path]} ∪ dirs (world s)) (files (world s)))
          (shell s) (stdout s).

(** * Facts *)

(** ** Rounding *)

Section RoundingFacts.

Lemma Qfloor_unique (q : Q) (n : Z) :
  (inject_Z n <= q)%Q -> (q < inject_Z (n + 1))%Q -> Qfloor q = n.
Proof.
  intros Hlo Hhi.
  pose proof (Qfloor_le q) as Hf.
  pose proof (Qlt_floor q) as Hg.
  assert (Qfloor q < n + 1) by (rewrite Zlt_Qlt; lra).
  assert (n < Qfloor q + 1) by (rewrite Zlt_Qlt; lra).
  lia.
Qed.

Lemma Qfloor_shift (q : Q) (n : Z) :
  Qfloor (q + inject_Z n) = Qfloor q + n.
Proof.
  apply Qfloor_unique.
  - rewrite inject_Z_plus. pose proof (Qfloor_le q). lra.
  - pose proof (Qlt_floor q) as H.
    rewrite !inject_Z_plus in *. lra.
Qed.

Lemma Qceiling_cases (q : Q) :
  Qceiling q = Qfloor q \/ Qceiling q = Qfloor q + 1.
Proof.
  pose proof (Qfloor_le q) as Hf.
  pose proof (Qlt_floor q) as Hg.
  pose proof (Qle_ceiling q) as Hc.
  pose proof (Qceiling_lt q) as Hd.
  assert (Qfloor q <= Qceiling q) by (rewrite Zle_Qle; lra).
  assert (Qceiling q - 1 < Qfloor q + 1) by (rewrite Zlt_Qlt; lra).
  lia.
Qed.

Lemma Qsign_pos (q : Q) : (0 < q)%Q -> Qsign q = 1.
Proof.
  destruct q as [n d]. unfold Qsign, Qlt. simpl. intros H.
  destruct n; simpl in *; lia.
Qed.

Lemma Qsign_neg (q : Q) : (q < 0)%Q -> Qsign q = -1.
Proof.
  destruct q as [n d]. unfold Qsign, Qlt. simpl. intros H.
  destruct n; simpl in *; lia.
Qed.

End RoundingFacts.

Section RoundAway.

(** The tie test of [round_away] holds exactly at the half-integers. *)
Lemma tie_test_spec (q : Q) :
  negb (Qfloor q =? Qceiling q)
  && Qeq_bool (Qabs (q - inject_Z (Qfloor q))) (Qabs (inject_Z (Qceiling q) - q)) = true
  <-> (q - inject_Z (Qfloor q) == 1 # 2)%Q.
Proof.
  pose proof (Qfloor_le q) as Hf.
  pose proof (Qle_ceiling q) as Hc.
  rewrite andb_true_iff, negb_true_iff, Z.eqb_neq, Qeq_bool_iff.
  rewrite (Qabs_pos (q - inject_Z (Qfloor q))) by lra.
  rewrite (Qabs_pos (inject_Z (Qceiling q) - q)) by lra.
  destruct (Qceiling_cases q) as [E | E]; rewrite E in *.
  - split; [intros [N _]; congruence | intros H; exfalso; lra].
  - rewrite inject_Z_plus. split.
    + intros [_ H]. change (inject_Z 1) with 1%Q in H. lra.
    + intros H. split; [lia | change (inject_Z 1) with 1%Q; lra].
Qed.

Lemma py_round_range (q : Q) : Qfloor q <= py_round q <= Qfloor q + 1.
Proof.
  unfold py_round.
  destruct (q - inject_Z (Qfloor q) ?= 1 # 2)%Q; [destruct (Z.even _) | |]; lia.
Qed.

Lemma round_away_range (q : Q) : Qfloor q <= round_away q <= Qfloor q + 1.
Proof.
  unfold round_away.
  destruct (negb _ && _) eqn:T; [| apply py_round_range].
  apply tie_test_spec in T.
  pose proof (Qfloor_le q) as Hf.
  unfold Qtrunc. destruct (Qle_bool 0 q) eqn:S0.
  - apply Qle_bool_iff in S0.
    assert (0 <= Qfloor q) by (change 0 with (Qfloor 0); now apply Qfloor_resp_le).
    assert (0 <= inject_Z (Qfloor q))%Q by (change 0%Q with (inject_Z 0); now rewrite <- Zle_Qle).
    rewrite Qsign_pos by lra. lia.
  - assert (q < 0)%Q as Hneg.
    { apply Qnot_le_lt. intros H. apply Qle_bool_iff in H. congruence. }
    rewrite Qsign_neg by assumption.
    destruct (Qceiling_cases q) as [E | E]; rewrite E; [| lia].
    exfalso. pose proof (Qle_ceiling q) as Hc. rewrite E in Hc. lra.
Qed.

(** On non-negative arguments [round_away] is rounding half up. *)
Lemma round_away_nonneg (q : Q) :
  (0 <= q)%Q -> round_away q = Qfloor (q + (1 # 2)).
Proof.
  intros Hq.
  pose proof (Qfloor_le q) as Hf.
  pose proof (Qlt_floor q) as Hg.
  rewrite inject_Z_plus in Hg. change (inject_Z 1) with 1%Q in Hg.
  assert (0 <= inject_Z (Qfloor q))%Q as Hf0.
  { change 0%Q with (inject_Z 0). rewrite <- Zle_Qle.
    change 0 with (Qfloor 0). now apply Qfloor_resp_le. }
  symmetry. unfold round_away.
  destruct (negb _ && _) eqn:T.
  - apply tie_test_spec in T.
    unfold Qtrunc. rewrite (proj2 (Qle_bool_iff 0 q) Hq).
    rewrite Qsign_pos by lra.
    apply Qfloor_unique; rewrite !inject_Z_plus; change (inject_Z 1) with 1%Q; lra.
  - unfold py_round.
    destruct (q - inject_Z (Qfloor q) ?= 1 # 2)%Q eqn:C.
    + apply Qeq_alt in C. apply tie_test_spec in C. congruence.
    + apply Qlt_alt in C.
      apply Qfloor_unique; rewrite ?inject_Z_plus; change (inject_Z 1) with 1%Q; lra.
    + apply Qgt_alt in C.
      apply Qfloor_unique; rewrite !inject_Z_plus; change (inject_Z 1) with 1%Q; lra.
Qed.

End RoundAway.

Lemma Qltb_lt (x y : Q) : Qltb x y = true <-> (x < y)%Q.
Proof.
  unfold Qltb. rewrite negb_true_iff. split.
  - intros H. apply Qnot_le_lt. intros L. apply Qle_bool_iff in L. congruence.
  - intros H. destruct (Qle_bool y x) eqn:E; [| reflexivity].
    apply Qle_bool_iff in E. lra.
Qed.

(** ** Formatting, on the values of the notebook *)

Example format_f_distance : format_f 0 (8099 # 100) = "81"%string.
Proof. reflexivity. Qed.
Example format_f_dt : format_f 2 1 = "1.00"%string.
Proof. reflexivity. Qed.
Example format_f_vred : format_f 1 0 = "0.0"%string.
Proof. reflexivity. Qed.
Example format_f_depth : format_f 4 (inject_Z 14) = "14.0000"%string.
Proof. reflexivity. Qed.
Example format_f_ties_even :
  (format_f 0 (5 # 2), format_f 0 (7 # 2), format_f 1 (-(1 # 4)))
  = ("2", "4", "-0.2")%string.
Proof. reflexivity. Qed.
Example slice_id : slice_to_neg 4 "BK.QRDG.00.BHZ" = "BK.QRDG.00"%string.
Proof. reflexivity. Qed.
Example last_id : last_char "BK.QRDG.00.BHZ" = Some "Z"%char.
Proof. reflexivity. Qed.

(** ** Facts on [trim] *)

Section TrimFacts.

Lemma py_round_off_tie (q : Q) :
  ~ (q - inject_Z (Qfloor q) == 1 # 2)%Q -> py_round q = Qfloor (q + (1 # 2)).
Proof.
  intros NT.
  pose proof (Qfloor_le q) as Hf.
  pose proof (Qlt_floor q) as Hg.
  rewrite inject_Z_plus in Hg. change (inject_Z 1) with 1%Q in Hg.
  symmetry. unfold py_round.
  destruct (q - inject_Z (Qfloor q) ?= 1 # 2)%Q eqn:C.
  - apply Qeq_alt in C. contradiction.
  - apply Qlt_alt in C.
    apply Qfloor_unique; rewrite ?inject_Z_plus; change (inject_Z 1) with 1%Q; lra.
  - apply Qgt_alt in C.
    apply Qfloor_unique; rewrite !inject_Z_plus; change (inject_Z 1) with 1%Q; lra.
Qed.

(** [round_away] is rounding half up, except at the negative half-integers,
    where it goes down. *)
Lemma round_away_spec (q : Q) :
  round_away q = Qfloor (q + (1 # 2)) \/
  ((q < 0)%Q /\ round_away q = Qfloor q).
Proof.
  destruct (Qlt_le_dec q 0) as [Hneg | Hpos];
    [| left; now apply round_away_nonneg].
  unfold round_away. destruct (negb _ && _) eqn:T.
  - right. split; [assumption |].
    apply tie_test_spec in T.
    unfold Qtrunc.
    assert (Qle_bool 0 q = false) as ->.
    { destruct (Qle_bool 0 q) eqn:E; [| reflexivity].
      apply Qle_bool_iff in E. lra. }
    rewrite Qsign_neg by assumption.
    destruct (Qceiling_cases q) as [E | E]; rewrite E; [| lia].
    exfalso. pose proof (Qle_ceiling q) as Hc. pose proof (Qfloor_le q).
    rewrite E in Hc. lra.
  - left. apply py_round_off_tie. intros C.
    apply tie_test_spec in C. congruence.
Qed.

Lemma Qfloor_neg_lt (q : Q) : (q < 0)%Q -> Qfloor q < 0.
Proof.
  intros H. pose proof (Qfloor_le q).
  rewrite Zlt_Qlt. change (inject_Z 0) with 0%Q. lra.
Qed.

(** With padding, the start of the trace moves to the sample nearest to the
    requested start, ties going to the later sample. *)
Lemma ltrim_delta_floor (start : Q) (t : Trace) :
  (0 < sampling_rate t)%Q ->
  ltrim_delta start t
  = Qfloor ((start - starttime t) * sampling_rate t + (1 # 2)).
Proof.
  intros Hsr. unfold ltrim_delta.
  set (y := ((start - starttime t) * sampling_rate t)%Q).
  destruct (round_away y <? 0) eqn:Neg.
  - apply Z.ltb_lt in Neg.
    pose proof (round_away_range y) as [_ Hup].
    pose proof (Qfloor_le y) as Hf.
    set (n := Z.abs (round_away y) + 10).
    assert (n = 10 - round_away y) as Hn by (unfold n; lia).
    assert ((start - (starttime t - inject_Z n / sampling_rate t)) * sampling_rate t
            == y + inject_Z n)%Q as Hz.
    { unfold y. field. lra. }
    assert (0 <= y + inject_Z n)%Q as Hnn.
    { rewrite Hn. unfold Z.sub. rewrite inject_Z_plus, inject_Z_opp.
      assert (inject_Z (round_away y) <= inject_Z (Qfloor y + 1))%Q as Hr
        by (rewrite <- Zle_Qle; lia).
      rewrite inject_Z_plus in Hr.
      change (inject_Z 1) with 1%Q in Hr. change (inject_Z 10) with 10%Q. lra. }
    rewrite round_away_nonneg by (rewrite Hz; assumption).
    rewrite (Qfloor_comp _ (y + (1 # 2) + inject_Z n)) by (rewrite Hz; ring).
    rewrite Qfloor_shift. lia.
  - apply Z.ltb_ge in Neg.
    destruct (round_away_spec y) as [E | [Hy E]]; [assumption |].
    pose proof (Qfloor_neg_lt y Hy). lia.
Qed.

End TrimFacts.

Section TrimWindow.

Lemma lookup_nth_lt {A} (l : list A) (i : nat) (d : A) :
  (i < length l)%nat -> l !! i = Some (nth i l d).
Proof.
  intros H. destruct (l !! i) eqn:E.
  - f_equal. symmetry. now apply nth_lookup_Some.
  - apply lookup_ge_None in E. lia.
Qed.

Lemma left_trimmed_lookup (delta : Z) (d : list Q) (j : nat) :
  (j < length (left_trimmed delta d))%nat ->
  left_trimmed delta d !! j = Some (sample_or_zero d (delta + Z.of_nat j)).
Proof.
  unfold left_trimmed, sample_or_zero. intros Hj.
  destruct (delta <? 0) eqn:Neg.
  - apply Z.ltb_lt in Neg.
    rewrite length_app, length_replicate in Hj.
    destruct (decide (j < Z.to_nat (Z.abs delta))%nat) as [Hlt | Hge].
    + rewrite lookup_app_l by (rewrite length_replicate; lia).
      rewrite lookup_replicate_2 by lia.
      assert ((0 <=? delta + Z.of_nat j) = false) as -> by (apply Z.leb_gt; lia).
      reflexivity.
    + rewrite lookup_app_r by (rewrite length_replicate; lia).
      rewrite length_replicate.
      assert ((0 <=? delta + Z.of_nat j) = true) as -> by (apply Z.leb_le; lia).
      assert ((delta + Z.of_nat j <? Z.of_nat (length d)) = true) as ->
        by (apply Z.ltb_lt; lia).
      simpl.
      replace (Z.to_nat (delta + Z.of_nat j)) with (j - Z.to_nat (Z.abs delta))%nat by lia.
      apply lookup_nth_lt. lia.
  - apply Z.ltb_ge in Neg.
    rewrite length_drop in Hj.
    rewrite lookup_drop.
    assert ((0 <=? delta + Z.of_nat j) = true) as -> by (apply Z.leb_le; lia).
    assert ((delta + Z.of_nat j <? Z.of_nat (length d)) = true) as ->
      by (apply Z.ltb_lt; lia).
    simpl.
    replace (Z.to_nat (delta + Z.of_nat j)) with (Z.to_nat delta + j)%nat by lia.
    apply lookup_nth_lt. lia.
Qed.

Lemma left_trimmed_beyond (delta : Z) (d : list Q) (j : nat) :
  (length (left_trimmed delta d) <= j)%nat ->
  sample_or_zero d (delta + Z.of_nat j) = 0%Q.
Proof.
  unfold left_trimmed, sample_or_zero. intros Hj.
  destruct (delta <? 0) eqn:Neg.
  - apply Z.ltb_lt in Neg. rewrite length_app, length_replicate in Hj.
    assert ((delta + Z.of_nat j <? Z.of_nat (length d)) = false) as ->
      by (apply Z.ltb_ge; lia).
    now rewrite andb_false_r.
  - apply Z.ltb_ge in Neg. rewrite length_drop in Hj.
    assert ((delta + Z.of_nat j <? Z.of_nat (length d)) = false) as ->
      by (apply Z.ltb_ge; lia).
    now rewrite andb_false_r.
Qed.

Lemma cut_or_pad_length (m : nat) (l : list Q) : length (cut_or_pad m l) = m.
Proof. unfold cut_or_pad. rewrite length_app, length_take, length_replicate. lia. Qed.

Lemma cut_or_pad_lookup (m : nat) (delta : Z) (d : list Q) (j : nat) :
  (j < m)%nat ->
  cut_or_pad m (left_trimmed delta d) !! j
  = Some (sample_or_zero d (delta + Z.of_nat j)).
Proof.
  intros Hj. unfold cut_or_pad.
  destruct (decide (j < length (left_trimmed delta d))%nat) as [Hin | Hout].
  - rewrite lookup_app_l by (rewrite length_take; lia).
    rewrite lookup_take_lt by lia.
    now apply left_trimmed_lookup.
  - rewrite lookup_app_r by (rewrite length_take; lia).
    rewrite lookup_replicate_2 by (rewrite length_take; lia).
    now rewrite left_trimmed_beyond by lia.
Qed.

End TrimWindow.

Section TrimCount.

Lemma Qmult_lt_r_inv (a b c : Q) : (0 < c)%Q -> (a * c < b * c)%Q -> (a < b)%Q.
Proof. intros Hc H. now apply (Qmult_lt_r a b c Hc). Qed.

Lemma ltrim_fields (start : Q) (t : Trace) :
  sampling_rate (ltrim start t) = sampling_rate t
  /\ starttime (ltrim start t)
     = (starttime t + inject_Z (ltrim_delta start t) * delta_of t)%Q
  /\ sac (ltrim start t) = sac t.
Proof.
  unfold ltrim.
  destruct (ltrim_delta start t =? 0); [now repeat split |].
  destruct (ltrim_delta start t <? 0); [now repeat split |].
  destruct (Qltb _ start); now repeat split.
Qed.

(** [_ltrim] pads on the left or drops from the left by the offset. *)
Lemma ltrim_data (start : Q) (t : Trace) :
  (0 < sampling_rate t)%Q ->
  data (ltrim start t) = left_trimmed (ltrim_delta start t) (data t).
Proof.
  intros Hsr.
  pose proof (ltrim_delta_floor start t Hsr) as Hfl.
  unfold ltrim, left_trimmed.
  set (delta := ltrim_delta start t) in *.
  destruct (delta =? 0) eqn:Z0.
  { apply Z.eqb_eq in Z0. rewrite Z0. reflexivity. }
  destruct (delta <? 0) eqn:Neg; [reflexivity |].
  apply Z.eqb_neq in Z0. apply Z.ltb_ge in Neg.
  destruct (Qltb _ start) eqn:Past; [| reflexivity].
  apply Qltb_lt in Past. simpl.
  symmetry. apply drop_ge.
  set (y := ((start - starttime t) * sampling_rate t)%Q) in *.
  pose proof (Qlt_floor (y + (1 # 2))) as Hup.
  rewrite <- Hfl, inject_Z_plus in Hup. change (inject_Z 1) with 1%Q in Hup.
  unfold endtime, npts_of, delta_of in Past. simpl in Past.
  destruct (Z.of_nat (length (data t)) =? 0) eqn:Emp.
  { apply Z.eqb_eq in Emp. lia. }
  apply Z.eqb_neq in Emp.
  assert (inject_Z (Z.of_nat (length (data t)) - 1) < 1 # 2)%Q as Hn.
  { apply (Qmult_lt_r_inv _ _ (1 / sampling_rate t)).
    - apply Qlt_shift_div_l; lra.
    - assert (y * (1 / sampling_rate t) == start - starttime t)%Q as Hy
        by (unfold y; field; lra).
      assert ((1 # 2) * (1 / sampling_rate t)
              == (y + (1 # 2)) * (1 / sampling_rate t) - (start - starttime t))%Q as ->
        by (rewrite <- Hy; ring).
      assert (0 < 1 / sampling_rate t)%Q as Hu by (apply Qlt_shift_div_l; lra).
      assert ((y + (1 # 2)) * (1 / sampling_rate t)
              <= (inject_Z delta + 1) * (1 / sampling_rate t))%Q as Hd
        by (apply Qmult_le_compat_r; lra).
      lra. }
  assert (Z.of_nat (length (data t)) - 1 < 1) as Hn'.
  { rewrite Zlt_Qlt. change (inject_Z 1) with 1%Q. lra. }
  lia.
Qed.

Lemma trim_keeps_sac (start stop : Q) (t t' : Trace) :
  trim start stop t = Done t' -> sac t' = sac t.
Proof.
  unfold trim. destruct (Qltb stop start); [discriminate |].
  intros [= <-].
  destruct (ltrim_fields start t) as (_ & _ & <-).
  unfold rtrim.
  destruct (_ =? 0); [reflexivity |].
  destruct (0 <? _); [reflexivity |].
  destruct (Qltb stop _); reflexivity.
Qed.

(** With padding, a window whose length is a whole number [k >= 1] of
    sampling intervals always yields [k + 1] samples: the record where the
    window covers it, zeros elsewhere. *)
Lemma trim_window (start stop : Q) (t : Trace) (k : Z) :
  (0 < sampling_rate t)%Q ->
  1 <= k ->
  ((stop - start) * sampling_rate t == inject_Z k)%Q ->
  exists t',
    trim start stop t = Done t'
    /\ data t' = cut_or_pad (Z.to_nat (k + 1))
                   (left_trimmed (ltrim_delta start t) (data t))
    /\ sampling_rate t' = sampling_rate t
    /\ starttime t'
       = (starttime t + inject_Z (ltrim_delta start t) * delta_of t)%Q
    /\ sac t' = sac t.
Proof.
  intros Hsr Hk Hwin.
  assert (0 < inject_Z k)%Q as Hk0.
  { change 0%Q with (inject_Z 0). rewrite <- Zlt_Qlt. lia. }
  assert (1 <= inject_Z k)%Q as Hk1.
  { change 1%Q with (inject_Z 1). rewrite <- Zle_Qle. lia. }
  assert (start < stop)%Q as Hord.
  { apply (Qmult_lt_r_inv _ _ (sampling_rate t) Hsr).
    assert (stop * sampling_rate t == start * sampling_rate t + inject_Z k)%Q as ->
      by (rewrite <- Hwin; ring).
    lra. }
  unfold trim.
  assert (Qltb stop start = false) as ->.
  { destruct (Qltb stop start) eqn:E; [| reflexivity].
    apply Qltb_lt in E. lra. }
  eexists. split; [reflexivity |].
  destruct (ltrim_fields start t) as (Fsr & Fst & Fsac).
  pose proof (ltrim_data start t Hsr) as Fdata.
  pose proof (ltrim_delta_floor start t Hsr) as Hfl.
  set (t1 := ltrim start t) in *.
  set (delta := ltrim_delta start t) in *.
  set (y := ((start - starttime t) * sampling_rate t)%Q) in *.
  pose proof (Qfloor_le (y + (1 # 2))) as Hlo.
  pose proof (Qlt_floor (y + (1 # 2))) as Hup.
  rewrite <- Hfl in Hlo, Hup.
  rewrite inject_Z_plus in Hup. change (inject_Z 1) with 1%Q in Hup.
  assert ((stop - starttime t1) * sampling_rate t1
          == inject_Z k + (y - inject_Z delta))%Q as Hz.
  { rewrite Fsr, Fst. unfold delta_of.
    assert ((stop - (starttime t + inject_Z delta * (1 / sampling_rate t)))
            * sampling_rate t
            == (stop - start) * sampling_rate t + y - inject_Z delta)%Q as ->
      by (unfold y; field; lra).
    rewrite Hwin. ring. }
  assert (round_away ((stop - starttime t1) * sampling_rate t1) = k) as Hround.
  { rewrite round_away_nonneg by (rewrite Hz; lra).
    apply Qfloor_unique; rewrite ?inject_Z_plus, Hz;
      change (inject_Z 1) with 1%Q; lra. }
  unfold rtrim. rewrite Hround.
  assert (npts_of t1 = Z.of_nat (length (left_trimmed delta (data t)))) as Hnp
    by (unfold npts_of; now rewrite Fdata).
  set (L := left_trimmed delta (data t)) in *.
  unfold cut_or_pad.
  destruct (k - npts_of t1 + 1 =? 0) eqn:D0.
  { apply Z.eqb_eq in D0. repeat split; try assumption.
    rewrite Fdata, take_ge by lia.
    replace (Z.to_nat (k + 1) - length L)%nat with 0%nat by lia.
    simpl. now rewrite app_nil_r. }
  apply Z.eqb_neq in D0.
  destruct (0 <? k - npts_of t1 + 1) eqn:Dpos.
  { apply Z.ltb_lt in Dpos. simpl. repeat split; try assumption.
    rewrite Fdata, take_ge by lia. f_equal. f_equal. lia. }
  apply Z.ltb_ge in Dpos.
  assert (0 < (stop - starttime t1) * sampling_rate t1)%Q as Hpos
    by (rewrite Hz; lra).
  assert (starttime t1 < stop)%Q as Hlate.
  { apply (Qmult_lt_r_inv _ _ (sampling_rate t1)); [rewrite Fsr; assumption |].
    lra. }
  assert (Qltb stop (starttime t1) = false) as ->.
  { destruct (Qltb stop (starttime t1)) eqn:E; [| reflexivity].
    apply Qltb_lt in E. lra. }
  assert (Qeq_bool stop (starttime t1) = false) as ->.
  { destruct (Qeq_bool stop (starttime t1)) eqn:E; [| reflexivity].
    apply Qeq_bool_iff in E. lra. }
  simpl. repeat split; try assumption.
  unfold py_take.
  assert ((npts_of t1 - Z.abs (k - npts_of t1 + 1) <? 0) = false) as ->
    by (apply Z.ltb_ge; lia).
  rewrite Fdata.
  replace (Z.to_nat (npts_of t1 - Z.abs (k - npts_of t1 + 1)))
    with (Z.to_nat (k + 1)) by lia.
  replace (Z.to_nat (k + 1) - length L)%nat with 0%nat by lia.
  simpl. now rewrite app_nil_r.
Qed.

End TrimCount.

(** ** The conditioning of one trace *)

Section Conditioning.

Variable bandpass : Q -> Q -> Z -> Q -> list Q -> Except (list Q).
Variable cosine_taper : Q -> list Q -> Except (list Q).
Variable fourier_resample : Q -> Q -> list Q -> Except (list Q).

Local Abbreviation filter' := (filter bandpass).
Local Abbreviation taper' := (taper cosine_taper).
Local Abbreviation step_resample' := (step_resample fourier_resample).
Local Abbreviation condition_trace' :=
  (condition_trace bandpass cosine_taper fourier_resample).
Local Abbreviation prepared' :=
  (prepared bandpass cosine_taper fourier_resample).

Lemma condition_trace_unfold (c : Config) (origin_time : Q) (t : Trace) :
  condition_trace' c origin_time t
  = (t2 ← prepared' c t;
     t3 ← trim (reference_time c origin_time t2 - time_before c)
               (reference_time c origin_time t2 + time_after c)
               (marked c origin_time t2);
     mret (finished origin_time t3)).
Proof.
  unfold condition_trace, prepared, cut_trace.
  destruct (filter' c t) as [t1 |]; [| reflexivity]. simpl.
  destruct (taper' t1) as [t2 |]; [| reflexivity]. simpl.
  destruct (step_decimate c t2) as [t3 |]; [| reflexivity]. simpl.
  destruct (step_resample' c t3) as [t4 |]; [| reflexivity]. simpl.
  unfold step_trim. simpl.
  destruct (trim _ _ _) as [t5 |]; reflexivity.
Qed.

Lemma filter_keeps (c : Config) (t t' : Trace) :
  filter' c t = Done t' ->
  sampling_rate t' = sampling_rate t /\ starttime t' = starttime t /\ sac t' = sac t.
Proof.
  unfold filter. destruct (bandpass _ _ _ _ _); simpl; [| discriminate].
  intros [= <-]. now repeat split.
Qed.

Lemma taper_keeps (t t' : Trace) :
  taper' t = Done t' ->
  sampling_rate t' = sampling_rate t /\ starttime t' = starttime t /\ sac t' = sac t.
Proof.
  unfold taper. destruct (data t).
  - intros [= <-]. now repeat split.
  - destruct (cosine_taper _ _); simpl; [| discriminate].
    intros [= <-]. now repeat split.
Qed.

Lemma step_decimate_keeps (c : Config) (t t' : Trace) :
  step_decimate c t = Done t' ->
  starttime t' = starttime t /\ sac t' = sac t.
Proof.
  unfold step_decimate, decimate. destruct (_ =? 0); [discriminate |].
  intros [= <-]. now repeat split.
Qed.

Lemma step_resample_keeps (c : Config) (t t' : Trace) :
  step_resample' c t = Done t' ->
  ~ (dt c == 0)%Q
  /\ (data t' <> [] -> sampling_rate t' = (1 / dt c)%Q)
  /\ starttime t' = starttime t /\ sac t' = sac t.
Proof.
  unfold step_resample, resample.
  destruct (Qeq_bool (dt c) 0) eqn:E; [discriminate |].
  assert (~ (dt c == 0)%Q) as Nz.
  { intros H. apply Qeq_bool_iff in H. congruence. }
  destruct (data t) eqn:Ed.
  - intros [= <-]. repeat split; try assumption. congruence.
  - destruct (Qeq_bool (1 / dt c) 0); [discriminate |].
    destruct (fourier_resample _ _ _); simpl; [| discriminate].
    intros [= <-]. now repeat split.
Qed.

(** A prepared trace that holds samples is sampled at [1/dt]; its start
    time and SAC header are those of the trace read from disk. *)
Lemma prepared_keeps (c : Config) (t t2 : Trace) :
  prepared' c t = Done t2 ->
  ~ (dt c == 0)%Q
  /\ (data t2 <> [] -> sampling_rate t2 = (1 / dt c)%Q)
  /\ starttime t2 = starttime t /\ sac t2 = sac t.
Proof.
  unfold prepared.
  destruct (filter' c t) as [a |] eqn:Ea; [| discriminate]. simpl.
  destruct (taper' a) as [a' |] eqn:Eb; [| discriminate]. simpl.
  destruct (step_decimate c a') as [a'' |] eqn:Ec; [| discriminate]. simpl.
  intros Ed.
  apply filter_keeps in Ea as (_ & Sa & Ha).
  apply taper_keeps in Eb as (_ & Sb & Hb).
  apply step_decimate_keeps in Ec as (Sc & Hc).
  apply step_resample_keeps in Ed as (Nz & Rd & Sd & Hd).
  repeat split; try assumption; congruence.
Qed.

Lemma py_round_whole (q : Q) (k : Z) : (q == inject_Z k)%Q -> py_round q = k.
Proof.
  intros H. unfold py_round.
  rewrite (Qfloor_comp _ _ H), Qfloor_Z.
  assert ((q - inject_Z k ?= 1 # 2)%Q = Lt) as ->
    by (apply (proj1 (Qlt_alt _ _)); lra).
  reflexivity.
Qed.

(** Windowing a prepared trace that holds samples never fails when the
    window has a whole number [k >= 1] of sampling intervals, and leaves
    [k + 1] samples. *)
Lemma conditioned_window (c : Config) (origin_time : Q) (t t2 : Trace) (k : Z) :
  prepared' c t = Done t2 ->
  data t2 <> [] ->
  (0 < dt c)%Q ->
  1 <= k ->
  ((time_before c + time_after c) / dt c == inject_Z k)%Q ->
  exists t',
    condition_trace' c origin_time t = Done t'
    /\ data t' = map (Qmult 100)
                   (cut_or_pad (Z.to_nat (k + 1))
                      (left_trimmed (window_offset c origin_time t2) (data t2))).
Proof.
  intros Hprep Hsome Hdt Hk Hwin.
  pose proof (prepared_keeps c t t2 Hprep) as (Nz & Hsr & _ & _).
  specialize (Hsr Hsome).
  rewrite condition_trace_unfold, Hprep. simpl.
  destruct (trim_window (reference_time c origin_time t2 - time_before c)
                        (reference_time c origin_time t2 + time_after c)
                        (marked c origin_time t2) k)
    as (t3 & Htrim & Hdata & _).
  - simpl. rewrite Hsr. apply Qlt_shift_div_l; lra.
  - assumption.
  - simpl. rewrite Hsr, <- Hwin. field. assumption.
  - rewrite Htrim. simpl. eexists. split; [reflexivity |].
    simpl. now rewrite Hdata.
Qed.


(** C3: the reference time is the origin time when the reduction velocity
    is zero or [None], whatever the distance, and the origin time plus
    distance over reduction velocity otherwise; it is the value stored in
    [t1], and the one a conditioned trace carries. *)
Theorem reference_time_rule (c : Config) (origin_time : Q) (t : Trace) :
  match vred c with
  | None => (reference_time c origin_time t == origin_time)%Q
  | Some v =>
      if Qeq_bool v 0
      then (reference_time c origin_time t == origin_time)%Q
      else (reference_time c origin_time t == origin_time + dist (sac t) / v)%Q
  end
  /\ (exists t', step_t1 c origin_time t = Done t'
                 /\ t1 (sac t') = Some (reference_time c origin_time t))
  /\ (forall t',
        condition_trace' c origin_time t = Done t' ->
        t1 (sac t') = Some (reference_time c origin_time t)).
Proof.
  split; [| split].
  - unfold reference_time, p.
    destruct (vred c) as [v |]; [| ring].
    destruct (Qeq_bool v 0) eqn:E; [ring |].
    field. intros H. apply Qeq_bool_iff in H. congruence.
  - eexists. split; reflexivity.
  - intros t' Hrun.
    rewrite condition_trace_unfold in Hrun.
    destruct (prepared' c t) as [t2 |] eqn:Hprep; [| discriminate].
    apply prepared_keeps in Hprep as (_ & _ & _ & Hsac).
    simpl in Hrun.
    destruct (trim _ _ _) as [t3 |] eqn:Htrim; [| discriminate].
    apply trim_keeps_sac in Htrim. simpl in Hrun.
    injection Hrun as <-. simpl. rewrite Htrim. simpl.
    unfold reference_time. now rewrite Hsac.
Qed.

(** C4: a conditioned trace has [b = -(origin_time - starttime)], with the
    start time the trimmed (possibly padded) trace has, and [o = 0]; and a
    prepared trace is conditioned whenever the window is not reversed. *)
Theorem time_zero_markers (c : Config) (origin_time : Q) (t : Trace) :
  (forall t2,
      prepared' c t = Done t2 ->
      (0 <= time_before c + time_after c)%Q ->
      exists t', condition_trace' c origin_time t = Done t')
  /\ (forall t',
        condition_trace' c origin_time t = Done t' ->
        (b (sac t') == - (origin_time - starttime t'))%Q
        /\ o (sac t') = Some 0%Q).
Proof.
  split.
  - intros t2 Hprep Hwin.
    rewrite condition_trace_unfold, Hprep. simpl.
    unfold trim.
    assert (Qltb (reference_time c origin_time t2 + time_after c)
                 (reference_time c origin_time t2 - time_before c) = false) as ->.
    { destruct (Qltb _ _) eqn:E; [| reflexivity]. apply Qltb_lt in E. lra. }
    simpl. eexists. reflexivity.
  - intros t' Hrun.
    rewrite condition_trace_unfold in Hrun.
    destruct (prepared' c t) as [t2 |]; [| discriminate]. simpl in Hrun.
    destruct (trim _ _ _) as [t3 |]; [| discriminate]. simpl in Hrun.
    injection Hrun as <-. simpl. split; [| reflexivity].
    change (inject_Z (-1)) with (-1 # 1)%Q. ring.
Qed.

End Conditioning.

(** ** Running cells *)

Section CellFacts.

Lemma bind_run {A B} (m : M A) (f : A -> M B) (s : State) :
  (m ≫= f) s
  = match m s with
    | Ok a s' => f a s'
    | Raise e s' => Raise e s'
    end.
Proof. reflexivity. Qed.

Lemma bind_ok_inv {A B} (m : M A) (f : A -> M B) (s s' : State) (y : B) :
  (m ≫= f) s = Ok y s' -> exists a s1, m s = Ok a s1 /\ f a s1 = Ok y s'.
Proof.
  rewrite bind_run. destruct (m s) as [a s1 | e s1]; [| discriminate].
  intros H. now exists a, s1.
Qed.

Lemma with_file_again (path : string) (f g : File) (s : State) :
  with_file path g (with_file path f s) = with_file path g s.
Proof. unfold with_file. simpl. now rewrite insert_insert_eq. Qed.

Lemma append_cons (ch : ascii) (a b : string) :
  String ch a +:+ b = String ch (a +:+ b).
Proof. reflexivity. Qed.

Lemma append_nil_r (s : string) : s +:+ "" = s.
Proof.
  induction s as [| ch s IH]; [reflexivity |].
  now rewrite append_cons, IH.
Qed.

Lemma append_assoc (a b c : string) : (a +:+ b) +:+ c = a +:+ (b +:+ c).
Proof.
  induction a as [| ch a IH]; [reflexivity |].
  now rewrite !append_cons, IH.
Qed.

Lemma count_nl_app (a b : string) :
  count_nl (a +:+ b) = (count_nl a + count_nl b)%nat.
Proof.
  induction a as [| ch a IH]; [reflexivity |].
  rewrite append_cons. simpl.
  destruct (Ascii.eqb ch "010"); simpl; now rewrite IH.
Qed.

Lemma count_nl_uint (d : Decimal.uint) :
  count_nl (NilEmpty.string_of_uint d) = 0%nat.
Proof. induction d; simpl; assumption || reflexivity. Qed.

Lemma count_nl_digits (n : N) : count_nl (digits n) = 0%nat.
Proof.
  unfold digits, NilZero.string_of_uint.
  destruct (N.to_uint n) eqn:E; try reflexivity; rewrite <- E; apply count_nl_uint.
Qed.

Lemma count_nl_zeros (n : nat) : count_nl (zeros n) = 0%nat.
Proof. induction n; simpl; assumption || reflexivity. Qed.

Lemma count_nl_format_d (z : Z) : count_nl (format_d z) = 0%nat.
Proof.
  unfold format_d. destruct (z <? 0); [rewrite count_nl_app |];
    now rewrite count_nl_digits.
Qed.

Lemma count_nl_format_f (prec : nat) (x : Q) : count_nl (format_f prec x) = 0%nat.
Proof.
  unfold format_f, zfill.
  destruct (Qle_bool 0 x), prec;
    repeat (rewrite ?count_nl_app, ?count_nl_digits, ?count_nl_zeros; simpl);
    reflexivity.
Qed.

(** *** The distance file *)

Lemma count_nl_line (c : Config) (v : Q) (row : StationRow) :
  count_nl (line_of c v row) = 1%nat.
Proof.
  unfold line_of.
  repeat (rewrite ?count_nl_app, ?count_nl_format_f, ?count_nl_format_d; simpl).
  reflexivity.
Qed.

Lemma count_nl_text (c : Config) (v : Q) (rows : list StationRow) :
  count_nl (text_of c v rows) = length rows.
Proof.
  induction rows as [| row rest IH]; simpl; [reflexivity |].
  now rewrite count_nl_app, count_nl_line, IH.
Qed.

Lemma for_each_cons {A} (x : A) (xs : list A) (body : A -> M unit) (s : State) :
  for_each (x :: xs) body s
  = match body x s with
    | Ok _ s' => for_each xs body s'
    | Raise e s' => Raise e s'
    end.
Proof. reflexivity. Qed.

Lemma f_write_run (path text written : string) (s : State) :
  f_write path text (with_file path (TextFile written) s)
  = Ok tt (with_file path (TextFile (written +:+ text)) s).
Proof.
  unfold f_write. rewrite bind_run. simpl.
  rewrite lookup_insert_eq.
  change (write_file path ?f ?s0) with (Ok tt (with_file path f s0)).
  fold (with_file path (TextFile written) s).
  now rewrite with_file_again.
Qed.

Lemma dfile_line_some (c : Config) (v : Q) (row : StationRow) :
  vred c = Some v -> dfile_line c row = Done (line_of c v row).
Proof. intros Hv. unfold dfile_line. now rewrite Hv. Qed.

Lemma dfile_loop (c : Config) (v : Q) (rows : list StationRow) :
  vred c = Some v ->
  forall (s : State) (written : string),
    for_each rows
      (fun row => line ← lift (dfile_line c row); f_write (dfile_out c) line)
      (with_file (dfile_out c) (TextFile written) s)
    = Ok tt (with_file (dfile_out c) (TextFile (written +:+ text_of c v rows)) s).
Proof.
  intros Hv. induction rows as [| row rest IH]; intros s written.
  - simpl. now rewrite append_nil_r.
  - rewrite for_each_cons, bind_run, (dfile_line_some c v row Hv).
    change (lift (Done ?x) ?s0) with (Ok x s0). cbv beta iota.
    rewrite f_write_run, IH. simpl. now rewrite append_assoc.
Qed.

Lemma open_w_run (path : string) (s : State) :
  open_w path s = Ok tt (with_file path (TextFile "") s).
Proof. reflexivity. Qed.

Lemma lookup_name_some {A} (name : string) (field : Env -> option A) (s : State) (v : A) :
  field (env s) = Some v -> lookup_name name field s = Ok v s.
Proof. intros H. unfold lookup_name. rewrite bind_run. simpl. now rewrite H. Qed.

Lemma lookup_name_none {A} (name : string) (field : Env -> option A) (s : State) :
  field (env s) = None -> lookup_name name field s = Raise (NameError name) s.
Proof. intros H. unfold lookup_name. rewrite bind_run. simpl. now rewrite H. Qed.

(** The build, for a bound station table and a numeric reduction velocity. *)
Lemma write_dfile_run (c : Config) (v : Q) (rows : list StationRow) (s : State) :
  vred c = Some v ->
  station_df (env s) = Some rows ->
  write_dfile c s
  = Ok tt (with_file (dfile_out c) (TextFile (text_of c v rows)) s).
Proof.
  intros Hv Hrows. unfold write_dfile.
  rewrite bind_run, open_w_run. cbv beta iota.
  rewrite bind_run, (lookup_name_some _ _ _ rows) by exact Hrows. cbv beta iota.
  apply (dfile_loop c v rows Hv s "").
Qed.

(** When the build succeeds. *)
Lemma write_dfile_ok (c : Config) (s : State) :
  is_ok (write_dfile c s)
  = match station_df (env s) with
    | None => false
    | Some rows =>
        match vred c with
        | Some _ => true
        | None => match rows with [] => true | _ => false end
        end
    end.
Proof.
  destruct (station_df (env s)) as [rows |] eqn:Hrows.
  - destruct (vred c) as [v |] eqn:Hv.
    + now rewrite (write_dfile_run c v rows s Hv Hrows).
    + unfold write_dfile.
      rewrite bind_run, open_w_run. cbv beta iota.
      rewrite bind_run, (lookup_name_some _ _ _ rows) by exact Hrows. cbv beta iota.
      destruct rows as [| row rest]; [reflexivity |].
      rewrite for_each_cons, bind_run. unfold dfile_line. now rewrite Hv.
  - unfold write_dfile.
    rewrite bind_run, open_w_run. cbv beta iota.
    now rewrite bind_run, lookup_name_none by exact Hrows.
Qed.

End CellFacts.

(** ** The conditioning cell writes the conditioned traces *)

Section ConditionCell.

Variable bandpass : Q -> Q -> Z -> Q -> list Q -> Except (list Q).
Variable cosine_taper : Q -> list Q -> Except (list Q).
Variable fourier_resample : Q -> Q -> list Q -> Except (list Q).

Local Abbreviation cut_trace' := (cut_trace fourier_resample).
Local Abbreviation condition_trace' :=
  (condition_trace bandpass cosine_taper fourier_resample).

Lemma with_st_id (l : list Trace) (s : State) :
  st (env s) = Some l -> with_st l s = s.
Proof.
  destruct s as [e w sh so]. destruct e. simpl. intros ->. reflexivity.
Qed.

Lemma ret_run {A} (a : A) (s : State) : (mret a : M A) s = Ok a s.
Proof. reflexivity. Qed.

Lemma lift_done_run {A} (a : A) (s : State) : lift (Done a) s = Ok a s.
Proof. reflexivity. Qed.

Lemma mutate_at_run (i : nat) (f : Trace -> Except Trace) (s : State)
  (l : list Trace) (t t' : Trace) :
  st (env s) = Some l -> l !! i = Some t -> f t = Done t' ->
  mutate_at i f s = Ok tt (with_st (<[i := t']> l) s).
Proof.
  intros Hst Hi Hf. unfold mutate_at, trace_at.
  rewrite !bind_run, (lookup_name_some _ _ _ l) by exact Hst. cbv beta iota.
  rewrite Hi, ret_run. cbv beta iota.
  rewrite bind_run, Hf, lift_done_run. cbv beta iota.
  rewrite bind_run, (lookup_name_some _ _ _ l) by exact Hst.
  reflexivity.
Qed.

Lemma mutate_tr_run (i : nat) (f : Trace -> Except Trace) (s : State)
  (l : list Trace) (t t' : Trace) :
  tr (env s) = Some i -> st (env s) = Some l -> l !! i = Some t -> f t = Done t' ->
  mutate_tr f s = Ok tt (with_st (<[i := t']> l) s).
Proof.
  intros Htr Hst Hi Hf. unfold mutate_tr.
  rewrite bind_run, (lookup_name_some _ _ _ i) by exact Htr. cbv beta iota.
  now apply (mutate_at_run i f s l t t').
Qed.

Lemma stream_loop (f : Trace -> Except Trace) (rest rest' : list Trace) :
  Forall2 (fun t t' => f t = Done t') rest rest' ->
  forall (done : list Trace) (s : State),
    st (env s) = Some (done ++ rest) ->
    for_each (seq (length done) (length rest)) (fun i => mutate_at i f) s
    = Ok tt (with_st (done ++ rest') s).
Proof.
  induction 1 as [| t t' rest rest' Hf _ IH]; intros done s Hst.
  - simpl. now rewrite with_st_id.
  - simpl length. simpl seq. rewrite for_each_cons.
    assert ((done ++ t :: rest) !! length done = Some t) as Hi
      by now apply list_lookup_middle.
    rewrite (mutate_at_run (length done) f s (done ++ t :: rest) t t' Hst Hi Hf).
    rewrite insert_app_r_alt by lia.
    replace (length done - length done)%nat with 0%nat by lia. simpl.
    replace (S (length done)) with (length (done ++ [t']))
      by (rewrite length_app; simpl; lia).
    rewrite (IH (done ++ [t']) (with_st (done ++ t' :: rest) s)).
    + rewrite <- app_assoc. reflexivity.
    + simpl. now rewrite <- app_assoc.
Qed.

Lemma stream_apply_run (f : Trace -> Except Trace) (l l' : list Trace) (s : State) :
  st (env s) = Some l ->
  Forall2 (fun t t' => f t = Done t') l l' ->
  stream_apply f s = Ok tt (with_st l' s).
Proof.
  intros Hst Hall. unfold stream_apply.
  rewrite bind_run, (lookup_name_some _ _ _ l) by exact Hst. cbv beta iota.
  apply (stream_loop f l l' Hall [] s Hst).
Qed.

Lemma mutate_tr_next {B} (i : nat) (f : Trace -> Except Trace) (s : State)
  (l : list Trace) (t t' : Trace) (k : M B) :
  tr (env s) = Some i -> (i < length l)%nat -> f t = Done t' ->
  (mutate_tr f;; k) (with_st (<[i := t]> l) s) = k (with_st (<[i := t']> l) s).
Proof.
  intros Htr Hi Hf. rewrite bind_run.
  rewrite (mutate_tr_run i f (with_st (<[i := t]> l) s) (<[i := t]> l) t t');
    try assumption; try reflexivity.
  - now rewrite list_insert_insert_eq.
  - now apply list_lookup_insert_eq.
Qed.

Lemma read_tr_run (i : nat) (s : State) (l : list Trace) (t : Trace) :
  tr (env s) = Some i -> st (env s) = Some l -> l !! i = Some t ->
  read_tr s = Ok t s.
Proof.
  intros Htr Hst Hi. unfold read_tr, trace_at.
  rewrite bind_run, (lookup_name_some _ _ _ i) by exact Htr. cbv beta iota.
  rewrite bind_run, (lookup_name_some _ _ _ l) by exact Hst. cbv beta iota.
  now rewrite Hi.
Qed.

(** One pass of the loop: the trace is cut, marked and written. *)
Lemma condition_body_run (c : Config) (i : nat) (s : State) (l : list Trace)
  (t t' : Trace) (path : string) (origin : Q) :
  st (env s) = Some l ->
  l !! i = Some t ->
  origin_time (env s) = Some origin ->
  cut_trace' c origin t = Done t' ->
  dat_path c t' = Done path ->
  condition_body fourier_resample c i s
  = Ok tt (with_file path (SacFile t') (with_tr i (with_st (<[i := t']> l) s))).
Proof.
  intros Hst Hi Horigin Hcut Hpath.
  assert (i < length l)%nat as Hlt by (eapply lookup_lt_Some; eassumption).
  unfold cut_trace in Hcut.
  destruct (step_decimate c t) as [a1 |] eqn:E1; [| discriminate]. simpl in Hcut.
  destruct (step_resample fourier_resample c a1) as [a2 |] eqn:E2;
    [| discriminate]. simpl in Hcut.
  destruct (step_trim c _) as [a4 |] eqn:E4; [| discriminate]. simpl in Hcut.
  injection Hcut as <-.
  pose (a3 := set_sac (set_t1 (reference_time c origin a2) (sac a2)) a2).
  pose (a5 := set_data (map (Qmult 100) (data a4)) a4).
  pose (a6 := set_sac (set_b (inject_Z (-1) * (origin - starttime a5)) (sac a5)) a5).
  pose (a7 := set_sac (set_o 0 (sac a6)) a6).
  change (dat_path c a7 = Done path) in Hpath.
  change (with_file path (SacFile a7) (with_tr i (with_st (<[i := a7]> l) s)))
    with (with_file path (SacFile a7) (with_st (<[i := a7]> l) (with_tr i s))).
  unfold condition_body.
  rewrite bind_run.
  change (set_tr i s) with (Ok tt (with_tr i s)). cbv beta iota.
  rewrite <- (with_st_id l (with_tr i s)) at 1 by exact Hst.
  rewrite <- (list_insert_id l i t Hi) at 1.
  rewrite (mutate_tr_next i _ _ l t a1) by (reflexivity || assumption).
  rewrite (mutate_tr_next i _ _ l a1 a2) by (reflexivity || assumption).
  rewrite bind_run, (lookup_name_some _ _ _ origin) by exact Horigin. cbv beta iota.
  rewrite (mutate_tr_next i _ _ l a2 a3) by (reflexivity || assumption).
  rewrite (mutate_tr_next i _ _ l a3 a4) by (reflexivity || assumption).
  rewrite (mutate_tr_next i _ _ l a4 a5) by (reflexivity || assumption).
  rewrite bind_run, (lookup_name_some _ _ _ origin) by exact Horigin. cbv beta iota.
  rewrite (mutate_tr_next i _ _ l a5 a6) by (reflexivity || assumption).
  rewrite (mutate_tr_next i _ _ l a6 a7) by (reflexivity || assumption).
  rewrite bind_run, (read_tr_run i _ (<[i := a7]> l) a7);
    [| reflexivity | reflexivity | now apply list_lookup_insert_eq].
  cbv beta iota.
  rewrite bind_run, Hpath, lift_done_run. cbv beta iota.
  reflexivity.
Qed.

Lemma condition_loop (c : Config) (origin : Q) (rest rest' : list Trace) :
  Forall2 (fun t t' => cut_trace' c origin t = Done t') rest rest' ->
  forall (paths : list string),
    Forall2 (fun t' path => dat_path c t' = Done path) rest' paths ->
    forall (done : list Trace) (old : option nat) (fs : gmap string File) (s : State),
      origin_time (env s) = Some origin ->
      for_each (seq (length done) (length rest))
               (condition_body fourier_resample c)
               (conditioned (done ++ rest) old fs s)
      = Ok tt (conditioned (done ++ rest') (last_index done rest old)
                           (saved (zip paths rest') fs) s).
Proof.
  induction 1 as [| t t' rest rest' Hcut _ IH]; intros paths Hpaths done old fs s Horigin.
  - inversion Hpaths; subst. reflexivity.
  - inversion Hpaths as [| ? path ? ps Hpath Hps]; subst.
    simpl length. simpl seq. rewrite for_each_cons.
    assert ((done ++ t :: rest) !! length done = Some t) as Hi
      by now apply list_lookup_middle.
    rewrite (condition_body_run c (length done) _ (done ++ t :: rest) t t' path origin);
      try assumption; try reflexivity.
    rewrite insert_app_r_alt by lia.
    replace (length done - length done)%nat with 0%nat by lia. simpl.
    replace (S (length done)) with (length (done ++ [t']))
      by (rewrite length_app; simpl; lia).
    change (with_file path (SacFile t')
              (with_tr (length done)
                 (with_st (done ++ t' :: rest)
                    (conditioned (done ++ t :: rest) old fs s))))
      with (conditioned (done ++ t' :: rest) (Some (length done))
                        (<[path := SacFile t']> fs) s).
    replace (done ++ t' :: rest) with ((done ++ [t']) ++ rest)
      by now rewrite <- app_assoc.
    rewrite (IH ps Hps (done ++ [t']) (Some (length done))
                (<[path := SacFile t']> fs) s Horigin).
    rewrite <- app_assoc. simpl.
    f_equal. f_equal.
    unfold last_index. rewrite length_app. simpl.
    destruct rest; simpl; f_equal; lia.
Qed.

Lemma condition_trace_stages (c : Config) (origin : Q) (l l' : list Trace) :
  Forall2 (fun t t' => condition_trace' c origin t = Done t') l l' ->
  exists l1 l2,
    Forall2 (fun t t' => filter bandpass c t = Done t') l l1
    /\ Forall2 (fun t t' => taper cosine_taper t = Done t') l1 l2
    /\ Forall2 (fun t t' => cut_trace' c origin t = Done t') l2 l'.
Proof.
  induction 1 as [| t t' l l' Hrun _ (l1 & l2 & H1 & H2 & H3)].
  - exists [], []. repeat split; constructor.
  - unfold condition_trace in Hrun.
    destruct (filter bandpass c t) as [a |] eqn:Ea; [| discriminate].
    simpl in Hrun.
    destruct (taper cosine_taper a) as [a' |] eqn:Eb; [| discriminate].
    simpl in Hrun.
    exists (a :: l1), (a' :: l2). repeat split; constructor; assumption.
Qed.

Lemma with_st_conditioned (l : list Trace) (s : State) :
  with_st l s = conditioned l (tr (env s)) (files (world s)) s.
Proof. destruct s as [e [ds fs] sh so]. reflexivity. Qed.

(** The conditioning cell, when every trace goes through: the stream holds
    the conditioned traces, each has been written to its [.dat] path, and
    [tr] is left on the last one. *)
Lemma condition_cell_run (c : Config) (s : State) (l l' : list Trace)
  (paths : list string) (origin : Q) :
  st (env s) = Some l ->
  origin_time (env s) = Some origin ->
  Forall2 (fun t t' => condition_trace' c origin t = Done t') l l' ->
  Forall2 (fun t' path => dat_path c t' = Done path) l' paths ->
  condition_cell bandpass cosine_taper fourier_resample c s
  = Ok tt (conditioned l' (last_index [] l (tr (env s)))
                       (saved (zip paths l') (files (world s))) s).
Proof.
  intros Hst Horigin Hall Hpaths.
  destruct (condition_trace_stages c origin l l' Hall) as (l1 & l2 & H1 & H2 & H3).
  unfold condition_cell.
  rewrite bind_run, (stream_apply_run _ l l1 s Hst H1). cbv beta iota.
  rewrite bind_run, (stream_apply_run _ l1 l2 (with_st l1 s) eq_refl H2).
  cbv beta iota.
  rewrite bind_run, (lookup_name_some _ _ _ l2) by reflexivity. cbv beta iota.
  change (with_st l2 (with_st l1 s)) with (with_st l2 s).
  rewrite with_st_conditioned.
  rewrite (condition_loop c origin l2 l' H3 paths Hpaths [] _ _ s Horigin).
  simpl. f_equal. f_equal.
  unfold last_index.
  apply Forall2_length in H1, H2.
  destruct l, l2; simpl in *; try lia; try reflexivity.
  f_equal. lia.
Qed.

End ConditionCell.
(** ** The distance file: what is written, and what is not checked *)

Section DistanceFile.

Variable bandpass : Q -> Q -> Z -> Q -> list Q -> Except (list Q).
Variable system : string -> World -> Z * World.


(** C5 (amended): the build does not look at [npts]: whether it succeeds
    is the same for every value, and when it succeeds the value given is
    the third field of every line, power of two or not. *)
Theorem npts_not_validated (c : Config) (n : Z) (s : State) :
  is_ok (write_dfile (with_npts n c) s) = is_ok (write_dfile c s)
  /\ (forall v rows,
        vred c = Some v ->
        station_df (env s) = Some rows ->
        exists s',
          write_dfile (with_npts n c) s = Ok tt s'
          /\ files (world s') !! dfile_out c
             = Some (TextFile (text_of (with_npts n c) v rows))
          /\ forall row,
               line_of (with_npts n c) v row
               = format_f 0 (distance row) +:+ " " +:+ format_f 2 (dt c) +:+ " " +:+
                 format_d n +:+ " " +:+ format_d (t0 c) +:+ " " +:+
                 format_f 1 v +:+ nl).
Proof.
  split.
  - now rewrite !write_dfile_ok.
  - intros v rows Hv Hrows.
    exists (with_file (dfile_out c) (TextFile (text_of (with_npts n c) v rows)) s).
    split; [now apply (write_dfile_run (with_npts n c) v rows s) |].
    split; [apply lookup_insert_eq | reflexivity].
Qed.

End DistanceFile.

(** ** The missing data directory *)

Section Startup.

Variable bandpass : Q -> Q -> Z -> Q -> list Q -> Except (list Q).
Variable cosine_taper : Q -> list Q -> Except (list Q).
Variable fourier_resample : Q -> Q -> list Q -> Except (list Q).
Variable system : string -> World -> Z * World.
Variable UTCDateTime : string -> Except Q.
Variable str_float : Q -> string.
Variable to_string : list ManifestRow -> string.

(** C9 (amended): when the directory of processed data is absent the first
    cell raises nothing: it prints a message, binds no name and touches no
    file.  In a namespace without [st], the run from top to bottom then
    stops in the conditioning cell with [NameError] on [st], before any
    file is written or any command is run. *)
Theorem missing_directory_is_reported (c : Config) (s : State) :
  path_exists (world s) (sacdir c) = false ->
  load_cell UTCDateTime c s = Ok tt (printed (missing_message c) s)
  /\ (st (env s) = None ->
      run_all bandpass cosine_taper fourier_resample system UTCDateTime
              str_float to_string c s
      = Raise (NameError "st") (printed (missing_message c) s)).
Proof.
  intros Habsent.
  assert (load_cell UTCDateTime c s = Ok tt (printed (missing_message c) s)) as Hload.
  { unfold load_cell. rewrite bind_run. simpl. now rewrite Habsent. }
  split; [exact Hload |].
  intros Hst. unfold run_all.
  rewrite bind_run, Hload. cbv beta iota.
  rewrite bind_run. unfold condition_cell.
  rewrite bind_run. unfold stream_apply at 1.
  now rewrite bind_run, lookup_name_none.
Qed.

End Startup.

(** ** The modelling engine and its exit statuses *)

Section Engine.

Variable bandpass : Q -> Q -> Z -> Q -> list Q -> Except (list Q).

Lemma os_system_then {B} (sys : string -> World -> Z * World) (cmd : string)
  (k : M B) (s : State) :
  (os_system sys cmd;; k) s
  = k (mkState (env s) (sys cmd (world s)).2 (shell s ++ [cmd]) (stdout s)).
Proof.
  rewrite bind_run. unfold os_system.
  now destruct (sys cmd (world s)).
Qed.

Lemma run_engine_run (sys : string -> World -> Z * World) (c : Config)
  (depth : Z) (s : State) :
  exists s',
    run_engine sys c depth s = Ok tt s'
    /\ shell s' = shell s ++ engine_commands c depth
    /\ env s' = env s
    /\ stdout s' = stdout s.
Proof.
  unfold run_engine. rewrite !os_system_then.
  eexists. split; [reflexivity |]. simpl.
  split; [| split; reflexivity].
  unfold engine_commands. now rewrite <- !app_assoc.
Qed.

Lemma run_engine_status_blind (sys1 sys2 : string -> World -> Z * World)
  (c : Config) (depth : Z) (s : State) :
  (forall cmd w, (sys1 cmd w).2 = (sys2 cmd w).2) ->
  run_engine sys1 c depth s = run_engine sys2 c depth s.
Proof.
  intros H. unfold run_engine. rewrite !os_system_then. simpl.
  now rewrite !H.
Qed.

(** C6 (amended): the exit statuses of the four invocations are dropped.
    Whatever they are, all four commands are run in order, and a depth job
    ends the same way under two engines that differ only in the statuses
    they return. *)
Theorem exit_status_ignored (sys1 sys2 : string -> World -> Z * World)
  (c : Config) (gdir : string) (depth : Z) (s : State) :
  (forall cmd w, (sys1 cmd w).2 = (sys2 cmd w).2) ->
  depth_job bandpass sys1 c gdir depth s = depth_job bandpass sys2 c gdir depth s
  /\ exists s',
       run_engine sys1 c depth s = Ok tt s'
       /\ shell s' = shell s ++ engine_commands c depth.
Proof.
  intros H. split.
  - unfold depth_job. rewrite !bind_run.
    destruct (write_dfile c s) as [[] s1 | e s1]; [| reflexivity].
    rewrite !bind_run. now rewrite (run_engine_status_blind sys1 sys2 c depth s1 H).
  - destruct (run_engine_run sys1 c depth s) as (s' & Hrun & Hshell & _).
    now exists s'.
Qed.

End Engine.

(** ** The depth list and the jobs it drives *)

Section Depths.

Lemma insert_sorted_perm (x : Z) (l : list Z) :
  Permutation (insert_sorted x l) (x :: l).
Proof.
  induction l as [| y rest IH]; simpl; [reflexivity |].
  destruct (x <=? y); [reflexivity |].
  rewrite IH. apply perm_swap.
Qed.

Lemma sorted_perm (l : list Z) : Permutation (sorted l) l.
Proof.
  induction l as [| x rest IH]; simpl; [reflexivity |].
  now rewrite insert_sorted_perm, IH.
Qed.

Lemma insert_sorted_hd (x y : Z) (l : list Z) :
  y <= x -> HdRel Z.le y l -> HdRel Z.le y (insert_sorted x l).
Proof.
  intros Hyx Hhd. destruct l as [| z rest]; simpl.
  - now constructor.
  - destruct (x <=? z); constructor; [assumption |].
    now inversion Hhd.
Qed.

Lemma insert_sorted_Sorted (x : Z) (l : list Z) :
  Sorted Z.le l -> Sorted Z.le (insert_sorted x l).
Proof.
  induction 1 as [| y rest Hs IH Hhd]; simpl.
  - repeat constructor.
  - destruct (x <=? y) eqn:E.
    + apply Z.leb_le in E. repeat constructor; assumption.
    + apply Z.leb_gt in E. constructor; [assumption |].
      apply insert_sorted_hd; [lia | assumption].
Qed.

Lemma sorted_Sorted (l : list Z) : Sorted Z.le (sorted l).
Proof.
  induction l as [| x rest IH]; simpl; [constructor |].
  now apply insert_sorted_Sorted.
Qed.

End Depths.

(** *** What a cell hands to the shell *)

Lemma appends_ret {A} (a : A) : appends (mret a) [].
Proof. intros s0 a0 s1 H. inversion H; subst. simpl. now rewrite app_nil_r. Qed.

Lemma appends_raise {A} (e : exn) : appends (raise (A := A) e) [].
Proof. intros s x s' H. discriminate. Qed.

Lemma appends_bind {A B} (m : M A) (f : A -> M B) (l1 l2 : list string) :
  appends m l1 -> (forall a, appends (f a) l2) -> appends (m ≫= f) (l1 ++ l2).
Proof.
  intros Hm Hf s y s' H.
  apply bind_ok_inv in H as (a & s1 & H1 & H2).
  rewrite (Hf a _ _ _ H2), (Hm _ _ _ H1). now rewrite app_assoc.
Qed.

Lemma quiet_bind {A B} (m : M A) (f : A -> M B) (l : list string) :
  appends m [] -> (forall a, appends (f a) l) -> appends (m ≫= f) l.
Proof. intros Hm Hf. now apply (appends_bind m f [] l). Qed.

Lemma appends_for_each {A} (xs : list A) (body : A -> M unit)
  (cmds : A -> list string) :
  (forall x, appends (body x) (cmds x)) ->
  appends (for_each xs body) (concat (map cmds xs)).
Proof.
  intros Hbody. induction xs as [| x rest IH]; simpl.
  - apply appends_ret.
  - apply appends_bind; [apply Hbody | intros _; exact IH].
Qed.

Lemma quiet_for_each {A} (xs : list A) (body : A -> M unit) :
  (forall x, appends (body x) []) -> appends (for_each xs body) [].
Proof.
  intros Hbody. induction xs as [| x rest IH]; simpl.
  - apply appends_ret.
  - apply quiet_bind; [apply Hbody | intros _; exact IH].
Qed.

Lemma quiet_lift {A} (x : Except A) : appends (lift x) [].
Proof. destruct x; [apply appends_ret | apply appends_raise]. Qed.

Lemma quiet_get_env : appends get_env [].
Proof. intros s0 a0 s1 H. inversion H; subst. simpl. now rewrite app_nil_r. Qed.

Lemma quiet_get_world : appends get_world [].
Proof. intros s0 a0 s1 H. inversion H; subst. simpl. now rewrite app_nil_r. Qed.

Lemma quiet_put_env (e : Env) : appends (put_env e) [].
Proof. intros s0 a0 s1 H. inversion H; subst. simpl. now rewrite app_nil_r. Qed.

Lemma quiet_put_world (w : World) : appends (put_world w) [].
Proof. intros s0 a0 s1 H. inversion H; subst. simpl. now rewrite app_nil_r. Qed.

Lemma quiet_print (line : string) : appends (print line) [].
Proof. intros s0 a0 s1 H. inversion H; subst. simpl. now rewrite app_nil_r. Qed.

Lemma appends_os_system (sys : string -> World -> Z * World) (cmd : string) :
  appends (os_system sys cmd) [cmd].
Proof.
  intros s a s'. unfold os_system. destruct (sys cmd (world s)).
  now intros [= _ <-].
Qed.

Create HintDb quiet.

#[local] Hint Resolve appends_ret appends_raise quiet_lift quiet_get_env
  quiet_get_world quiet_put_env quiet_put_world quiet_print : quiet.

(** Cells built from the quiet primitives are quiet. *)
Ltac quiet :=
  repeat first
    [ progress intros
    | apply quiet_bind
    | apply quiet_for_each
    | match goal with
      | |- appends (match ?x with _ => _ end) _ => destruct x
      end
    | solve [auto with quiet] ].

Lemma quiet_lookup_name {A} (name : string) (field : Env -> option A) :
  appends (lookup_name name field) [].
Proof. unfold lookup_name. quiet. Qed.

Lemma quiet_write_file (path : string) (f : File) :
  appends (write_file path f) [].
Proof. unfold write_file. quiet. Qed.

#[local] Hint Resolve quiet_lookup_name quiet_write_file : quiet.

Lemma quiet_obspy_read (path : string) : appends (obspy_read path) [].
Proof. unfold obspy_read. quiet. Qed.

Lemma quiet_f_write (path text : string) : appends (f_write path text) [].
Proof. unfold f_write. quiet. Qed.

Lemma quiet_trace_at (i : nat) : appends (trace_at i) [].
Proof. unfold trace_at. quiet. Qed.

#[local] Hint Resolve quiet_obspy_read quiet_f_write quiet_trace_at : quiet.

Lemma quiet_write_dfile (c : Config) : appends (write_dfile c) [].
Proof. unfold write_dfile, open_w. quiet. Qed.

Lemma quiet_filter_and_save
  (bandpass : Q -> Q -> Z -> Q -> list Q -> Except (list Q))
  (c : Config) (gdir : string) (depth : Z) :
  appends (filter_and_save bandpass c gdir depth) [].
Proof. unfold filter_and_save, read_tr, obspy_write. quiet. Qed.

Lemma appends_run_engine (sys : string -> World -> Z * World) (c : Config) (depth : Z) :
  appends (run_engine sys c depth) (engine_commands c depth).
Proof.
  intros s a s' H.
  destruct (run_engine_run sys c depth s) as (s1 & Hrun & Hshell & _).
  congruence.
Qed.

Lemma appends_depth_job
  (bandpass : Q -> Q -> Z -> Q -> list Q -> Except (list Q))
  (sys : string -> World -> Z * World) (c : Config) (gdir : string) (depth : Z) :
  appends (depth_job bandpass sys c gdir depth) (engine_commands c depth).
Proof.
  unfold depth_job.
  apply quiet_bind; [apply quiet_write_dfile | intros _].
  rewrite <- (app_nil_r (engine_commands c depth)).
  apply appends_bind; [apply appends_run_engine | intros _].
  apply quiet_filter_and_save.
Qed.

Section GreenCell.

Variable bandpass : Q -> Q -> Z -> Q -> list Q -> Except (list Q).
Variable system : string -> World -> Z * World.

Lemma lookup_name_inv {A} (name : string) (field : Env -> option A)
  (s s' : State) (v : A) :
  lookup_name name field s = Ok v s' -> s' = s /\ field (env s) = Some v.
Proof.
  unfold lookup_name. rewrite bind_run. simpl.
  destruct (field (env s)); [| discriminate].
  intros H. inversion H; subst. now split.
Qed.

Lemma first_row_inv (rows : list EventRow) (s s' : State) (r : EventRow) :
  first_row rows s = Ok r s' -> s' = s /\ exists rest, rows = r :: rest.
Proof.
  destruct rows as [| r0 rest]; [discriminate |].
  intros H. inversion H; subst. split; [reflexivity | now exists rest].
Qed.

(** The commands of the whole cell: the four of each depth in the list, one
    depth after the other, then the removal of the raw files. *)
Lemma green_cell_commands (c : Config) (s s' : State) :
  green_cell bandpass system c s = Ok tt s' ->
  exists row0 rest,
    df (env s) = Some (row0 :: rest)
    /\ shell s'
       = shell s
         ++ concat (map (engine_commands c) (depth_list (depth row0)))
         ++ ["rm B*.sac"%string].
Proof.
  unfold green_cell. intros H.
  apply bind_ok_inv in H as (d & s1 & Hd & H).
  apply lookup_name_inv in Hd as (-> & Hdf).
  apply bind_ok_inv in H as (row0 & s1 & Hrow & H).
  apply first_row_inv in Hrow as (-> & rest & ->).
  exists row0, rest. split; [assumption |].
  revert H. generalize tt at 2. intros u H. revert s s' u H Hdf.
  intros s s' u H _. revert s u s' H.
  change (appends
            (set_depths (depth_list (depth row0));;
             set_green_dir (event_dir c +:+ "/" +:+ model c);;
             mkdir_p (event_dir c +:+ "/" +:+ model c);;
             for_each (depth_list (depth row0))
               (depth_job bandpass system c (event_dir c +:+ "/" +:+ model c));;
             os_system system "rm B*.sac";; mret tt)
            (concat (map (engine_commands c) (depth_list (depth row0)))
             ++ ["rm B*.sac"%string])).
  apply quiet_bind; [unfold set_depths; quiet | intros _].
  apply quiet_bind; [unfold set_green_dir; quiet | intros _].
  apply quiet_bind; [unfold mkdir_p; quiet | intros _].
  apply appends_bind.
  - apply appends_for_each. intros depth. apply appends_depth_job.
  - intros _. rewrite <- (app_nil_r ["rm B*.sac"%string]).
    apply appends_bind; [apply appends_os_system | intros _; apply appends_ret].
Qed.

(** C7 (amended): the depth list holds the rounded catalog depth next to 10
    and 20, in ascending order, and always has three entries: a catalog
    depth that rounds to 10 or 20 is listed twice.  A catalog depth of 13.6
    gives [10, 14, 20].  The cell runs one job per entry of the list, in
    the order of the list. *)
Theorem depth_list_sorted_with_duplicates (catalog_depth : Q) :
  In (py_round catalog_depth) (depth_list catalog_depth)
  /\ Sorted Z.le (depth_list catalog_depth)
  /\ Permutation (depth_list catalog_depth) [10; 20; py_round catalog_depth]
  /\ length (depth_list catalog_depth) = 3%nat
  /\ depth_list (136 # 10) = [10; 14; 20]
  /\ (forall c s s',
        green_cell bandpass system c s = Ok tt s' ->
        exists row0 rest,
          df (env s) = Some (row0 :: rest)
          /\ shell s'
             = shell s
               ++ concat (map (engine_commands c) (depth_list (depth row0)))
               ++ ["rm B*.sac"%string]).
Proof.
  pose proof (sorted_perm [10; 20; py_round catalog_depth]) as Hperm.
  fold (depth_list catalog_depth) in Hperm.
  split.
  { apply (Permutation_in _ (Permutation_sym Hperm)). simpl. auto. }
  split; [apply sorted_Sorted |].
  split; [exact Hperm |].
  split; [now rewrite (Permutation_length Hperm) |].
  split; [reflexivity |].
  intros c s s'. apply green_cell_commands.
Qed.

End GreenCell.

(** ** The filter-and-save loop reads one file *)

Section FilterAndSave.

Variable bandpass : Q -> Q -> Z -> Q -> list Q -> Except (list Q).

Lemma obspy_read_run (path : string) (s : State) (t : Trace) :
  files (world s) !! path = Some (SacFile t) -> obspy_read path s = Ok t s.
Proof. intros H. unfold obspy_read. rewrite bind_run. simpl. now rewrite H. Qed.

Lemma saved_app (w1 w2 : list (string * Trace)) (fs : gmap string File) :
  saved (w1 ++ w2) fs = saved w2 (saved w1 fs).
Proof.
  revert fs. induction w1 as [| [path t] w1 IH]; intros fs; simpl;
    [reflexivity | apply IH].
Qed.

Lemma saved_elsewhere (writes : list (string * Trace)) (fs : gmap string File)
  (path : string) :
  Forall (fun w => w.1 ≠ path) writes -> saved writes fs !! path = fs !! path.
Proof.
  revert fs. induction writes as [| [p t] rest IH]; intros fs Hne; simpl;
    [reflexivity |].
  inversion Hne as [| ? ? Hp Hrest]; subst. simpl in Hp.
  rewrite IH by assumption. now apply lookup_insert_ne.
Qed.

Lemma green_writes_cons (gdir : string) (depth : Z) (out : Trace)
  (row : StationRow) (rest : list StationRow) :
  green_writes gdir depth out (row :: rest)
  = map (fun grn => (green_path gdir row depth grn, out)) greens
    ++ green_writes gdir depth out rest.
Proof. reflexivity. Qed.

Section OneSource.

Variables (c : Config) (gdir : string) (depth : Z).
Variables (i : nat) (l : list Trace) (cur obs out : Trace) (sacin : string).
Variable s : State.

Hypothesis Htr : tr (env s) = Some i.
Hypothesis Hst : st (env s) = Some l.
Hypothesis Hcur : l !! i = Some cur.
Hypothesis Hsacin : dat_path c cur = Done sacin.
Hypothesis Hfilter : filter bandpass c obs = Done out.

Lemma save_components (row : StationRow) (grns : list string)
  (fs : gmap string File) :
  fs !! sacin = Some (SacFile obs) ->
  Forall (fun grn => green_path gdir row depth grn ≠ sacin) grns ->
  for_each grns
    (fun grn =>
       cur ← read_tr;
       sacin ← lift (dat_path c cur);
       tmp ← obspy_read sacin;
       tmp ← lift (filter bandpass c tmp);
       obspy_write (green_path gdir row depth grn) tmp)
    (with_files fs s)
  = Ok tt (with_files
             (saved (map (fun grn => (green_path gdir row depth grn, out)) grns) fs)
             s).
Proof.
  revert fs. induction grns as [| grn rest IH]; intros fs Hin Hne; [reflexivity |].
  inversion Hne as [| ? ? Hgrn Hrest]; subst.
  rewrite for_each_cons.
  rewrite bind_run, (read_tr_run i (with_files fs s) l cur Htr Hst Hcur).
  cbv beta iota.
  rewrite bind_run, Hsacin, lift_done_run. cbv beta iota.
  rewrite bind_run, (obspy_read_run sacin _ obs) by exact Hin. cbv beta iota.
  rewrite bind_run, Hfilter, lift_done_run. cbv beta iota.
  change (obspy_write ?p out (with_files fs s))
    with (Ok tt (with_files (<[p := SacFile out]> fs) s)).
  cbv beta iota. simpl map. simpl saved.
  apply IH; [| assumption].
  now rewrite lookup_insert_ne.
Qed.

Lemma save_stations (rows : list StationRow) (fs : gmap string File) :
  fs !! sacin = Some (SacFile obs) ->
  Forall (fun w => w.1 ≠ sacin) (green_writes gdir depth out rows) ->
  for_each rows
    (fun row =>
       for_each greens (fun grn =>
         cur ← read_tr;
         sacin ← lift (dat_path c cur);
         tmp ← obspy_read sacin;
         tmp ← lift (filter bandpass c tmp);
         obspy_write (green_path gdir row depth grn) tmp))
    (with_files fs s)
  = Ok tt (with_files (saved (green_writes gdir depth out rows) fs) s).
Proof.
  revert fs. induction rows as [| row rest IH]; intros fs Hin Hne; [reflexivity |].
  rewrite green_writes_cons in *. apply Forall_app in Hne as [Hrow Hrest].
  rewrite for_each_cons, (save_components row greens fs Hin).
  - rewrite saved_app. apply IH; [| assumption].
    rewrite saved_elsewhere; assumption.
  - apply List.Forall_forall. intros grn Hg.
    rewrite List.Forall_forall in Hrow.
    apply (Hrow (green_path gdir row depth grn, out)).
    apply in_map_iff. now exists grn.
Qed.

End OneSource.

(** Whatever the stations and components, the loop reads the one file
    named after the leftover loop variable [tr], and writes its filtered
    content under every output name. *)
Lemma filter_and_save_run (c : Config) (gdir : string) (depth : Z) (s : State)
  (i : nat) (l : list Trace) (cur obs out : Trace) (sacin : string)
  (rows : list StationRow) :
  tr (env s) = Some i ->
  st (env s) = Some l ->
  l !! i = Some cur ->
  dat_path c cur = Done sacin ->
  files (world s) !! sacin = Some (SacFile obs) ->
  filter bandpass c obs = Done out ->
  station_df (env s) = Some rows ->
  Forall (fun w => w.1 ≠ sacin) (green_writes gdir depth out rows) ->
  filter_and_save bandpass c gdir depth s
  = Ok tt (with_files (saved (green_writes gdir depth out rows) (files (world s))) s).
Proof.
  intros Htr Hst Hcur Hsacin Hin Hfilter Hrows Hne.
  unfold filter_and_save.
  rewrite bind_run, (lookup_name_some _ _ _ rows) by exact Hrows. cbv beta iota.
  assert (s = with_files (files (world s)) s) as Hs
    by (destruct s as [e [ds fs] sh so]; reflexivity).
  rewrite Hs at 1.
  now apply (save_stations c gdir depth i l cur obs out sacin s).
Qed.

End FilterAndSave.
(** ** The station table of the inversion input *)

Section Manifest.

Variable bandpass : Q -> Q -> Z -> Q -> list Q -> Except (list Q).
Variable cosine_taper : Q -> list Q -> Except (list Q).
Variable fourier_resample : Q -> Q -> list Q -> Except (list Q).
Variable str_float : Q -> string.
Variable to_string : list ManifestRow -> string.

Lemma manifest_cell_table (c : Config) (s s' : State) :
  manifest_cell str_float to_string c s = Ok tt s' ->
  exists rows,
    station_df (env s) = Some rows
    /\ df_out (env s') = Some (map (manifest_row c) rows).
Proof.
  unfold manifest_cell. intros H.
  apply bind_ok_inv in H as (d & s1 & Hd & H).
  apply lookup_name_inv in Hd as (-> & _).
  apply bind_ok_inv in H as (row0 & s1 & Hrow & H).
  apply first_row_inv in Hrow as (-> & _).
  apply bind_ok_inv in H as (ds & s1 & Hds & H).
  apply lookup_name_inv in Hds as (-> & _).
  apply bind_ok_inv in H as (gdir & s1 & Hg & H).
  apply lookup_name_inv in Hg as (-> & _).
  apply bind_ok_inv in H as (u1 & s1 & Hh & H).
  unfold set_headers in Hh. rewrite bind_run in Hh. simpl in Hh.
  inversion Hh; subst; clear Hh.
  apply bind_ok_inv in H as (rows & s1 & Hrows & H).
  apply lookup_name_inv in Hrows as (-> & Hrows). simpl in Hrows.
  exists rows. split; [assumption |].
  apply bind_ok_inv in H as (u2 & s1 & Hout & H).
  unfold set_df_out in Hout. rewrite bind_run in Hout. simpl in Hout.
  inversion Hout; subst; clear Hout.
  inversion H; subst. reflexivity.
Qed.


End Manifest.

(** ** The notebook on the small event *)

Module Runs.
Import Scenario.

Local Abbreviation read_event := (load_cell clock notebook_config).
Local Abbreviation condition :=
  (condition_cell still_bandpass still_taper still_resample notebook_config).
Local Abbreviation green := (green_cell still_bandpass modelling notebook_config).
Local Abbreviation job := (depth_job still_bandpass).

(** The first two cells run through on the small event. *)
Lemma two_cells_run :
  (read_event;; condition) (fresh disk) = Ok tt after_conditioning.
Proof. vm_compute. reflexivity. Qed.

(** The conditioning cell on the small event, through the general account
    of the cell: both traces are conditioned and written, and [tr] is left
    on the vertical one. *)
Lemma small_event_conditioned :
  let l := [observed "BHR" 4; observed "BHZ" 3] in
  let l' := map conditioned_of l in
  let paths := ["40191336/BK.QRDG.00.R.dat"; "40191336/BK.QRDG.00.Z.dat"]%string in
  st (env after_loading) = Some l
  /\ Forall2 (fun t t' =>
                condition_trace still_bandpass still_taper still_resample
                                notebook_config 1000 t = Done t') l l'
  /\ condition after_loading
     = Ok tt (conditioned l' (Some 1%nat)
                          (saved (zip paths l') (files (world after_loading)))
                          after_loading).
Proof.
  intros l l' paths.
  assert (Forall2 (fun t t' =>
                     condition_trace still_bandpass still_taper still_resample
                                     notebook_config 1000 t = Done t') l l') as Hall.
  { unfold l', l.
    change (map conditioned_of [observed "BHR" 4; observed "BHZ" 3])
      with [conditioned_of (observed "BHR" 4); conditioned_of (observed "BHZ" 3)].
    constructor; [vm_compute; reflexivity |].
    constructor; [vm_compute; reflexivity | constructor]. }
  assert (st (env after_loading) = Some l) as Hst by (vm_compute; reflexivity).
  split; [exact Hst |].
  split; [exact Hall |].
  apply (condition_cell_run still_bandpass still_taper still_resample
           notebook_config after_loading l l' paths 1000 Hst);
    [vm_compute; reflexivity | exact Hall |].
  unfold l', l, paths.
  change (map conditioned_of [observed "BHR" 4; observed "BHZ" 3])
    with [conditioned_of (observed "BHR" 4); conditioned_of (observed "BHZ" 3)].
  constructor; [vm_compute; reflexivity |].
  constructor; [vm_compute; reflexivity | constructor].
Qed.

(** The filter-and-save loop on the small event, through the general
    account of the loop: every file it writes holds the filtered content of
    [40191336/BK.QRDG.00.Z.dat]. *)
Lemma small_event_greens :
  let obs := conditioned_of (observed "BHZ" 3) in
  files (world after_conditioning) !! "40191336/BK.QRDG.00.Z.dat"%string
  = Some (SacFile obs)
  /\ filter_and_save still_bandpass notebook_config "40191336/gil7" 10
                     after_conditioning
     = Ok tt (with_files
                (saved (green_writes "40191336/gil7" 10 obs [qrdg])
                       (files (world after_conditioning)))
                after_conditioning).
Proof.
  intros obs.
  assert (files (world after_conditioning) !! "40191336/BK.QRDG.00.Z.dat"%string
          = Some (SacFile obs)) as Hin by (vm_compute; reflexivity).
  split; [exact Hin |].
  apply (filter_and_save_run still_bandpass notebook_config "40191336/gil7" 10
           after_conditioning 1%nat
           [conditioned_of (observed "BHR" 4); conditioned_of (observed "BHZ" 3)]
           obs obs obs "40191336/BK.QRDG.00.Z.dat" [qrdg]).
  - vm_compute. reflexivity.
  - vm_compute. reflexivity.
  - reflexivity.
  - vm_compute. reflexivity.
  - exact Hin.
  - vm_compute. reflexivity.
  - vm_compute. reflexivity.
  - change (green_writes "40191336/gil7" 10 obs [qrdg])
      with (map (fun grn => (green_path "40191336/gil7" qrdg 10 grn, obs)) greens
            ++ []).
    rewrite app_nil_r. unfold greens.
    repeat (constructor; [unfold green_path; vm_compute; discriminate |]).
    constructor.
Qed.

(** C1: on the small event, with the raw synthetic of every component in
    the working directory, the file written for (BK.QRDG.00, ZDD) at depth
    10 is the filtered observed vertical trace, read from
    [40191336/BK.QRDG.00.Z.dat], and so are the files of all other
    components; the raw synthetic [B00101ZDD.sac] is not read. *)
Theorem greens_filtered_from_observed :
  exists obs,
    job modelling notebook_config "40191336/gil7" 10 after_conditioning
    = Ok tt (after_job modelling)
    /\ files (world (after_job modelling)) !! "B00101ZDD.sac"%string
       = Some (SacFile (synthetic 1))
    /\ filter still_bandpass notebook_config (synthetic 1) = Done (synthetic 1)
    /\ files (world (after_job modelling)) !! "40191336/BK.QRDG.00.Z.dat"%string
       = Some (SacFile obs)
    /\ stats_channel obs = "BHZ"%string
    /\ filter still_bandpass notebook_config obs = Done obs
    /\ obs <> synthetic 1
    /\ (fun grn =>
          files (world (after_job modelling))
          !! green_path "40191336/gil7" qrdg 10 grn) <$> greens
       = replicate (length greens) (Some (SacFile obs)).
Proof.
  eexists.
  split; [vm_compute; reflexivity |].
  split; [vm_compute; reflexivity |].
  split; [reflexivity |].
  split; [vm_compute; reflexivity |].
  split; [reflexivity |].
  split; [reflexivity |].
  split; [discriminate |].
  vm_compute. reflexivity.
Qed.



(** With [vred = 0] the observed vertical trace carries the origin time in
    [t1]. *)
Lemma reference_time_rule_witness :
  exists t',
    condition_trace still_bandpass still_taper still_resample
                    notebook_config 1000 (observed "BHZ" 3) = Done t'
    /\ t1 (sac t') = Some (reference_time notebook_config 1000 (observed "BHZ" 3))
    /\ (reference_time notebook_config 1000 (observed "BHZ" 3) == 1000)%Q.
Proof.
  destruct (reference_time_rule still_bandpass still_taper still_resample
              notebook_config 1000 (observed "BHZ" 3)) as (Hvalue & _ & Hkept).
  eexists. split; [vm_compute; reflexivity |].
  split; [apply Hkept; vm_compute; reflexivity | exact Hvalue].
Defined.

(** The markers of the observed vertical trace of the small event. *)
Lemma time_zero_markers_witness :
  exists t',
    condition_trace still_bandpass still_taper still_resample
                    notebook_config 1000 (observed "BHZ" 3) = Done t'
    /\ (b (sac t') == - (1000 - starttime t'))%Q
    /\ o (sac t') = Some 0%Q.
Proof.
  destruct (time_zero_markers still_bandpass still_taper still_resample
              notebook_config 1000 (observed "BHZ" 3)) as (Hruns & Hmarks).
  destruct (Hruns (mkTrace "BK" "QRDG" "00" "BHZ" 1 990 [3; 3; 3]%Q
                           (mkSacHeader 81 None 0 None)))
    as (t' & Hrun); [reflexivity | discriminate |].
  exists t'. split; [exact Hrun | now apply Hmarks].
Defined.

(** C5, as stated, fails: with [npts = 250], which is not a power of two,
    the build succeeds and writes 250 into the line. *)
Lemma build_accepts_250 :
  is_power_of_two 250 = false
  /\ exists s',
       write_dfile (with_npts 250 notebook_config) stations_only = Ok tt s'
       /\ files (world s') !! "40191336/dfile"%string
          = Some (TextFile ("81 1.00 250 0 0.0" +:+ nl)).
Proof.
  split; [reflexivity |].
  eexists. split; vm_compute; reflexivity.
Qed.

(** The build runs with 250 points as it does with 256. *)
Lemma npts_not_validated_witness :
  is_ok (write_dfile (with_npts 250 notebook_config) stations_only)
  = is_ok (write_dfile notebook_config stations_only)
  /\ exists s',
       write_dfile (with_npts 250 notebook_config) stations_only = Ok tt s'.
Proof.
  destruct (npts_not_validated notebook_config 250 stations_only) as (Hsame & Hruns).
  split; [exact Hsame |].
  destruct (Hruns 0%Q [qrdg]) as (s' & Hrun & _); [reflexivity | reflexivity |].
  now exists s'.
Defined.


(** C6, as stated, fails: with an engine whose four invocations all exit
    with 1, the depth job raises nothing, runs all four and goes on to
    write the files of the depth. *)
Lemma failed_engine_goes_unnoticed :
  Forall (fun cmd => (missing_engine cmd (world after_conditioning)).1 = 1)
         (engine_commands notebook_config 10)
  /\ job missing_engine notebook_config "40191336/gil7" 10 after_conditioning
     = Ok tt (after_job missing_engine)
  /\ shell (after_job missing_engine) = engine_commands notebook_config 10
  /\ forallb (fun grn =>
                bool_decide
                  (is_Some (files (world (after_job missing_engine))
                            !! green_path "40191336/gil7" qrdg 10 grn)))
             greens
     = true.
Proof.
  split; [repeat constructor |].
  split; [vm_compute; reflexivity |].
  split; vm_compute; reflexivity.
Qed.

(** The depth job ends the same way when every command of the modelling
    engine exits with 1. *)
Lemma exit_status_ignored_witness :
  job modelling notebook_config "40191336/gil7" 10 after_conditioning
  = job (exiting 1 modelling) notebook_config "40191336/gil7" 10 after_conditioning.
Proof.
  destruct (exit_status_ignored still_bandpass modelling (exiting 1 modelling)
              notebook_config "40191336/gil7" 10 after_conditioning) as (Hsame & _).
  - intros cmd w. reflexivity.
  - exact Hsame.
Defined.

(** C7, as stated, fails: a catalog depth of 10.2 km rounds to 10, and the
    list keeps both entries. *)
Lemma duplicate_depth_is_kept :
  depth_list (102 # 10) = [10; 10; 20]
  /\ ~ List.NoDup (depth_list (102 # 10)).
Proof.
  split; [reflexivity |].
  intros H. inversion H as [| x l Hnotin _]; subst.
  apply Hnotin. simpl. auto.
Qed.

(** On the small event, with a catalog depth of 13.6 km, the cell runs the
    jobs of the depths 10, 14 and 20, in this order. *)
Lemma depth_list_sorted_with_duplicates_witness :
  green after_conditioning = Ok tt (final (green after_conditioning))
  /\ shell (final (green after_conditioning))
     = engine_commands notebook_config 10
       ++ engine_commands notebook_config 14
       ++ engine_commands notebook_config 20
       ++ ["rm B*.sac"%string].
Proof.
  assert (green after_conditioning = Ok tt (final (green after_conditioning)))
    as Hgreen by (vm_compute; reflexivity).
  split; [exact Hgreen |].
  destruct (depth_list_sorted_with_duplicates still_bandpass modelling (136 # 10))
    as (_ & _ & _ & _ & _ & Hjobs).
  destruct (Hjobs notebook_config _ _ Hgreen) as (row0 & rest & Hdf & Hshell).
  rewrite Hshell. vm_compute in Hdf. injection Hdf as <- <-.
  vm_compute. reflexivity.
Defined.

(** C9, as stated, fails: without the directory the first cell returns
    normally. *)
Lemma missing_directory_raises_nothing :
  path_exists bare_disk (sacdir notebook_config) = false
  /\ read_event (fresh bare_disk)
     = Ok tt (printed (missing_message notebook_config) (fresh bare_disk))
  /\ forall e s', read_event (fresh bare_disk) <> Raise e s'.
Proof.
  split; [reflexivity |].
  split; [reflexivity |].
  intros e s'. discriminate.
Qed.

(** On a disk without the directory the run stops in the conditioning
    cell. *)
Lemma missing_directory_is_reported_witness :
  run_all still_bandpass still_taper still_resample modelling clock
          show_float show_table notebook_config (fresh bare_disk)
  = Raise (NameError "st") (printed (missing_message notebook_config) (fresh bare_disk)).
Proof.
  destruct (missing_directory_is_reported still_bandpass still_taper still_resample
              modelling clock show_float show_table notebook_config (fresh bare_disk))
    as (_ & Hrun); [reflexivity |].
  now apply Hrun.
Defined.


End Runs.

(** * Further properties of the cells *)

Section Decimation.

Lemma stride_from_lookup {A} (m : nat) (l : list A) :
  forall (w j : nat),
    stride_from (S m) w l !! j = l !! (w + j * S m)%nat.
Proof.
  induction l as [| x rest IH]; intros w j.
  - reflexivity.
  - destruct w as [| w]; simpl stride_from.
    + destruct j as [| j].
      * reflexivity.
      * simpl. rewrite IH. f_equal. lia.
    + rewrite IH. reflexivity.
Qed.

Lemma py_stride_lookup {A} (k : Z) (l : list A) (j : nat) :
  1 <= k -> py_stride k l !! j = l !! (j * Z.to_nat k)%nat.
Proof.
  intros Hk. unfold py_stride.
  assert ((0 <? k) = true) as -> by (apply Z.ltb_lt; lia).
  destruct (Z.to_nat k) as [| m] eqn:E; [lia |].
  apply stride_from_lookup.
Qed.

Lemma py_stride_length {A} (k : Z) (l : list A) :
  1 <= k ->
  Z.of_nat (length (py_stride k l)) = (Z.of_nat (length l) + k - 1) / k.
Proof.
  intros Hk.
  set (L := py_stride k l).
  assert (forall j : nat, (j < length L)%nat <-> (j * Z.to_nat k < length l)%nat) as Hlen.
  { intros j. rewrite <- !lookup_lt_is_Some. unfold L.
    now rewrite py_stride_lookup. }
  assert (Z.of_nat (length l) <= Z.of_nat (length L) * k) as Hup.
  { destruct (Hlen (length L)) as [_ H].
    destruct (Z_le_gt_dec (Z.of_nat (length l)) (Z.of_nat (length L) * k)); [assumption |].
    assert (length L * Z.to_nat k < length l)%nat as H' by nia.
    apply H in H'. lia. }
  assert (length L = 0%nat \/ (Z.of_nat (length L) - 1) * k < Z.of_nat (length l)) as Hlo.
  { destruct (length L) as [| n] eqn:E; [now left | right].
    destruct (Hlen n) as [H _].
    assert (n * Z.to_nat k < length l)%nat as H' by (apply H; lia).
    nia. }
  apply Z.div_unique with (r := Z.of_nat (length l) + k - 1 - k * Z.of_nat (length L)).
  - left. destruct Hlo as [Hz | Hlo]; nia.
  - lia.
Qed.

Lemma Qtrunc_zero (q : Q) : Qtrunc q = 0 <-> (-1 < q)%Q /\ (q < 1)%Q.
Proof.
  unfold Qtrunc.
  destruct (Qle_bool 0 q) eqn:E.
  - apply Qle_bool_iff in E. split.
    + intros H. pose proof (Qlt_floor q) as Hup. rewrite H in Hup.
      change (inject_Z (0 + 1)) with 1%Q in Hup. split; lra.
    + intros [_ H]. apply Qfloor_unique; [exact E | exact H].
  - assert (q < 0)%Q as Hneg.
    { apply Qnot_le_lt. intros H. apply Qle_bool_iff in H. congruence. }
    unfold Qceiling. split.
    + intros H. assert (Qfloor (- q) = 0) as H0 by lia.
      pose proof (Qlt_floor (- q)) as Hup. rewrite H0 in Hup.
      change (inject_Z (0 + 1)) with 1%Q in Hup. split; lra.
    + intros [H _]. rewrite (Qfloor_unique (- q) 0); [reflexivity | |];
        change (inject_Z (0 + 1)) with 1%Q; change (inject_Z 0) with 0%Q; lra.
Qed.

Lemma Qtrunc_floor (q : Q) (k : Z) :
  0 <= k -> (inject_Z k <= q)%Q -> (q < inject_Z (k + 1))%Q -> Qtrunc q = k.
Proof.
  intros Hk Hlo Hup. unfold Qtrunc.
  assert (0 <= q)%Q as Hq.
  { assert (0 <= inject_Z k)%Q by (change 0%Q with (inject_Z 0); now rewrite <- Zle_Qle).
    lra. }
  apply Qle_bool_iff in Hq. rewrite Hq. now apply Qfloor_unique.
Qed.


End Decimation.

Section TrimPad.

Lemma Qltb_ge (x y : Q) : Qltb x y = false <-> (y <= x)%Q.
Proof.
  unfold Qltb. rewrite negb_false_iff. apply Qle_bool_iff.
Qed.

(** [_rtrim] leaves the start time alone unless the window ends before the
    trace starts. *)
Lemma rtrim_fields (stop : Q) (t : Trace) :
  (starttime t <= stop)%Q ->
  sampling_rate (rtrim stop t) = sampling_rate t
  /\ starttime (rtrim stop t) = starttime t
  /\ sac (rtrim stop t) = sac t.
Proof.
  intros Hle. apply Qltb_ge in Hle. unfold rtrim. rewrite Hle.
  destruct (_ =? 0); [now repeat split |].
  destruct (0 <? _); now repeat split.
Qed.

(** With padding, a window of at least half a sampling interval is cut on
    the sample grid of the record: it starts [delta] samples into the
    record and holds the samples up to the one nearest to its end. *)
Lemma trim_pad (start stop : Q) (t : Trace) :
  (0 < sampling_rate t)%Q ->
  (1 # 2 <= (stop - start) * sampling_rate t)%Q ->
  let delta := ltrim_delta start t in
  let m := Qfloor ((stop - starttime t) * sampling_rate t + (1 # 2)) - delta + 1 in
  exists t',
    trim start stop t = Done t'
    /\ data t' = cut_or_pad (Z.to_nat m) (left_trimmed delta (data t))
    /\ 1 <= m
    /\ sampling_rate t' = sampling_rate t
    /\ starttime t' = (starttime t + inject_Z delta * delta_of t)%Q
    /\ sac t' = sac t.
Proof.
  intros Hsr Hwin delta m.
  assert (start < stop)%Q as Hord.
  { apply (Qmult_lt_r_inv _ _ (sampling_rate t) Hsr).
    assert (stop * sampling_rate t
            == start * sampling_rate t + (stop - start) * sampling_rate t)%Q as ->
      by ring.
    lra. }
  unfold trim.
  assert (Qltb stop start = false) as -> by (apply Qltb_ge; lra).
  eexists. split; [reflexivity |].
  destruct (ltrim_fields start t) as (Fsr & Fst & Fsac).
  pose proof (ltrim_data start t Hsr) as Fdata.
  pose proof (ltrim_delta_floor start t Hsr) as Hfl.
  fold delta in Fst, Fdata, Hfl.
  set (t1 := ltrim start t) in *.
  set (y := ((start - starttime t) * sampling_rate t)%Q) in *.
  pose proof (Qfloor_le (y + (1 # 2))) as Hlo.
  pose proof (Qlt_floor (y + (1 # 2))) as Hup.
  rewrite <- Hfl in Hlo, Hup.
  rewrite inject_Z_plus in Hup. change (inject_Z 1) with 1%Q in Hup.
  set (x := ((stop - starttime t) * sampling_rate t)%Q) in *.
  assert (x == (stop - start) * sampling_rate t + y)%Q as Hx
    by (unfold x, y; ring).
  assert ((stop - starttime t1) * sampling_rate t1 == x - inject_Z delta)%Q as Hz.
  { rewrite Fsr, Fst. unfold delta_of, x. field. lra. }
  assert (0 <= x - inject_Z delta)%Q as Hpos by lra.
  assert (round_away ((stop - starttime t1) * sampling_rate t1) = m - 1) as Hround.
  { rewrite round_away_nonneg by (rewrite Hz; exact Hpos).
    assert ((stop - starttime t1) * sampling_rate t1 + (1 # 2)
            == (x + (1 # 2)) + inject_Z (- delta))%Q as ->
      by (rewrite Hz, inject_Z_opp; ring).
    rewrite Qfloor_shift. unfold m. lia. }
  assert (1 <= m) as Hm.
  { assert (0 <= m - 1); [| lia].
    rewrite <- Hround, round_away_nonneg by (rewrite Hz; exact Hpos).
    change 0 with (Qfloor 0). apply Qfloor_resp_le. rewrite Hz. lra. }
  assert (starttime t1 <= stop)%Q as Hlate.
  { apply (Qmult_le_r _ _ (sampling_rate t1)); [rewrite Fsr; assumption |].
    assert (stop * sampling_rate t1
            == starttime t1 * sampling_rate t1
               + (stop - starttime t1) * sampling_rate t1)%Q as -> by ring.
    rewrite Hz. lra. }
  destruct (rtrim_fields stop t1 Hlate) as (Rsr & Rst & Rsac).
  split; [| repeat split; congruence].
  unfold rtrim. rewrite Hround.
  assert (npts_of t1 = Z.of_nat (length (left_trimmed delta (data t)))) as Hnp
    by (unfold npts_of; now rewrite Fdata).
  set (L := left_trimmed delta (data t)) in *.
  unfold cut_or_pad.
  destruct (m - 1 - npts_of t1 + 1 =? 0) eqn:D0.
  { apply Z.eqb_eq in D0.
    rewrite Fdata, take_ge by lia.
    replace (Z.to_nat m - length L)%nat with 0%nat by lia.
    simpl. now rewrite app_nil_r. }
  apply Z.eqb_neq in D0.
  destruct (0 <? m - 1 - npts_of t1 + 1) eqn:Dpos.
  { apply Z.ltb_lt in Dpos. simpl.
    rewrite Fdata, take_ge by lia. f_equal. f_equal. lia. }
  apply Z.ltb_ge in Dpos.
  assert (Qltb stop (starttime t1) = false) as -> by (now apply Qltb_ge).
  assert ((if Qeq_bool stop (starttime t1) then 1
           else npts_of t1 - Z.abs (m - 1 - npts_of t1 + 1)) = m) as ->.
  { destruct (Qeq_bool stop (starttime t1)) eqn:E; [| lia].
    apply Qeq_bool_iff in E.
    assert (m - 1 = 0); [| lia].
    rewrite <- Hround. rewrite round_away_nonneg by (rewrite Hz; exact Hpos).
    apply Qfloor_unique; rewrite E;
      change (inject_Z (0 + 1)) with 1%Q; change (inject_Z 0) with 0%Q; lra. }
  simpl. unfold py_take.
  assert ((m <? 0) = false) as -> by (apply Z.ltb_ge; lia).
  rewrite Fdata.
  replace (Z.to_nat m - length L)%nat with 0%nat by lia.
  simpl. now rewrite app_nil_r.
Qed.

End TrimPad.

(** ** The conditioning of one trace: refusals and the sample grid *)

Section Windowing.

Variable bandpass : Q -> Q -> Z -> Q -> list Q -> Except (list Q).
Variable cosine_taper : Q -> list Q -> Except (list Q).
Variable fourier_resample : Q -> Q -> list Q -> Except (list Q).

Local Abbreviation filter' := (filter bandpass).
Local Abbreviation taper' := (taper cosine_taper).
Local Abbreviation condition_trace' :=
  (condition_trace bandpass cosine_taper fourier_resample).
Local Abbreviation prepared' :=
  (prepared bandpass cosine_taper fourier_resample).

(** X2: a record sampled more coarsely than the target interval has the
    decimation factor [int(sampling_rate * dt) = 0]: the slice [data[::0]]
    is refused, and that is the only way the decimation step fails.  The
    conditioning of such a record stops there with a [ValueError]. *)
Theorem coarse_record_is_refused (c : Config) (origin_time : Q) (t : Trace) :
  ((exists e, step_decimate c t = Fail e)
   <-> (-1 < sampling_rate t * dt c)%Q /\ (sampling_rate t * dt c < 1)%Q)
  /\ (forall a a',
        filter' c t = Done a ->
        taper' a = Done a' ->
        (-1 < sampling_rate t * dt c)%Q ->
        (sampling_rate t * dt c < 1)%Q ->
        condition_trace' c origin_time t
        = Fail (ValueError "slice step cannot be zero")).
Proof.
  split.
  - unfold step_decimate, decimate.
    destruct (Qtrunc (sampling_rate t * dt c) =? 0) eqn:E.
    + apply Z.eqb_eq, Qtrunc_zero in E. split; [intros _; exact E | eauto].
    + apply Z.eqb_neq in E. split.
      * intros [e He]. discriminate.
      * intros H. apply Qtrunc_zero in H. contradiction.
  - intros a a' Ha Ha' Hlo Hup.
    unfold condition_trace, cut_trace. rewrite Ha. simpl. rewrite Ha'. simpl.
    apply filter_keeps in Ha as (Sa & _). apply taper_keeps in Ha' as (Sa' & _).
    unfold step_decimate, decimate. rewrite Sa', Sa.
    assert (Qtrunc (sampling_rate t * dt c) = 0) as -> by (now apply Qtrunc_zero).
    reflexivity.
Qed.

(** X3: once a trace is filtered, tapered, decimated and resampled, the only
    way the rest of the conditioning fails is a window that ends before it
    starts: [time_before + time_after < 0] makes [trim] raise, and nothing
    else does. *)
Theorem negative_window_is_refused (c : Config) (origin_time : Q) (t t2 : Trace) :
  prepared' c t = Done t2 ->
  ((time_before c + time_after c < 0)%Q ->
   condition_trace' c origin_time t
   = Fail (ValueError "startime is larger than endtime"))
  /\ (forall e,
        condition_trace' c origin_time t = Fail e ->
        (time_before c + time_after c < 0)%Q
        /\ e = ValueError "startime is larger than endtime").
Proof.
  intros Hprep. rewrite condition_trace_unfold, Hprep. simpl.
  unfold trim.
  destruct (Qltb _ _) eqn:E.
  - apply Qltb_lt in E. split; [reflexivity |].
    intros e [= <-]. split; [lra | reflexivity].
  - apply Qltb_ge in E. split; [intros H; lra | discriminate].
Qed.

(** The window of a prepared trace that holds samples, for any window of
    at least half a sampling interval. *)
Lemma conditioned_pad (c : Config) (origin_time : Q) (t t2 : Trace) :
  prepared' c t = Done t2 ->
  data t2 <> [] ->
  (0 < dt c)%Q ->
  (dt c / 2 <= time_before c + time_after c)%Q ->
  let delta := window_offset c origin_time t2 in
  let m := Qfloor ((reference_time c origin_time t2 + time_after c - starttime t2)
                   / dt c + (1 # 2)) - delta + 1 in
  exists t',
    condition_trace' c origin_time t = Done t'
    /\ data t' = map (Qmult 100)
                   (cut_or_pad (Z.to_nat m) (left_trimmed delta (data t2)))
    /\ 1 <= m
    /\ delta = Qfloor ((reference_time c origin_time t2 - time_before c - starttime t2)
                       / dt c + (1 # 2))
    /\ (starttime t' == starttime t2 + inject_Z delta * dt c)%Q
    /\ b (sac t') = (inject_Z (-1) * (origin_time - starttime t'))%Q.
Proof.
  intros Hprep Hsome Hdt Hwin delta m.
  pose proof (prepared_keeps _ _ _ c t t2 Hprep) as (Nz & Hsr & _ & _).
  specialize (Hsr Hsome).
  assert (0 < sampling_rate (marked c origin_time t2))%Q as Hpos.
  { simpl. rewrite Hsr. apply Qlt_shift_div_l; lra. }
  rewrite condition_trace_unfold, Hprep. simpl.
  destruct (trim_pad (reference_time c origin_time t2 - time_before c)
                     (reference_time c origin_time t2 + time_after c)
                     (marked c origin_time t2) Hpos)
    as (t3 & Htrim & Hdata & Hm & _ & Hstart & _).
  { simpl. rewrite Hsr.
    assert ((reference_time c origin_time t2 + time_after c
             - (reference_time c origin_time t2 - time_before c)) * (1 / dt c)
            == (time_before c + time_after c) / dt c)%Q as -> by (field; lra).
    apply Qle_shift_div_l; [assumption |].
    assert ((1 # 2) * dt c == dt c / 2)%Q as -> by (field; lra). assumption. }
  assert (forall q : Q, (q * sampling_rate (marked c origin_time t2) + (1 # 2)
                         == q / dt c + (1 # 2))%Q) as Hrate.
  { intros q. simpl. rewrite Hsr. field. lra. }
  change (starttime (marked c origin_time t2)) with (starttime t2) in *.
  change (data (marked c origin_time t2)) with (data t2) in *.
  rewrite (Qfloor_comp _ _ (Hrate _)) in Hdata, Hm.
  assert (delta
          = Qfloor ((reference_time c origin_time t2 - time_before c - starttime t2)
                    / dt c + (1 # 2))) as Hdelta.
  { unfold delta, window_offset. rewrite (ltrim_delta_floor _ _ Hpos).
    change (starttime (marked c origin_time t2)) with (starttime t2).
    apply Qfloor_comp, Hrate. }
  change (ltrim_delta (reference_time c origin_time t2 - time_before c)
                      (marked c origin_time t2)) with delta in *.
  fold m in Hdata, Hm.
  rewrite Htrim.
  exists (finished origin_time t3). split; [reflexivity |].
  split.
  { change (data (finished origin_time t3)) with (map (Qmult 100) (data t3)).
    now rewrite Hdata. }
  split; [assumption |]. split; [assumption |]. split; [| reflexivity].
  change (starttime (finished origin_time t3)) with (starttime t3).
  rewrite Hstart. unfold delta_of.
  change (sampling_rate (marked c origin_time t2)) with (sampling_rate t2).
  rewrite Hsr. field. lra.
Qed.




End Windowing.

Section WindowingRuns.
Import Scenario Cases.

(** The very-long-period record is refused with the notebook's interval. *)
Lemma coarse_record_is_refused_witness :
  condition_trace still_bandpass still_taper still_resample
                  notebook_config 1000 very_long_period
  = Fail (ValueError "slice step cannot be zero").
Proof.
  apply (proj2 (coarse_record_is_refused still_bandpass still_taper still_resample
                  notebook_config 1000 very_long_period))
    with very_long_period very_long_period.
  - reflexivity.
  - reflexivity.
  - reflexivity.
  - reflexivity.
Defined.

(** A window that ends 40 s before it starts. *)
Lemma negative_window_is_refused_witness :
  condition_trace still_bandpass still_taper still_resample
                  (with_window 30 (-70) notebook_config) 1000 (observed "BHZ" 3)
  = Fail (ValueError "startime is larger than endtime").
Proof.
  apply (proj1 (negative_window_is_refused still_bandpass still_taper still_resample
                  (with_window 30 (-70) notebook_config) 1000 (observed "BHZ" 3)
                  (mkTrace "BK" "QRDG" "00" "BHZ" 1 990 [3; 3; 3]%Q
                           (mkSacHeader 81 None 0 None))
                  eq_refl)).
  reflexivity.
Defined.




End WindowingRuns.

(** ** File names and labels *)

Section Names.

Local Open Scope string_scope.

Lemma length_append (a b : string) :
  String.length (a +:+ b) = (String.length a + String.length b)%nat.
Proof.
  induction a as [| ch a IH]; [reflexivity |].
  rewrite append_cons. simpl. now rewrite IH.
Qed.

Lemma substring_prefix (a b : string) :
  substring 0 (String.length a) (a +:+ b) = a.
Proof.
  induction a as [| ch a IH].
  - destruct b; reflexivity.
  - rewrite append_cons. simpl. now rewrite IH.
Qed.

Lemma slice_to_neg_app (a b : string) :
  slice_to_neg (String.length b) (a +:+ b) = a.
Proof.
  unfold slice_to_neg. rewrite length_append.
  replace (String.length a + String.length b - String.length b)%nat
    with (String.length a) by lia.
  apply substring_prefix.
Qed.

Lemma last_char_app (a : string) (ch : ascii) (b : string) :
  last_char (a +:+ String ch b) = last_char (String ch b).
Proof.
  induction a as [| d a IH]; [reflexivity |].
  rewrite append_cons.
  change (last_char (String d (a +:+ String ch b)))
    with (match a +:+ String ch b with
          | EmptyString => Some d
          | String _ _ => last_char (a +:+ String ch b)
          end).
  destruct (a +:+ String ch b) eqn:E; [| exact IH].
  destruct a; discriminate.
Qed.

(** A trace identifier is the station label followed by the channel. *)
Lemma id_split (t : Trace) :
  id t
  = join "." [stats_network t; stats_station t; stats_location t]
    +:+ String "." (stats_channel t).
Proof.
  unfold id. simpl.
  now rewrite !append_assoc.
Qed.

Lemma spaces_length (n : nat) : String.length (spaces n) = n.
Proof. induction n as [| n IH]; simpl; congruence. Qed.

(** A key shorter than the field is padded to the width of the field. *)
Lemma ljust_length (width : nat) (s : string) :
  (String.length s <= width)%nat -> String.length (ljust width s) = width.
Proof.
  intros H. unfold ljust. rewrite length_append, spaces_length. lia.
Qed.

Lemma Qle_bool_inject_Z (z : Z) : Qle_bool 0 (inject_Z z) = (0 <=? z)%Z.
Proof.
  unfold Qle_bool, inject_Z. cbn [Qnum Qden]. f_equal; lia.
Qed.

(** ['%.4f' % depth] on a whole depth. *)
Lemma format_f_whole (z : Z) :
  format_f 4 (inject_Z z) = format_d z +:+ ".0000".
Proof.
  unfold format_f, format_d.
  change (10 ^ Z.of_nat 4)%Z with 10000%Z.
  assert (py_round (Qabs (inject_Z z) * inject_Z 10000) = (Z.abs z * 10000)%Z) as ->.
  { apply py_round_whole. now rewrite inject_Z_mult. }
  rewrite Z.mod_mul, Z.div_mul by lia.
  rewrite Qle_bool_inject_Z.
  change (zfill 4 (digits (Z.to_N 0))) with "0000".
  destruct (Z.leb_spec 0 z) as [Hz | Hz].
  - assert ((z <? 0)%Z = false) as -> by (apply Z.ltb_ge; lia).
    now rewrite Z.abs_eq by lia.
  - assert ((z <? 0)%Z = true) as -> by (apply Z.ltb_lt; lia).
    rewrite <- Zabs2N.abs_N_spec. now rewrite !append_cons, append_assoc.
Qed.

(** X7: the conditioned trace of a three-letter channel is saved under the
    station label and the last letter of the channel: the band and the
    instrument letter do not enter the name, so two channels of a station
    that end in the same letter share one file name. *)
Theorem data_file_name (c : Config) (t : Trace) (band inst comp : ascii) :
  stats_channel t = String band (String inst (String comp "")) ->
  dat_path c t
  = Done (evid c +:+ "/"
          +:+ join "." [stats_network t; stats_station t; stats_location t]
          +:+ "." +:+ of_char comp +:+ ".dat")
  /\ (forall t' band' inst',
        stats_network t' = stats_network t ->
        stats_station t' = stats_station t ->
        stats_location t' = stats_location t ->
        stats_channel t' = String band' (String inst' (String comp "")) ->
        dat_path c t' = dat_path c t).
Proof.
  assert (forall u b i,
             stats_channel u = String b (String i (String comp "")) ->
             dat_path c u
             = Done (evid c +:+ "/"
                     +:+ join "." [stats_network u; stats_station u; stats_location u]
                     +:+ "." +:+ of_char comp +:+ ".dat")) as Hname.
  { intros u b i Hcha. unfold dat_path. rewrite id_split, Hcha.
    rewrite last_char_app.
    change (last_char (String "." (String b (String i (String comp "")))))
      with (Some comp).
    change 4%nat
      with (String.length (String "." (String b (String i (String comp ""))))).
    now rewrite slice_to_neg_app. }
  intros Hcha. split; [now apply (Hname t band inst) |].
  intros t' band' inst' Hn Hs Hl Hcha'.
  rewrite (Hname t band inst Hcha), (Hname t' band' inst' Hcha').
  now rewrite Hn, Hs, Hl.
Qed.

(** X16: the depth of a job is a whole number, and it is written with four zero
    decimals wherever it names something: in the command line of the
    first modelling program and in the names of the Green's functions,
    which begin with the station label of the inversion's station table. *)
Theorem depth_label (c : Config) (gdir : string) (row : StationRow)
  (depth : Z) (grn : string) :
  hprep96 c depth
  = "hprep96 -M " +:+ model c +:+ ".d -d " +:+ evid c +:+ "/dfile -HS "
    +:+ format_d depth +:+ ".0000 -HR 0 -EQEX"
  /\ green_path gdir row depth grn
     = gdir +:+ "/" +:+ m_station (manifest_row c row) +:+ "."
       +:+ format_d depth +:+ ".0000." +:+ grn.
Proof.
  unfold hprep96, green_path, dfile_out, event_dir.
  rewrite format_f_whole. simpl m_station. unfold join.
  split; now rewrite !append_assoc.
Qed.

End Names.

Section DepthRounding.

(** X17: the catalog depth enters the depth list rounded to the nearest whole
    kilometre: never more than half a kilometre off, unchanged when it is
    whole, and to the even neighbour when it lies halfway. *)
Theorem catalog_depth_rounding (catalog_depth : Q) :
  depth_list catalog_depth = sorted [10; 20; py_round catalog_depth]
  /\ (Qabs (catalog_depth - inject_Z (py_round catalog_depth)) <= 1 # 2)%Q
  /\ ((Qabs (catalog_depth - inject_Z (py_round catalog_depth)) == 1 # 2)%Q ->
      Z.even (py_round catalog_depth) = true)
  /\ (forall n : Z, (catalog_depth == inject_Z n)%Q -> py_round catalog_depth = n).
Proof.
  split; [reflexivity |].
  set (q := catalog_depth).
  pose proof (Qfloor_le q) as Hlo. pose proof (Qlt_floor q) as Hup.
  rewrite inject_Z_plus in Hup. change (inject_Z 1) with 1%Q in Hup.
  unfold py_round.
  destruct (q - inject_Z (Qfloor q) ?= 1 # 2)%Q eqn:E.
  - apply Qeq_alt in E. split; [| split].
    + apply Qabs_Qle_condition.
      destruct (Z.even (Qfloor q)); rewrite ?inject_Z_plus;
        change (inject_Z 1) with 1%Q; split; lra.
    + intros _. destruct (Z.even (Qfloor q)) eqn:Ev; [exact Ev |].
      rewrite Z.even_add, Ev. reflexivity.
    + intros n Hn. exfalso.
      rewrite (Qfloor_comp _ _ Hn), Qfloor_Z in E. lra.
  - apply Qlt_alt in E. split; [| split].
    + apply Qabs_Qle_condition. split; lra.
    + intros Habs. exfalso.
      rewrite Qabs_pos in Habs by lra. lra.
    + intros n Hn. now rewrite (Qfloor_comp _ _ Hn), Qfloor_Z.
  - apply Qgt_alt in E. split; [| split].
    + apply Qabs_Qle_condition. rewrite inject_Z_plus.
      change (inject_Z 1) with 1%Q. split; lra.
    + intros Habs. exfalso.
      rewrite Qabs_neg in Habs
        by (rewrite inject_Z_plus; change (inject_Z 1) with 1%Q; lra).
      rewrite inject_Z_plus in Habs. change (inject_Z 1) with 1%Q in Habs. lra.
    + intros n Hn. exfalso.
      rewrite (Qfloor_comp _ _ Hn), Qfloor_Z in E. lra.
Qed.

End DepthRounding.

Section NamesRuns.
Import Scenario Cases.

(** The vertical components of the broadband and of the very-long-period
    channel of one station go to one file. *)
Lemma data_file_name_witness :
  dat_path notebook_config (observed "BHZ" 3)
  = Done "40191336/BK.QRDG.00.Z.dat"%string
  /\ dat_path notebook_config very_long_period
     = dat_path notebook_config (observed "BHZ" 3).
Proof.
  destruct (data_file_name notebook_config (observed "BHZ" 3) "B" "H" "Z" eq_refl)
    as (Hname & Hsame).
  split; [exact Hname |].
  now apply (Hsame very_long_period "V"%char "H"%char).
Defined.

(** A catalog depth of 10.5 km lies halfway and goes to the even
    neighbour, 10 km. *)
Lemma catalog_depth_rounding_witness :
  py_round (21 # 2) = 10 /\ Z.even (py_round (21 # 2)) = true.
Proof.
  split; [reflexivity |].
  apply (proj1 (proj2 (proj2 (catalog_depth_rounding (21 # 2))))).
  reflexivity.
Defined.


End NamesRuns.

(** ** What a cell leaves alone *)

Lemma keeps_bind {A B X} (view : State -> X) (m : M A) (f : A -> M B) :
  keeps view m -> (forall a, keeps view (f a)) -> keeps view (m ≫= f).
Proof.
  intros Hm Hf s. rewrite bind_run. specialize (Hm s).
  destruct (m s) as [a s1 | e s1]; simpl in Hm.
  - rewrite <- Hm. apply Hf.
  - exact Hm.
Qed.

Lemma keeps_for_each {A X} (view : State -> X) (xs : list A) (body : A -> M unit) :
  (forall x, keeps view (body x)) -> keeps view (for_each xs body).
Proof.
  intros Hbody. induction xs as [| x xs IH].
  - intros s. reflexivity.
  - simpl. apply keeps_bind; [apply Hbody | intros _; exact IH].
Qed.

Lemma keeps_ret {A X} (view : State -> X) (a : A) : keeps view (mret a).
Proof. intros s. reflexivity. Qed.

Lemma keeps_raise {A X} (view : State -> X) (e : exn) : keeps view (raise (A := A) e).
Proof. intros s. reflexivity. Qed.

Lemma keeps_lift {A X} (view : State -> X) (x : Except A) : keeps view (lift x).
Proof. destruct x; intros s; reflexivity. Qed.

Lemma keeps_get_env {X} (view : State -> X) : keeps view get_env.
Proof. intros s. reflexivity. Qed.

Lemma keeps_get_world {X} (view : State -> X) : keeps view get_world.
Proof. intros s. reflexivity. Qed.

Lemma keeps_lookup_name {A X} (view : State -> X) (name : string)
  (field : Env -> option A) :
  keeps view (lookup_name name field).
Proof.
  intros s. unfold lookup_name. rewrite bind_run. simpl.
  destruct (field (env s)); reflexivity.
Qed.

Lemma keeps_first_row {X} (view : State -> X) (rows : list EventRow) :
  keeps view (first_row rows).
Proof. destruct rows; intros s; reflexivity. Qed.

Create HintDb keeps.

#[local] Hint Resolve keeps_ret keeps_raise keeps_lift keeps_get_env
  keeps_get_world keeps_lookup_name keeps_first_row : keeps.

(** A step that is given by what it does to the state is checked on the
    state; compound steps are taken apart. *)
Ltac keeps_step :=
  let s := fresh "s" in
  intros s; cbv [final]; simpl; reflexivity.

Ltac keeps :=
  repeat first
    [ progress intros
    | solve [auto with keeps]
    | solve [keeps_step]
    | apply keeps_bind
    | apply keeps_for_each
    | match goal with
      | |- keeps _ (match ?x with _ => _ end) => destruct x
      end ].

Lemma keeps_os_system_env {X} (view : Env -> X)
  (sys : string -> World -> Z * World) (cmd : string) :
  keeps (fun s => view (env s)) (os_system sys cmd).
Proof.
  intros s. unfold os_system. destruct (sys cmd (world s)). reflexivity.
Qed.

Lemma keeps_os_system_stdout (sys : string -> World -> Z * World) (cmd : string) :
  keeps stdout (os_system sys cmd).
Proof.
  intros s. unfold os_system. destruct (sys cmd (world s)). reflexivity.
Qed.

Section Untouched.

Variable bandpass : Q -> Q -> Z -> Q -> list Q -> Except (list Q).
Variable cosine_taper : Q -> list Q -> Except (list Q).
Variable fourier_resample : Q -> Q -> list Q -> Except (list Q).
Variable system : string -> World -> Z * World.
Variable UTCDateTime : string -> Except Q.
Variable str_float : Q -> string.
Variable to_string : list ManifestRow -> string.

Lemma load_cell_keeps_world (c : Config) : keeps world (load_cell UTCDateTime c).
Proof. unfold load_cell, read_event_csv, read_station_csv, read_components. keeps. Qed.

Lemma load_cell_keeps_shell (c : Config) : keeps shell (load_cell UTCDateTime c).
Proof. unfold load_cell, read_event_csv, read_station_csv, read_components. keeps. Qed.

Lemma manifest_cell_keeps_world (c : Config) :
  keeps world (manifest_cell str_float to_string c).
Proof. unfold manifest_cell. keeps. Qed.

Lemma manifest_cell_keeps_shell (c : Config) :
  keeps shell (manifest_cell str_float to_string c).
Proof. unfold manifest_cell. keeps. Qed.

Lemma manifest_cell_keeps_observations (c : Config) :
  keeps observations (manifest_cell str_float to_string c).
Proof. unfold manifest_cell. keeps. Qed.

Lemma condition_cell_keeps_shell (c : Config) :
  keeps shell (condition_cell bandpass cosine_taper fourier_resample c).
Proof.
  unfold condition_cell, stream_apply, condition_body, mutate_tr, mutate_at,
    read_tr, trace_at, obspy_write, write_file.
  keeps.
Qed.

Lemma condition_cell_keeps_stdout (c : Config) :
  keeps stdout (condition_cell bandpass cosine_taper fourier_resample c).
Proof.
  unfold condition_cell, stream_apply, condition_body, mutate_tr, mutate_at,
    read_tr, trace_at, obspy_write, write_file.
  keeps.
Qed.

Lemma condition_cell_keeps_tables (c : Config) :
  keeps (fun s => (df (env s), station_df (env s), origin_time (env s),
                   dirs (world s)))
        (condition_cell bandpass cosine_taper fourier_resample c).
Proof.
  unfold condition_cell, stream_apply, condition_body, mutate_tr, mutate_at,
    read_tr, trace_at, obspy_write, write_file.
  keeps.
Qed.

End Untouched.

#[local] Hint Resolve keeps_os_system_stdout : keeps.

Lemma keeps_os_system_observations (sys : string -> World -> Z * World) (cmd : string) :
  keeps observations (os_system sys cmd).
Proof. apply (keeps_os_system_env (fun e => (df e, station_df e, origin_time e, st e, tr e))). Qed.

Lemma keeps_os_system_manifest_names (sys : string -> World -> Z * World) (cmd : string) :
  keeps manifest_names (os_system sys cmd).
Proof. apply (keeps_os_system_env (fun e => (headers e, df_out e))). Qed.

#[local] Hint Resolve keeps_os_system_observations keeps_os_system_manifest_names : keeps.

Section GreenCellKeeps.

Variable bandpass : Q -> Q -> Z -> Q -> list Q -> Except (list Q).
Variable system : string -> World -> Z * World.

Lemma green_cell_keeps_observations (c : Config) :
  keeps observations (green_cell bandpass system c).
Proof.
  unfold green_cell, depth_job, write_dfile, run_engine, filter_and_save,
    mkdir_p, open_w, f_write, read_tr, trace_at, obspy_read, obspy_write, write_file.
  keeps.
Qed.

Lemma green_cell_keeps_stdout (c : Config) :
  keeps stdout (green_cell bandpass system c).
Proof.
  unfold green_cell, depth_job, write_dfile, run_engine, filter_and_save,
    mkdir_p, open_w, f_write, read_tr, trace_at, obspy_read, obspy_write, write_file.
  keeps.
Qed.

Lemma green_cell_keeps_manifest_names (c : Config) :
  keeps manifest_names (green_cell bandpass system c).
Proof.
  unfold green_cell, depth_job, write_dfile, run_engine, filter_and_save,
    mkdir_p, open_w, f_write, read_tr, trace_at, obspy_read, obspy_write, write_file.
  keeps.
Qed.

End GreenCellKeeps.

Lemma keeps_final {A X} (view : State -> X) (m : M A) (s s' : State) (a : A) :
  keeps view m -> m s = Ok a s' -> view s' = view s.
Proof. intros H Hrun. specialize (H s). now rewrite Hrun in H. Qed.

Lemma keeps_shell_quiet {A} (m : M A) : keeps shell m -> appends m [].
Proof.
  intros H s a s' Hrun. rewrite (keeps_final shell m s s' a H Hrun).
  now rewrite app_nil_r.
Qed.

Lemma depth_list_length (catalog_depth : Q) : length (depth_list catalog_depth) = 3%nat.
Proof.
  unfold depth_list. now rewrite (Permutation_length (sorted_perm _)).
Qed.

Lemma engine_commands_length (c : Config) (ds : list Z) :
  length (concat (map (engine_commands c) ds)) = (4 * length ds)%nat.
Proof.
  induction ds as [| d ds IH]; [reflexivity |].
  simpl. rewrite IH. lia.
Qed.

Section CellsAtLarge.

Variable bandpass : Q -> Q -> Z -> Q -> list Q -> Except (list Q).
Variable cosine_taper : Q -> list Q -> Except (list Q).
Variable fourier_resample : Q -> Q -> list Q -> Except (list Q).
Variable system : string -> World -> Z * World.
Variable UTCDateTime : string -> Except Q.
Variable str_float : Q -> string.
Variable to_string : list ManifestRow -> string.

Local Abbreviation load_cell' := (load_cell UTCDateTime).
Local Abbreviation condition_cell' :=
  (condition_cell bandpass cosine_taper fourier_resample).
Local Abbreviation green_cell' := (green_cell bandpass system).
Local Abbreviation manifest_cell' := (manifest_cell str_float to_string).
Local Abbreviation write_manifest_cell' := (write_manifest_cell system to_string).
Local Abbreviation run_all' :=
  (run_all bandpass cosine_taper fourier_resample system UTCDateTime
           str_float to_string).

(** X12: the cell that reads the event and the cell that builds the headers
    and the station table write no file, make no directory and run no
    command, whether they come to their end or stop on an exception; the
    header cell also leaves the tables and the stream as they are. *)
Theorem reading_cells_write_nothing (c : Config) (s : State) :
  world (final (load_cell' c s)) = world s
  /\ shell (final (load_cell' c s)) = shell s
  /\ world (final (manifest_cell' c s)) = world s
  /\ shell (final (manifest_cell' c s)) = shell s
  /\ observations (final (manifest_cell' c s)) = observations s.
Proof.
  repeat split.
  - apply load_cell_keeps_world.
  - apply load_cell_keeps_shell.
  - apply manifest_cell_keeps_world.
  - apply manifest_cell_keeps_shell.
  - apply manifest_cell_keeps_observations.
Qed.

(** X13: the conditioning cell runs no command and prints nothing; it leaves
    the two tables, the origin time and the directories as they are,
    whether it comes to its end or stops on an exception. *)
Theorem conditioning_cell_is_silent (c : Config) (s : State) :
  shell (final (condition_cell' c s)) = shell s
  /\ stdout (final (condition_cell' c s)) = stdout s
  /\ df (env (final (condition_cell' c s))) = df (env s)
  /\ station_df (env (final (condition_cell' c s))) = station_df (env s)
  /\ origin_time (env (final (condition_cell' c s))) = origin_time (env s)
  /\ dirs (world (final (condition_cell' c s))) = dirs (world s).
Proof.
  pose proof (condition_cell_keeps_tables bandpass cosine_taper fourier_resample c s)
    as H.
  injection H as H1 H2 H3 H4.
  repeat split; try assumption.
  - apply condition_cell_keeps_shell.
  - apply condition_cell_keeps_stdout.
Qed.

Lemma green_cell_binds (c : Config) (s s' : State) :
  green_cell' c s = Ok tt s' ->
  exists row0 rest,
    df (env s) = Some (row0 :: rest)
    /\ depths (env s') = Some (depth_list (depth row0))
    /\ green_dir (env s') = Some (evid c +:+ "/" +:+ model c).
Proof.
  unfold green_cell. intros Hrun.
  apply bind_ok_inv in Hrun as (d & s1 & Hdf & Hrun).
  apply lookup_name_inv in Hdf as (-> & Hdf).
  apply bind_ok_inv in Hrun as (row0 & s1 & Hrow & Hrun).
  apply first_row_inv in Hrow as (-> & rest & ->).
  exists row0, rest. split; [exact Hdf |].
  apply bind_ok_inv in Hrun as ([] & s1 & Hset1 & Hrun).
  apply bind_ok_inv in Hrun as ([] & s2 & Hset2 & Hrun).
  injection Hset1 as <-. injection Hset2 as <-.
  assert (keeps (fun s => (depths (env s), green_dir (env s)))
                (mkdir_p (event_dir c +:+ "/" +:+ model c);;
                 for_each (depth_list (depth row0))
                   (depth_job bandpass system c (event_dir c +:+ "/" +:+ model c));;
                 os_system system "rm B*.sac";; mret tt)) as Hkeeps.
  { unfold depth_job, write_dfile, run_engine, filter_and_save,
      mkdir_p, open_w, f_write, read_tr, trace_at, obspy_read, obspy_write, write_file.
    pose proof (fun cmd =>
                  keeps_os_system_env (fun e => (depths e, green_dir e)) system cmd).
    keeps. }
  pose proof (keeps_final _ _ _ _ _ Hkeeps Hrun) as Hview.
  injection Hview as -> ->. split; reflexivity.
Qed.

(** X14: the Green's-function cell leaves the observations as the first two
    cells made them: the tables, the origin time, the stream and [tr] are
    the same afterwards, nothing is printed and the names of the last
    cells are not touched, whether the cell comes to its end or stops on an
    exception.  When it comes to its end, [depths] holds the depth list
    and [green_dir] the directory of the event and the model. *)
Theorem green_cell_keeps_the_observations (c : Config) (s : State) :
  observations (final (green_cell' c s)) = observations s
  /\ stdout (final (green_cell' c s)) = stdout s
  /\ manifest_names (final (green_cell' c s)) = manifest_names s
  /\ (forall s',
        green_cell' c s = Ok tt s' ->
        exists row0 rest,
          df (env s) = Some (row0 :: rest)
          /\ depths (env s') = Some (depth_list (depth row0))
          /\ green_dir (env s') = Some (evid c +:+ "/" +:+ model c)).
Proof.
  repeat split.
  - apply green_cell_keeps_observations.
  - apply green_cell_keeps_stdout.
  - apply green_cell_keeps_manifest_names.
  - apply green_cell_binds.
Qed.

Lemma write_manifest_cell_keeps_env :
  keeps env write_manifest_cell'.
Proof.
  unfold write_manifest_cell, open_w, f_write, write_file.
  pose proof (fun cmd => keeps_os_system_env (fun e => e) system cmd).
  keeps.
Qed.

Lemma appends_write_manifest_cell :
  appends write_manifest_cell' ["cat mtinv.in"%string].
Proof.
  unfold write_manifest_cell.
  apply quiet_bind; [unfold open_w; auto with quiet |]. intros _.
  apply quiet_bind; [auto with quiet |]. intros hs.
  apply quiet_bind; [apply quiet_for_each; intros kv; auto with quiet |]. intros _.
  apply quiet_bind; [auto with quiet |]. intros rows.
  apply quiet_bind; [auto with quiet |]. intros _.
  change ["cat mtinv.in"%string] with (["cat mtinv.in"%string] ++ []).
  apply appends_bind; [apply appends_os_system | intros _; apply appends_ret].
Qed.

(** X20: a run of the whole notebook that comes to its end has handed fourteen
    commands to the shell: the four modelling programs for each of the
    three depths of the list, in the order of the list, then the removal
    of the raw synthetics and the listing of the input file. *)
Theorem full_run_commands (c : Config) (s s' : State) :
  run_all' c s = Ok tt s' ->
  exists row0 rest,
    df (env s') = Some (row0 :: rest)
    /\ shell s'
       = shell s
         ++ concat (map (engine_commands c) (depth_list (depth row0)))
         ++ ["rm B*.sac"; "cat mtinv.in"]%string
    /\ length (shell s') = (length (shell s) + 14)%nat.
Proof.
  unfold run_all. intros Hrun.
  apply bind_ok_inv in Hrun as ([] & s1 & Hload & Hrun).
  apply bind_ok_inv in Hrun as ([] & s2 & Hcond & Hrun).
  apply bind_ok_inv in Hrun as ([] & s3 & Hgreen & Hrun).
  apply bind_ok_inv in Hrun as ([] & s4 & Hman & Hwrite).
  pose proof (keeps_final _ _ _ _ _ (load_cell_keeps_shell UTCDateTime c) Hload) as E1.
  pose proof (keeps_final _ _ _ _ _
                (condition_cell_keeps_shell bandpass cosine_taper fourier_resample c)
                Hcond) as E2.
  destruct (green_cell_commands _ _ _ _ _ Hgreen) as (row0 & rest & Hdf & E3).
  pose proof (keeps_final _ _ _ _ _ (green_cell_keeps_observations bandpass system c)
                Hgreen) as O3.
  pose proof (keeps_final _ _ _ _ _ (manifest_cell_keeps_shell str_float to_string c)
                Hman) as E4.
  pose proof (keeps_final _ _ _ _ _
                (manifest_cell_keeps_observations str_float to_string c) Hman) as O4.
  pose proof (keeps_final _ _ _ _ _ write_manifest_cell_keeps_env Hwrite) as O5.
  pose proof (appends_write_manifest_cell _ _ _ Hwrite) as E5.
  exists row0, rest.
  assert (df (env s') = Some (row0 :: rest)) as Hdf'.
  { rewrite O5. injection O4 as -> _ _ _ _. injection O3 as -> _ _ _ _. exact Hdf. }
  split; [exact Hdf' |].
  assert (shell s'
          = shell s
            ++ concat (map (engine_commands c) (depth_list (depth row0)))
            ++ ["rm B*.sac"; "cat mtinv.in"]%string) as Hshell.
  { rewrite E5, E4, E3, E2, E1. now rewrite <- !app_assoc. }
  split; [exact Hshell |].
  rewrite Hshell, !length_app, engine_commands_length, depth_list_length.
  simpl. lia.
Qed.

End CellsAtLarge.

(** ** Reading the event and the waveforms *)

Lemma for_each_app {A} (xs ys : list A) (body : A -> M unit) (s : State) :
  for_each (xs ++ ys) body s
  = match for_each xs body s with
    | Ok _ s' => for_each ys body s'
    | Raise e s' => Raise e s'
    end.
Proof.
  revert s. induction xs as [| x xs IH]; intros s; [reflexivity |].
  simpl app. rewrite !for_each_cons.
  destruct (body x s) as [[] s1 | e s1]; [apply IH | reflexivity].
Qed.

Lemma read_event_csv_run (path : string) (s : State) (rows : list EventRow) :
  files (world s) !! path = Some (EventCsv rows) ->
  read_event_csv path s = Ok rows s.
Proof.
  intros H. unfold read_event_csv. rewrite bind_run.
  change (get_world s) with (Ok (world s) s). cbv beta iota. now rewrite H.
Qed.

Lemma read_station_csv_run (path : string) (s : State) (rows : list StationRow) :
  files (world s) !! path = Some (StationCsv rows) ->
  read_station_csv path s = Ok rows s.
Proof.
  intros H. unfold read_station_csv. rewrite bind_run.
  change (get_world s) with (Ok (world s) s). cbv beta iota. now rewrite H.
Qed.

Lemma read_components_run (c : Config) (row : StationRow) (s : State)
  (ts : list Trace) :
  glob_traces (world s) (pattern_base c row) (char_class (component row)) = Done ts ->
  read_components c row s
  = match ts with
    | [] => Raise (Exception "No file matching file pattern") s
    | _ => Ok ts s
    end.
Proof.
  intros H. unfold read_components. rewrite bind_run.
  change (get_world s) with (Ok (world s) s). cbv beta iota.
  fold (pattern_base c row). rewrite bind_run, H, lift_done_run. cbv beta iota.
  destruct ts; reflexivity.
Qed.

(** The loop over the station table appends the traces of each station to
    the stream. *)
Lemma read_loop (c : Config) (w : World) (rows : list StationRow)
  (tss : list (list Trace)) :
  Forall2 (fun row ts =>
             glob_traces w (pattern_base c row) (char_class (component row)) = Done ts
             /\ ts <> []) rows tss ->
  forall (s : State) (acc : list Trace),
    world s = w ->
    st (env s) = Some acc ->
    for_each rows
      (fun row =>
         ts ← read_components c row;
         old ← lookup_name "st" st;
         set_st (old ++ ts)) s
    = Ok tt (with_st (acc ++ concat tss) s).
Proof.
  induction 1 as [| row ts rows tss [Hglob Hsome] _ IH]; intros s acc Hw Hst.
  - simpl. rewrite app_nil_r. now rewrite with_st_id.
  - rewrite for_each_cons, bind_run.
    rewrite (read_components_run c row s ts) by (now rewrite Hw).
    destruct ts as [| t ts]; [congruence |]. cbv beta iota.
    rewrite bind_run, (lookup_name_some _ _ _ acc) by exact Hst. cbv beta iota.
    change (set_st (acc ++ t :: ts) s) with (Ok tt (with_st (acc ++ t :: ts) s)).
    cbv beta iota.
    rewrite (IH (with_st (acc ++ t :: ts) s) (acc ++ t :: ts)); [| exact Hw | reflexivity].
    simpl concat. now rewrite <- app_assoc.
Qed.

Section Reading.

Variable UTCDateTime : string -> Except Q.

Local Abbreviation load_cell' := (load_cell UTCDateTime).

(** The cell up to the loop over the stations. *)
Lemma load_cell_tables (c : Config) (s : State) (row0 : EventRow)
  (rest : list EventRow) (rows : list StationRow) (t0 : Q) :
  path_exists (world s) (sacdir c) = true ->
  files (world s) !! infile c = Some (EventCsv (row0 :: rest)) ->
  files (world s) !! station_file c = Some (StationCsv rows) ->
  UTCDateTime (origin row0) = Done t0 ->
  load_cell' c s
  = for_each rows
      (fun row =>
         ts ← read_components c row;
         old ← lookup_name "st" st;
         set_st (old ++ ts))
      (loaded (row0 :: rest) rows t0 [] s).
Proof.
  intros Hdir Hev Hst Htime.
  unfold load_cell. rewrite bind_run.
  change (get_world s) with (Ok (world s) s). cbv beta iota. rewrite Hdir.
  rewrite bind_run, (read_event_csv_run _ _ _ Hev). cbv beta iota.
  rewrite bind_run.
  set (s1 := final (set_df (row0 :: rest) s)).
  change (set_df (row0 :: rest) s) with (Ok tt s1). cbv beta iota.
  rewrite bind_run, (read_station_csv_run _ s1 rows Hst). cbv beta iota.
  rewrite bind_run.
  set (s2 := final (set_station_df rows s1)).
  change (set_station_df rows s1) with (Ok tt s2). cbv beta iota.
  rewrite bind_run.
  change (first_row (row0 :: rest) s2) with (Ok row0 s2). cbv beta iota.
  rewrite bind_run, Htime, lift_done_run. cbv beta iota.
  rewrite bind_run.
  set (s3 := final (set_origin_time t0 s2)).
  change (set_origin_time t0 s2) with (Ok tt s3). cbv beta iota.
  rewrite bind_run.
  change (set_st [] s3) with (Ok tt (loaded (row0 :: rest) rows t0 [] s)).
  reflexivity.
Qed.

(** X10: when the directory of processed data, the two tables and at least one
    waveform file for every station are there, the first cell binds the
    two tables and the origin time, and the stream holds the traces of
    the stations in the order of the station table; nothing else changes. *)
Theorem waveforms_are_read_in_table_order (c : Config) (s : State)
  (row0 : EventRow) (rest : list EventRow) (rows : list StationRow) (t0 : Q)
  (tss : list (list Trace)) :
  path_exists (world s) (sacdir c) = true ->
  files (world s) !! infile c = Some (EventCsv (row0 :: rest)) ->
  files (world s) !! station_file c = Some (StationCsv rows) ->
  UTCDateTime (origin row0) = Done t0 ->
  Forall2 (fun row ts =>
             glob_traces (world s) (pattern_base c row) (char_class (component row))
             = Done ts
             /\ ts <> []) rows tss ->
  load_cell' c s = Ok tt (loaded (row0 :: rest) rows t0 (concat tss) s)
  /\ (length rows <= length (concat tss))%nat.
Proof.
  intros Hdir Hev Hst Htime Hall. split.
  - rewrite (load_cell_tables c s row0 rest rows t0 Hdir Hev Hst Htime).
    rewrite (read_loop c (world s) rows tss Hall _ []); reflexivity.
  - clear -Hall. induction Hall as [| row ts rows tss [_ Hsome] _ IH]; [simpl; lia |].
    simpl. rewrite length_app. destruct ts; [congruence | simpl; lia].
Qed.


End Reading.

Section ReadingRuns.
Import Scenario Cases.

(** The small event: the two components of the one station, the radial
    one first. *)
Lemma waveforms_are_read_in_table_order_witness :
  load_cell clock notebook_config (fresh disk)
  = Ok tt (loaded [event] [qrdg] 1000 [observed "BHR" 4; observed "BHZ" 3]
                  (fresh disk)).
Proof.
  destruct (waveforms_are_read_in_table_order clock notebook_config (fresh disk)
              event [] [qrdg] 1000 [[observed "BHR" 4; observed "BHZ" 3]])
    as [Hrun _].
  - reflexivity.
  - reflexivity.
  - reflexivity.
  - reflexivity.
  - constructor; [| constructor]. split; [reflexivity | discriminate].
  - exact Hrun.
Defined.


End ReadingRuns.

(** ** The conditioning cell: what is saved, and under which names *)

Section ConditionedFiles.

Variable bandpass : Q -> Q -> Z -> Q -> list Q -> Except (list Q).
Variable cosine_taper : Q -> list Q -> Except (list Q).
Variable fourier_resample : Q -> Q -> list Q -> Except (list Q).

Local Abbreviation cut_trace' := (cut_trace fourier_resample).
Local Abbreviation condition_trace' :=
  (condition_trace bandpass cosine_taper fourier_resample).
Local Abbreviation condition_cell' :=
  (condition_cell bandpass cosine_taper fourier_resample).

Lemma ltrim_id (start : Q) (t : Trace) : id (ltrim start t) = id t.
Proof.
  unfold ltrim.
  destruct (_ =? 0); [reflexivity |].
  destruct (_ <? 0); [reflexivity |].
  destruct (Qltb _ _); reflexivity.
Qed.

Lemma rtrim_id (stop : Q) (t : Trace) : id (rtrim stop t) = id t.
Proof.
  unfold rtrim.
  destruct (_ =? 0); [reflexivity |].
  destruct (0 <? _); [reflexivity |].
  destruct (Qltb _ _); reflexivity.
Qed.

Lemma trim_id (start stop : Q) (t t' : Trace) :
  trim start stop t = Done t' -> id t' = id t.
Proof.
  unfold trim. destruct (Qltb _ _); [discriminate |].
  intros [= <-]. now rewrite rtrim_id, ltrim_id.
Qed.

Lemma step_decimate_id (c : Config) (t t' : Trace) :
  step_decimate c t = Done t' -> id t' = id t.
Proof.
  unfold step_decimate, decimate. destruct (_ =? 0); [discriminate |].
  now intros [= <-].
Qed.

Lemma step_resample_id (c : Config) (t t' : Trace) :
  step_resample fourier_resample c t = Done t' -> id t' = id t.
Proof.
  unfold step_resample, resample.
  destruct (Qeq_bool (dt c) 0); [discriminate |].
  destruct (data t); [now intros [= <-] |].
  destruct (Qeq_bool _ 0); [discriminate |].
  destruct (fourier_resample _ _ _); simpl; [| discriminate].
  now intros [= <-].
Qed.

Lemma step_trim_id (c : Config) (t t' : Trace) :
  step_trim c t = Done t' -> id t' = id t.
Proof.
  unfold step_trim. destruct (t1 (sac t)); [apply trim_id | discriminate].
Qed.

(** No step of the conditioning changes the identifier of a trace. *)
Lemma cut_trace_id (c : Config) (origin : Q) (t t' : Trace) :
  cut_trace' c origin t = Done t' -> id t' = id t.
Proof.
  unfold cut_trace. intros Hcut.
  destruct (step_decimate c t) as [a1 |] eqn:E1; [| discriminate]. simpl in Hcut.
  destruct (step_resample fourier_resample c a1) as [a2 |] eqn:E2;
    [| discriminate]. simpl in Hcut.
  destruct (step_trim c _) as [a4 |] eqn:E4; [| discriminate]. simpl in Hcut.
  injection Hcut as <-.
  apply step_decimate_id in E1. apply step_resample_id in E2.
  apply step_trim_id in E4.
  change (id a4 = id t). rewrite E4. change (id a2 = id t). congruence.
Qed.

Lemma condition_trace_id (c : Config) (origin : Q) (t t' : Trace) :
  condition_trace' c origin t = Done t' -> id t' = id t.
Proof.
  unfold condition_trace.
  destruct (filter bandpass c t) as [a |] eqn:Ea; [| discriminate]. simpl.
  destruct (taper cosine_taper a) as [a' |] eqn:Eb; [| discriminate]. simpl.
  intros Hcut. apply cut_trace_id in Hcut. rewrite Hcut.
  transitivity (id a).
  - unfold taper in Eb. destruct (data a).
    + now injection Eb as <-.
    + destruct (cosine_taper _ _); [| discriminate]. now injection Eb as <-.
  - unfold filter in Ea. destruct (bandpass _ _ _ _ _); [| discriminate].
    now injection Ea as <-.
Qed.

Lemma last_char_cons (ch : ascii) (s : string) : last_char (String ch s) <> None.
Proof.
  revert ch. induction s as [| d s IH]; intros ch; [discriminate |].
  change (last_char (String ch (String d s))) with (last_char (String d s)).
  apply IH.
Qed.

(** Every trace has a file name: its identifier is never empty. *)
Lemma dat_path_total (c : Config) (t : Trace) : exists path, dat_path c t = Done path.
Proof.
  unfold dat_path. rewrite id_split, last_char_app.
  destruct (last_char (String "." (stats_channel t))) eqn:E; [eauto |].
  now apply last_char_cons in E.
Qed.

Lemma dat_paths_exist (c : Config) (l : list Trace) :
  exists paths, Forall2 (fun t path => dat_path c t = Done path) l paths.
Proof.
  induction l as [| t l (paths & IH)]; [exists []; constructor |].
  destruct (dat_path_total c t) as (path & Hpath).
  exists (path :: paths). now constructor.
Qed.

Lemma dat_path_id (c : Config) (t t' : Trace) :
  id t' = id t -> dat_path c t' = dat_path c t.
Proof. unfold dat_path. now intros ->. Qed.

(** Of the writes to one path, the last one is what the file holds. *)
Lemma saved_last (writes : list (string * Trace)) (fs : gmap string File)
  (i : nat) (path : string) (t : Trace) :
  writes !! i = Some (path, t) ->
  (forall j w, (i < j)%nat -> writes !! j = Some w -> w.1 <> path) ->
  saved writes fs !! path = Some (SacFile t).
Proof.
  intros Hi Hlater.
  rewrite <- (take_drop_middle writes i (path, t) Hi), saved_app. simpl.
  rewrite saved_elsewhere; [now rewrite lookup_insert_eq |].
  apply Forall_lookup. intros k w Hk. rewrite lookup_drop in Hk.
  apply (Hlater (S i + k)%nat w); [lia | exact Hk].
Qed.


End ConditionedFiles.

(** ** The conditioning cell: a trace that fails *)

Section ConditioningStops.

Variable bandpass : Q -> Q -> Z -> Q -> list Q -> Except (list Q).
Variable cosine_taper : Q -> list Q -> Except (list Q).
Variable fourier_resample : Q -> Q -> list Q -> Except (list Q).

Local Abbreviation cut_trace' := (cut_trace fourier_resample).
Local Abbreviation cut_steps' := (cut_steps fourier_resample).
Local Abbreviation condition_cell' :=
  (condition_cell bandpass cosine_taper fourier_resample).

Lemma mutate_tr_fail {B} (i : nat) (f : Trace -> Except Trace) (s : State)
  (l : list Trace) (t : Trace) (e : exn) (k : M B) :
  tr (env s) = Some i -> (i < length l)%nat -> f t = Fail e ->
  (mutate_tr f;; k) (with_st (<[i := t]> l) s)
  = Raise e (with_st (<[i := t]> l) s).
Proof.
  intros Htr Hi Hf. rewrite bind_run. unfold mutate_tr, mutate_at, trace_at.
  rewrite bind_run, (lookup_name_some _ _ _ i) by exact Htr. cbv beta iota.
  rewrite !bind_run, (lookup_name_some _ _ _ (<[i := t]> l)) by reflexivity.
  cbv beta iota.
  rewrite list_lookup_insert_eq by exact Hi. rewrite ret_run. cbv beta iota.
  rewrite bind_run, Hf. reflexivity.
Qed.

(** One pass of the loop on a trace that fails: the exception leaves the
    trace in the stream as the steps before it made it, and nothing is
    written. *)
Lemma condition_body_stops (c : Config) (i : nat) (s : State) (l : list Trace)
  (t : Trace) (e : exn) (origin : Q) :
  st (env s) = Some l ->
  l !! i = Some t ->
  origin_time (env s) = Some origin ->
  cut_trace' c origin t = Fail e ->
  condition_body fourier_resample c i s
  = Raise e (with_tr i (with_st (<[i := progress (cut_steps' c origin) t]> l) s)).
Proof.
  intros Hst Hi Horigin Hcut.
  assert (i < length l)%nat as Hlt by (eapply lookup_lt_Some; eassumption).
  set (final_trace := progress (cut_steps' c origin) t).
  change (with_tr i (with_st (<[i := final_trace]> l) s))
    with (with_st (<[i := final_trace]> l) (with_tr i s)).
  unfold condition_body.
  rewrite bind_run.
  change (set_tr i s) with (Ok tt (with_tr i s)). cbv beta iota.
  rewrite <- (with_st_id l (with_tr i s)) at 1 by exact Hst.
  rewrite <- (list_insert_id l i t Hi) at 1.
  unfold cut_trace in Hcut. unfold final_trace, cut_steps, progress.
  destruct (step_decimate c t) as [a1 | e1] eqn:E1.
  2: { simpl in Hcut. assert (e1 = e) as -> by congruence.
       now rewrite (mutate_tr_fail i _ _ l t e) by (reflexivity || assumption). }
  simpl in Hcut.
  rewrite (mutate_tr_next i _ _ l t a1) by (reflexivity || assumption).
  destruct (step_resample fourier_resample c a1) as [a2 | e2] eqn:E2.
  2: { simpl in Hcut. assert (e2 = e) as -> by congruence.
       now rewrite (mutate_tr_fail i _ _ l a1 e) by (reflexivity || assumption). }
  simpl in Hcut.
  rewrite (mutate_tr_next i _ _ l a1 a2) by (reflexivity || assumption).
  rewrite bind_run, (lookup_name_some _ _ _ origin) by exact Horigin. cbv beta iota.
  pose (a3 := set_sac (set_t1 (reference_time c origin a2) (sac a2)) a2).
  rewrite (mutate_tr_next i _ _ l a2 a3) by (reflexivity || assumption).
  change (step_t1 c origin a2) with (Done a3). cbv beta iota.
  change (set_sac (set_t1 (reference_time c origin a2) (sac a2)) a2) with a3 in Hcut.
  destruct (step_trim c a3) as [a4 | e4] eqn:E4.
  2: { simpl in Hcut. assert (e4 = e) as -> by congruence.
       now rewrite (mutate_tr_fail i _ _ l a3 e) by (reflexivity || assumption). }
  discriminate.
Qed.

Lemma condition_loop_tail (c : Config) (origin : Q) (rest rest' : list Trace) :
  Forall2 (fun t t' => cut_trace' c origin t = Done t') rest rest' ->
  forall (paths : list string),
    Forall2 (fun t' path => dat_path c t' = Done path) rest' paths ->
    forall (done tail : list Trace) (old : option nat) (fs : gmap string File)
           (s : State),
      origin_time (env s) = Some origin ->
      for_each (seq (length done) (length rest))
               (condition_body fourier_resample c)
               (conditioned (done ++ rest ++ tail) old fs s)
      = Ok tt (conditioned (done ++ rest' ++ tail) (last_index done rest old)
                           (saved (zip paths rest') fs) s).
Proof.
  induction 1 as [| t t' rest rest' Hcut _ IH];
    intros paths Hpaths done tail old fs s Horigin.
  - inversion Hpaths; subst. reflexivity.
  - inversion Hpaths as [| ? path ? ps Hpath Hps]; subst.
    simpl length. simpl seq. rewrite for_each_cons.
    assert ((done ++ (t :: rest) ++ tail) !! length done = Some t) as Hi
      by now apply list_lookup_middle.
    rewrite (condition_body_run _ c (length done) _ (done ++ (t :: rest) ++ tail)
               t t' path origin);
      try assumption; try reflexivity.
    simpl app. rewrite insert_app_r_alt by lia.
    replace (length done - length done)%nat with 0%nat by lia. simpl.
    replace (S (length done)) with (length (done ++ [t']))
      by (rewrite length_app; simpl; lia).
    change (with_file path (SacFile t')
              (with_tr (length done)
                 (with_st (done ++ t' :: rest ++ tail)
                    (conditioned (done ++ t :: rest ++ tail) old fs s))))
      with (conditioned (done ++ t' :: rest ++ tail) (Some (length done))
                        (<[path := SacFile t']> fs) s).
    replace (done ++ t' :: rest ++ tail) with ((done ++ [t']) ++ rest ++ tail)
      by now rewrite <- app_assoc.
    rewrite (IH ps Hps (done ++ [t']) tail (Some (length done))
                (<[path := SacFile t']> fs) s Horigin).
    rewrite <- app_assoc. simpl.
    f_equal. f_equal.
    unfold last_index. rewrite length_app. simpl.
    destruct rest; simpl; f_equal; lia.
Qed.

Lemma prepare_stages (c : Config) (l l2 : list Trace) :
  Forall2 (fun t a => (a0 ← filter bandpass c t; taper cosine_taper a0) = Done a)
          l l2 ->
  exists l1,
    Forall2 (fun t t' => filter bandpass c t = Done t') l l1
    /\ Forall2 (fun t t' => taper cosine_taper t = Done t') l1 l2.
Proof.
  induction 1 as [| t a l l2 Hrun _ (l1 & H1 & H2)].
  - exists []. split; constructor.
  - destruct (filter bandpass c t) as [a0 |] eqn:Ea; [| discriminate].
    simpl in Hrun.
    exists (a0 :: l1). split; constructor; assumption.
Qed.


End ConditioningStops.

(** ** The Green's-function cell without a reduction velocity *)

Lemma mkdir_p_run (path : string) (s : State) :
  files (world s) !! path = None -> mkdir_p path s = Ok tt (with_dir path s).
Proof.
  intros H. unfold mkdir_p. rewrite bind_run.
  change (get_world s) with (Ok (world s) s). cbv beta iota. now rewrite H.
Qed.

Lemma write_dfile_unset (c : Config) (row : StationRow) (rows : list StationRow)
  (s : State) :
  vred c = None ->
  station_df (env s) = Some (row :: rows) ->
  write_dfile c s
  = Raise (TypeError "unsupported format string passed to NoneType.__format__")
          (with_file (dfile_out c) (TextFile "") s).
Proof.
  intros Hv Hrows. unfold write_dfile.
  rewrite bind_run, open_w_run. cbv beta iota.
  rewrite bind_run, (lookup_name_some _ _ _ (row :: rows)) by exact Hrows.
  cbv beta iota.
  rewrite for_each_cons, bind_run. unfold dfile_line. rewrite Hv.
  reflexivity.
Qed.

Section UnsetVelocity.

Variable bandpass : Q -> Q -> Z -> Q -> list Q -> Except (list Q).
Variable system : string -> World -> Z * World.

(** X15: with the reduction velocity left at [None] the conditioning cell takes
    the origin time as reference ([p = 0]), but the Green's-function cell
    cannot format the first line of the distance file: it stops with a
    [TypeError] in the first depth job, having made the directory of the
    synthetics and emptied the distance file, before any command is run. *)
Theorem unset_velocity_stops_the_green_cell (c : Config) (s : State)
  (row0 : EventRow) (rest : list EventRow)
  (srow : StationRow) (srows : list StationRow) :
  vred c = None ->
  df (env s) = Some (row0 :: rest) ->
  station_df (env s) = Some (srow :: srows) ->
  files (world s) !! (evid c +:+ "/" +:+ model c) = None ->
  p c = 0%Q
  /\ exists s',
       green_cell bandpass system c s
       = Raise (TypeError "unsupported format string passed to NoneType.__format__") s'
       /\ shell s' = shell s
       /\ files (world s') = <[dfile_out c := TextFile ""]> (files (world s))
       /\ dirs (world s') = {[evid c +:+ "/" +:+ model c]} ∪ dirs (world s)
       /\ depths (env s') = Some (depth_list (depth row0)).
Proof.
  intros Hv Hdf Hrows Hfree.
  split; [unfold p; now rewrite Hv |].
  unfold green_cell.
  rewrite bind_run, (lookup_name_some _ _ _ (row0 :: rest)) by exact Hdf.
  cbv beta iota.
  rewrite bind_run. change (first_row (row0 :: rest) s) with (Ok row0 s).
  cbv beta iota.
  rewrite bind_run.
  set (s1 := final (set_depths (depth_list (depth row0)) s)).
  change (set_depths (depth_list (depth row0)) s) with (Ok tt s1). cbv beta iota.
  rewrite bind_run.
  set (gdir := event_dir c +:+ "/" +:+ model c).
  set (s2 := final (set_green_dir gdir s1)).
  change (set_green_dir gdir s1) with (Ok tt s2). cbv beta iota.
  rewrite bind_run, (mkdir_p_run gdir s2) by exact Hfree. cbv beta iota.
  rewrite bind_run.
  pose proof (depth_list_length (depth row0)) as Hlen.
  destruct (depth_list (depth row0)) as [| d ds] eqn:Ed; [discriminate |].
  rewrite for_each_cons. unfold depth_job at 1.
  rewrite bind_run, (write_dfile_unset c srow srows) by assumption.
  eexists. split; [reflexivity |].
  repeat split.
Qed.

End UnsetVelocity.

(** ** The input file of the inversion *)

Lemma header_loop (path : string) (hs : list (string * string)) :
  forall (s : State) (written : string),
    for_each hs (fun kv => f_write path (ljust 15 kv.1 +:+ kv.2 +:+ nl))
             (with_file path (TextFile written) s)
    = Ok tt (with_file path (TextFile (written +:+ header_text hs)) s).
Proof.
  induction hs as [| kv hs IH]; intros s written.
  - simpl. now rewrite append_nil_r.
  - rewrite for_each_cons, f_write_run, IH. simpl header_text.
    now rewrite append_assoc.
Qed.

Section InversionInput.

Variable system : string -> World -> Z * World.
Variable str_float : Q -> string.
Variable to_string : list ManifestRow -> string.

Local Abbreviation manifest_cell' := (manifest_cell str_float to_string).
Local Abbreviation write_manifest_cell' := (write_manifest_cell system to_string).

Local Open Scope string_scope.

(** The cell that writes the input file, from a namespace in which the
    headers and the station table are bound. *)
Lemma write_manifest_cell_run (s : State) (hs : list (string * string))
  (table : list ManifestRow) :
  headers (env s) = Some hs ->
  df_out (env s) = Some table ->
  let text := header_text hs +:+ to_string table in
  write_manifest_cell' s
  = Ok tt (mkState (env s)
                   (system "cat mtinv.in"
                           (world (with_file "mtinv.in" (TextFile text) s))).2
                   (shell s ++ ["cat mtinv.in"])%list
                   (stdout s)).
Proof.
  intros Hhs Htable text. unfold write_manifest_cell.
  rewrite bind_run, open_w_run. cbv beta iota.
  rewrite bind_run, (lookup_name_some _ _ _ hs) by exact Hhs. cbv beta iota.
  rewrite bind_run, header_loop. cbv beta iota.
  rewrite bind_run, (lookup_name_some _ _ _ table) by exact Htable. cbv beta iota.
  rewrite bind_run, f_write_run. cbv beta iota.
  rewrite os_system_then. reflexivity.
Qed.

(** X18: the last two cells, run from a namespace in which the first cells have
    bound the tables, the depth list and the directory of the synthetics:
    the headers are the twelve keys in the order of the source, every key
    fills exactly 15 columns, the depths are listed with four zero
    decimals, the station table is printed once, and [mtinv.in] holds the
    header lines followed by the station table, whatever it held before,
    by the time it is listed. *)
Theorem inversion_input_layout (c : Config) (s : State)
  (row0 : EventRow) (rest : list EventRow) (ds : list Z) (gdir : string)
  (rows : list StationRow) :
  df (env s) = Some (row0 :: rest) ->
  depths (env s) = Some ds ->
  green_dir (env s) = Some gdir ->
  station_df (env s) = Some rows ->
  exists s1 s2 hs,
    manifest_cell' c s = Ok tt s1
    /\ write_manifest_cell' s1 = Ok tt s2
    /\ headers (env s1) = Some hs
    /\ df_out (env s1) = Some (map (manifest_row c) rows)
    /\ map fst hs
       = ["datetime"; "longitude"; "latitude"; "depth"; "path_to_data";
          "path_to_green"; "green"; "components"; "degree"; "weight"; "plot";
          "correlate"]
    /\ Forall (fun kv => String.length (ljust 15 kv.1) = 15%nat) hs
    /\ hs !! 3%nat
       = Some ("depth", join "," (map (fun z => format_d z +:+ ".0000") ds))
    /\ hs !! 4%nat = Some ("path_to_data", evid c)
    /\ hs !! 5%nat = Some ("path_to_green", gdir)
    /\ stdout s1 = (stdout s ++ [to_string (map (manifest_row c) rows)])%list
    /\ world s2
       = (system "cat mtinv.in"
            (mkWorld (dirs (world s))
               (<["mtinv.in" :=
                    TextFile (header_text hs
                              +:+ to_string (map (manifest_row c) rows))]>
                  (files (world s))))).2
    /\ shell s2 = (shell s ++ ["cat mtinv.in"])%list.
Proof.
  intros Hdf Hds Hgdir Hrows.
  assert (map (fun d => format_f 4 (inject_Z d)) ds
          = map (fun z => format_d z +:+ ".0000") ds) as Hlabels.
  { apply map_ext. intros z. apply format_f_whole. }
  unfold manifest_cell.
  rewrite bind_run, (lookup_name_some _ _ _ (row0 :: rest)) by exact Hdf.
  cbv beta iota.
  rewrite bind_run. change (first_row (row0 :: rest) s) with (Ok row0 s).
  cbv beta iota.
  rewrite bind_run, (lookup_name_some _ _ _ ds) by exact Hds. cbv beta iota.
  rewrite bind_run, (lookup_name_some _ _ _ gdir) by exact Hgdir. cbv beta iota.
  rewrite Hlabels.
  rewrite bind_run.
  match goal with
  | |- context [set_headers ?h s] =>
      set (hs := h); set (s0 := final (set_headers hs s));
      change (set_headers hs s) with (Ok tt s0)
  end.
  cbv beta iota.
  rewrite bind_run, (lookup_name_some _ _ _ rows) by exact Hrows. cbv beta iota.
  rewrite bind_run.
  set (table := map (manifest_row c) rows).
  set (s0' := final (set_df_out table s0)).
  change (set_df_out table s0) with (Ok tt s0'). cbv beta iota.
  set (s1 := final (print (to_string table) s0')).
  change (print (to_string table) s0') with (Ok tt s1).
  exists s1. eexists. exists hs.
  split; [reflexivity |]. split.
  { apply (write_manifest_cell_run s1 hs table); reflexivity. }
  split; [reflexivity |]. split; [reflexivity |]. split; [reflexivity |].
  split.
  { unfold hs. repeat constructor. }
  repeat split.
Qed.

(** X19: the writing cell opens [mtinv.in] for writing before it looks at the
    names it writes from: run ahead of the header cell it stops with a
    [NameError] and leaves the file empty, and with the headers but not
    the station table bound it leaves the header lines alone; the file is
    not listed. *)
Theorem writing_ahead_of_the_headers (s : State) :
  (headers (env s) = None ->
   write_manifest_cell' s
   = Raise (NameError "headers") (with_file "mtinv.in" (TextFile "") s))
  /\ (forall hs,
        headers (env s) = Some hs ->
        df_out (env s) = None ->
        write_manifest_cell' s
        = Raise (NameError "df_out")
                (with_file "mtinv.in" (TextFile (header_text hs)) s)).
Proof.
  split.
  - intros Hnone. unfold write_manifest_cell.
    rewrite bind_run, open_w_run. cbv beta iota.
    rewrite bind_run, lookup_name_none by exact Hnone. reflexivity.
  - intros hs Hhs Hnone. unfold write_manifest_cell.
    rewrite bind_run, open_w_run. cbv beta iota.
    rewrite bind_run, (lookup_name_some _ _ _ hs) by exact Hhs. cbv beta iota.
    rewrite bind_run, header_loop. cbv beta iota.
    rewrite bind_run, lookup_name_none by exact Hnone. reflexivity.
Qed.

End InversionInput.

(** ** The files of the filter-and-save loop *)

Section GreenFiles.

Variable bandpass : Q -> Q -> Z -> Q -> list Q -> Except (list Q).

Local Open Scope string_scope.

(** The name of a conditioned trace ends in [t], the name of a Green's
    function in the last letter of its component: the loop never writes
    over the file it reads. *)
Lemma dat_path_last (c : Config) (t : Trace) (path : string) :
  dat_path c t = Done path -> last_char path = Some "t"%char.
Proof.
  unfold dat_path. destruct (last_char (id t)); [| discriminate].
  intros [= <-]. rewrite <- !append_assoc. now rewrite last_char_app.
Qed.

Lemma green_path_last (gdir : string) (row : StationRow) (depth : Z) (grn : string) :
  In grn greens ->
  last_char (green_path gdir row depth grn) <> Some "t"%char.
Proof.
  intros Hin. unfold green_path. rewrite <- !append_assoc.
  unfold greens in Hin. simpl in Hin.
  repeat (destruct Hin as [<- | Hin]; [rewrite last_char_app; discriminate |]).
  contradiction.
Qed.

Lemma green_writes_in (gdir : string) (depth : Z) (out : Trace)
  (rows : list StationRow) (w : string * Trace) :
  In w (green_writes gdir depth out rows)
  <-> exists row grn,
        In row rows /\ In grn greens /\ w = (green_path gdir row depth grn, out).
Proof.
  unfold green_writes. rewrite in_concat. split.
  - intros (ws & Hws & Hw). apply in_map_iff in Hws as (row & <- & Hrow).
    apply in_map_iff in Hw as (grn & <- & Hgrn). now exists row, grn.
  - intros (row & grn & Hrow & Hgrn & ->).
    exists (map (fun grn => (green_path gdir row depth grn, out)) greens). split.
    + apply in_map_iff. now exists row.
    + apply in_map_iff. now exists grn.
Qed.

(** Writes that all carry one trace leave that trace under every name
    written. *)
Lemma saved_one_trace (out : Trace) (writes : list (string * Trace)) :
  (forall w, In w writes -> w.2 = out) ->
  forall (fs : gmap string File) (path : string),
    In path (map fst writes) \/ fs !! path = Some (SacFile out) ->
    saved writes fs !! path = Some (SacFile out).
Proof.
  induction writes as [| [p t] writes IH]; intros Hall fs path Hin.
  - destruct Hin as [[] | Hin]. exact Hin.
  - simpl. apply IH.
    + intros w Hw. apply Hall. now right.
    + assert (t = out) as -> by (apply (Hall (p, t)); now left).
      destruct (decide (p = path)) as [-> | Hne].
      * right. apply lookup_insert_eq.
      * destruct Hin as [[Heq | Hin] | Hin].
        -- simpl in Heq. congruence.
        -- now left.
        -- right. now rewrite lookup_insert_ne.
Qed.

(** X21: the filter-and-save loop of one depth reads one file, the conditioned
    trace that the loop variable [tr] of the conditioning cell was left on,
    whatever the station and the component: the ten files of every station
    of the table all hold that one trace, filtered once more, and no other
    file changes. *)
Theorem green_files_hold_one_trace (c : Config) (gdir : string) (depth : Z)
  (s : State) (i : nat) (l : list Trace) (cur obs out : Trace) (sacin : string)
  (rows : list StationRow) :
  tr (env s) = Some i ->
  st (env s) = Some l ->
  l !! i = Some cur ->
  dat_path c cur = Done sacin ->
  files (world s) !! sacin = Some (SacFile obs) ->
  filter bandpass c obs = Done out ->
  station_df (env s) = Some rows ->
  exists s',
    filter_and_save bandpass c gdir depth s = Ok tt s'
    /\ (forall row grn,
          In row rows -> In grn greens ->
          files (world s') !! green_path gdir row depth grn = Some (SacFile out))
    /\ (forall path,
          (forall row grn,
              In row rows -> In grn greens ->
              green_path gdir row depth grn <> path) ->
          files (world s') !! path = files (world s) !! path)
    /\ files (world s') !! sacin = Some (SacFile obs)
    /\ length (green_writes gdir depth out rows) = (10 * length rows)%nat
    /\ env s' = env s
    /\ shell s' = shell s.
Proof.
  intros Htr Hst Hcur Hsacin Hin Hfilter Hrows.
  assert (Forall (fun w => w.1 <> sacin) (green_writes gdir depth out rows)) as Hne.
  { apply List.Forall_forall. intros w Hw.
    apply green_writes_in in Hw as (row & grn & _ & Hgrn & ->). simpl.
    intros Heq. apply (green_path_last gdir row depth grn Hgrn).
    rewrite Heq. now apply dat_path_last with c cur. }
  eexists. split.
  { apply (filter_and_save_run bandpass c gdir depth s i l cur obs out sacin rows);
      assumption. }
  split; [| split; [| split; [| split; [| split; reflexivity]]]].
  - intros row grn Hrow Hgrn. simpl.
    apply saved_one_trace.
    + intros w Hw. now apply green_writes_in in Hw as (? & ? & _ & _ & ->).
    + left. apply in_map_iff. exists (green_path gdir row depth grn, out).
      split; [reflexivity |]. apply green_writes_in. now exists row, grn.
  - intros path Hout. simpl. apply saved_elsewhere.
    apply List.Forall_forall. intros w Hw.
    apply green_writes_in in Hw as (row & grn & Hrow & Hgrn & ->). simpl.
    now apply Hout.
  - simpl. now rewrite saved_elsewhere.
  - clear. induction rows as [| row rows IH]; [reflexivity |].
    rewrite green_writes_cons, length_app, IH. simpl. lia.
Qed.

End GreenFiles.

(** ** The Green's-function cell without the conditioning cell *)

Lemma depth_list_head (catalog_depth : Q) :
  exists later,
    depth_list catalog_depth = Z.min 10 (py_round catalog_depth) :: later.
Proof.
  unfold depth_list, sorted. simpl.
  destruct (20 <=? py_round catalog_depth) eqn:E20; simpl.
  - apply Z.leb_le in E20. rewrite Z.min_l by lia. eauto.
  - apply Z.leb_gt in E20.
    destruct (10 <=? py_round catalog_depth) eqn:E10; simpl.
    + apply Z.leb_le in E10. rewrite Z.min_l by lia. eauto.
    + apply Z.leb_gt in E10. rewrite Z.min_r by lia. eauto.
Qed.

Section LoopVariable.

Variable bandpass : Q -> Q -> Z -> Q -> list Q -> Except (list Q).
Variable system : string -> World -> Z * World.

Lemma filter_and_save_unbound (c : Config) (gdir : string) (depth : Z)
  (s : State) (row : StationRow) (rows : list StationRow) :
  station_df (env s) = Some (row :: rows) ->
  tr (env s) = None ->
  filter_and_save bandpass c gdir depth s = Raise (NameError "tr") s.
Proof.
  intros Hrows Htr. unfold filter_and_save.
  rewrite bind_run, (lookup_name_some _ _ _ (row :: rows)) by exact Hrows.
  cbv beta iota.
  rewrite for_each_cons. unfold greens. rewrite for_each_cons.
  unfold read_tr. rewrite !bind_run, lookup_name_none by exact Htr.
  reflexivity.
Qed.


End LoopVariable.

(** ** The sampling interval and the identity of a conditioned trace *)

Section ConditionedHeader.

Variable bandpass : Q -> Q -> Z -> Q -> list Q -> Except (list Q).
Variable cosine_taper : Q -> list Q -> Except (list Q).
Variable fourier_resample : Q -> Q -> list Q -> Except (list Q).

Local Abbreviation condition_trace' :=
  (condition_trace bandpass cosine_taper fourier_resample).
Local Abbreviation prepared' :=
  (prepared bandpass cosine_taper fourier_resample).

Lemma rtrim_rate (stop : Q) (t : Trace) :
  sampling_rate (rtrim stop t) = sampling_rate t.
Proof.
  unfold rtrim.
  destruct (_ =? 0); [reflexivity |].
  destruct (0 <? _); [reflexivity |].
  destruct (Qltb _ _); reflexivity.
Qed.

Lemma trim_rate (start stop : Q) (t t' : Trace) :
  trim start stop t = Done t' -> sampling_rate t' = sampling_rate t.
Proof.
  unfold trim. destruct (Qltb _ _); [discriminate |].
  intros [= <-]. rewrite rtrim_rate.
  now destruct (ltrim_fields start t) as (-> & _).
Qed.

(** X23: whatever the sampling rate of the record, a conditioned trace that
    holds samples ahead of the windowing is sampled at the target interval
    [dt]; it keeps the identifier and the distance of the record it was
    made from. *)
Theorem conditioned_trace_is_sampled_at_dt (c : Config) (origin_time : Q)
  (t t2 t' : Trace) :
  prepared' c t = Done t2 ->
  data t2 <> [] ->
  condition_trace' c origin_time t = Done t' ->
  sampling_rate t' = (1 / dt c)%Q
  /\ (delta_of t' == dt c)%Q
  /\ id t' = id t
  /\ dist (sac t') = dist (sac t).
Proof.
  intros Hprep Hsome Hrun.
  pose proof (prepared_keeps _ _ _ c t t2 Hprep) as (Nz & Hsr & _ & Hsac).
  specialize (Hsr Hsome).
  pose proof (condition_trace_id _ _ _ c origin_time t t' Hrun) as Hid.
  rewrite condition_trace_unfold, Hprep in Hrun. simpl in Hrun.
  destruct (trim _ _ _) as [t3 |] eqn:Htrim; [| discriminate].
  simpl in Hrun. injection Hrun as <-.
  pose proof (trim_rate _ _ _ _ Htrim) as Hrate.
  pose proof (trim_keeps_sac _ _ _ _ Htrim) as Hkept.
  assert (sampling_rate (finished origin_time t3) = (1 / dt c)%Q) as Hfinal.
  { change (sampling_rate (finished origin_time t3)) with (sampling_rate t3).
    rewrite Hrate. exact Hsr. }
  split; [exact Hfinal |]. split.
  - unfold delta_of. rewrite Hfinal. field. exact Nz.
  - split; [exact Hid |].
    change (dist (sac (finished origin_time t3))) with (dist (sac t3)).
    rewrite Hkept. simpl. now rewrite Hsac.
Qed.

End ConditionedHeader.

(** ** The first cell without its tables *)

Lemma read_event_csv_missing (path : string) (s : State) :
  files (world s) !! path = None ->
  read_event_csv path s = Raise (FileNotFoundError path) s.
Proof.
  intros H. unfold read_event_csv. rewrite bind_run.
  change (get_world s) with (Ok (world s) s). cbv beta iota. now rewrite H.
Qed.

Lemma read_station_csv_missing (path : string) (s : State) :
  files (world s) !! path = None ->
  read_station_csv path s = Raise (FileNotFoundError path) s.
Proof.
  intros H. unfold read_station_csv. rewrite bind_run.
  change (get_world s) with (Ok (world s) s). cbv beta iota. now rewrite H.
Qed.

Section MissingTables.

Variable UTCDateTime : string -> Except Q.

Local Abbreviation load_cell' := (load_cell UTCDateTime).

(** X24: the first cell checks for the directory of processed data and for
    nothing else.  With the directory there, a missing event table stops
    the cell with [FileNotFoundError] and nothing bound; a missing station
    table stops it with [df] bound; an event table without rows stops it
    with [KeyError] at [df['origin'][0]], both tables bound; and an origin
    that does not parse stops it with the exception of [UTCDateTime].  In
    none of these cases is [origin_time] or the stream bound by the cell. *)
Theorem missing_tables_stop_the_reading (c : Config) (s : State) :
  path_exists (world s) (sacdir c) = true ->
  (files (world s) !! infile c = None ->
   load_cell' c s = Raise (FileNotFoundError (infile c)) s)
  /\ (forall d,
        files (world s) !! infile c = Some (EventCsv d) ->
        files (world s) !! station_file c = None ->
        load_cell' c s
        = Raise (FileNotFoundError (station_file c)) (final (set_df d s)))
  /\ (forall rows,
        files (world s) !! infile c = Some (EventCsv []) ->
        files (world s) !! station_file c = Some (StationCsv rows) ->
        load_cell' c s
        = Raise (KeyError "0") (final (set_station_df rows (final (set_df [] s)))))
  /\ (forall row0 rest rows e,
        files (world s) !! infile c = Some (EventCsv (row0 :: rest)) ->
        files (world s) !! station_file c = Some (StationCsv rows) ->
        UTCDateTime (origin row0) = Fail e ->
        load_cell' c s
        = Raise e (final (set_station_df rows (final (set_df (row0 :: rest) s))))).
Proof.
  intros Hdir.
  assert (load_cell' c s
          = (d ← read_event_csv (infile c);
             set_df d;;
             rows ← read_station_csv (station_file c);
             set_station_df rows;;
             row0 ← first_row d;
             t ← lift (UTCDateTime (origin row0));
             set_origin_time t;;
             set_st [];;
             for_each rows (fun row =>
               ts ← read_components c row;
               old ← lookup_name "st" st;
               set_st (old ++ ts))) s) as ->.
  { unfold load_cell. rewrite bind_run.
    change (get_world s) with (Ok (world s) s). cbv beta iota. now rewrite Hdir. }
  split; [| split; [| split]].
  - intros Hnone. now rewrite bind_run, read_event_csv_missing.
  - intros d Hev Hnone.
    rewrite bind_run, (read_event_csv_run _ _ _ Hev). cbv beta iota.
    rewrite bind_run.
    set (s1 := final (set_df d s)).
    change (set_df d s) with (Ok tt s1). cbv beta iota.
    now rewrite bind_run, (read_station_csv_missing _ s1) by exact Hnone.
  - intros rows Hev Hst.
    rewrite bind_run, (read_event_csv_run _ _ _ Hev). cbv beta iota.
    rewrite bind_run.
    set (s1 := final (set_df [] s)).
    change (set_df [] s) with (Ok tt s1). cbv beta iota.
    rewrite bind_run, (read_station_csv_run _ s1 rows Hst). cbv beta iota.
    reflexivity.
  - intros row0 rest rows e Hev Hst Htime.
    rewrite bind_run, (read_event_csv_run _ _ _ Hev). cbv beta iota.
    rewrite bind_run.
    set (s1 := final (set_df (row0 :: rest) s)).
    change (set_df (row0 :: rest) s) with (Ok tt s1). cbv beta iota.
    rewrite bind_run, (read_station_csv_run _ s1 rows Hst). cbv beta iota.
    rewrite bind_run.
    set (s2 := final (set_station_df rows s1)).
    change (set_station_df rows s1) with (Ok tt s2). cbv beta iota.
    rewrite bind_run.
    change (first_row (row0 :: rest) s2) with (Ok row0 s2). cbv beta iota.
    rewrite bind_run, Htime. reflexivity.
Qed.

End MissingTables.

(** ** The cells on the small event *)

Module MoreRuns.
Import Scenario Cases.

Local Abbreviation condition :=
  (condition_cell still_bandpass still_taper still_resample notebook_config).
Local Abbreviation green := (green_cell still_bandpass modelling notebook_config).
Local Abbreviation headers_cell := (manifest_cell show_float show_table notebook_config).
Local Abbreviation write_cell := (write_manifest_cell modelling show_table).
Local Abbreviation notebook :=
  (run_all still_bandpass still_taper still_resample modelling clock
           show_float show_table notebook_config).



(** With the velocity unset the small event gets no further than the
    first line of the distance file. *)
Lemma unset_velocity_stops_the_green_cell_witness :
  exists s',
    green_cell still_bandpass modelling unset_velocity after_conditioning
    = Raise (TypeError "unsupported format string passed to NoneType.__format__") s'
    /\ shell s' = [].
Proof.
  destruct (unset_velocity_stops_the_green_cell still_bandpass modelling
              unset_velocity after_conditioning event [] qrdg [])
    as (_ & s' & Hrun & Hshell & _).
  - reflexivity.
  - vm_compute. reflexivity.
  - vm_compute. reflexivity.
  - vm_compute. reflexivity.
  - exists s'. split; [exact Hrun |]. rewrite Hshell. vm_compute. reflexivity.
Defined.

(** The state after the Green's-function cell on the small event. *)
Lemma green_cell_keeps_the_observations_witness :
  st (env (final (green after_conditioning))) = st (env after_conditioning)
  /\ depths (env (final (green after_conditioning))) = Some [10; 14; 20].
Proof.
  destruct (green_cell_keeps_the_observations still_bandpass modelling
              notebook_config after_conditioning) as (Hobs & _ & _ & Hbinds).
  split.
  - exact (f_equal (fun v => snd (fst v)) Hobs).
  - destruct (Hbinds (final (green after_conditioning))) as (row0 & rest & Hdf & Hds & _).
    + vm_compute. reflexivity.
    + rewrite Hds.
      assert (df (env after_conditioning) = Some [event]) as Hev
        by (vm_compute; reflexivity).
      rewrite Hev in Hdf. injection Hdf as <- _. reflexivity.
Defined.

(** The input file of the small event. *)
Lemma inversion_input_layout_witness :
  exists s1 s2,
    headers_cell (final (green after_conditioning)) = Ok tt s1
    /\ write_cell s1 = Ok tt s2
    /\ shell s2 = (shell (final (green after_conditioning)) ++ ["cat mtinv.in"%string]).
Proof.
  destruct (inversion_input_layout modelling show_float show_table notebook_config
              (final (green after_conditioning))
              event [] [10; 14; 20] "40191336/gil7" [qrdg])
    as (s1 & s2 & hs & Hrun1 & Hrun2 & _ & _ & _ & _ & _ & _ & _ & _ & _ & Hshell).
  - vm_compute. reflexivity.
  - vm_compute. reflexivity.
  - vm_compute. reflexivity.
  - vm_compute. reflexivity.
  - exists s1, s2. split; [exact Hrun1 |]. split; [exact Hrun2 | exact Hshell].
Defined.

(** Run in a fresh kernel, the writing cell leaves an empty input file. *)
Lemma writing_ahead_of_the_headers_witness :
  write_cell (fresh disk)
  = Raise (NameError "headers")
          (with_file "mtinv.in" (TextFile "") (fresh disk)).
Proof.
  apply (proj1 (writing_ahead_of_the_headers modelling show_table (fresh disk))).
  reflexivity.
Defined.

(** The whole notebook on the small event. *)
Lemma full_run_commands_witness :
  length (shell (final (notebook (fresh disk)))) = 14%nat.
Proof.
  destruct (full_run_commands still_bandpass still_taper still_resample modelling
              clock show_float show_table notebook_config (fresh disk)
              (final (notebook (fresh disk))))
    as (row0 & rest & _ & _ & Hlen).
  - vm_compute. reflexivity.
  - exact Hlen.
Defined.

(** The ten Green's functions of the small event at depth 10 all hold the
    conditioned vertical record. *)
Lemma green_files_hold_one_trace_witness :
  exists s',
    filter_and_save still_bandpass notebook_config "40191336/gil7" 10
                    after_conditioning = Ok tt s'
    /\ files (world s') !! green_path "40191336/gil7" qrdg 10 "TSS"
       = Some (SacFile (conditioned_of (observed "BHZ" 3))).
Proof.
  destruct (green_files_hold_one_trace still_bandpass notebook_config
              "40191336/gil7" 10 after_conditioning 1%nat
              [conditioned_of (observed "BHR" 4); conditioned_of (observed "BHZ" 3)]
              (conditioned_of (observed "BHZ" 3))
              (conditioned_of (observed "BHZ" 3))
              (conditioned_of (observed "BHZ" 3))
              "40191336/BK.QRDG.00.Z.dat" [qrdg])
    as (s' & Hrun & Hall & _).
  - vm_compute. reflexivity.
  - vm_compute. reflexivity.
  - reflexivity.
  - vm_compute. reflexivity.
  - vm_compute. reflexivity.
  - vm_compute. reflexivity.
  - vm_compute. reflexivity.
  - exists s'. split; [exact Hrun |].
    apply Hall; [now left | unfold greens; simpl; tauto].
Defined.


(** The conditioned vertical record of the small event is sampled at the
    notebook's interval of one second. *)
Lemma conditioned_trace_is_sampled_at_dt_witness :
  sampling_rate (conditioned_of (observed "BHZ" 3)) = (1 / 1)%Q
  /\ id (conditioned_of (observed "BHZ" 3)) = "BK.QRDG.00.BHZ"%string.
Proof.
  destruct (conditioned_trace_is_sampled_at_dt still_bandpass still_taper
              still_resample notebook_config 1000 (observed "BHZ" 3)
              (mkTrace "BK" "QRDG" "00" "BHZ" 1 990 [3; 3; 3]%Q
                       (mkSacHeader 81 None 0 None))
              (conditioned_of (observed "BHZ" 3)))
    as (Hrate & _ & Hid & _).
  - reflexivity.
  - discriminate.
  - vm_compute. reflexivity.
  - split; [exact Hrate | exact Hid].
Defined.

(** The directory is there, the event table is not. *)
Lemma missing_tables_stop_the_reading_witness :
  load_cell clock notebook_config (fresh empty_directory)
  = Raise (FileNotFoundError "40191336/datetime.csv") (fresh empty_directory).
Proof.
  apply (proj1 (missing_tables_stop_the_reading clock notebook_config
                  (fresh empty_directory) eq_refl)).
  reflexivity.
Defined.

End MoreRuns.

